(** * Quiz runner: session store, option shuffler and answer evaluator

    A shallow embedding of [session_optimizer.py] and of the core of
    [app.py], with the properties of the specification stated over it.

    Python values that travel through the program (question records, form
    values, the session blob, the spill cache entries) are JSON values; a
    Python [dict] is an association list in insertion order.  A character of
    a model string is one [ascii], so [String.length] is Python's [len] on
    text whose code points are below 256. *)

From Stdlib Require Import ZArith String Ascii List Lia Permutation.
From Stdlib Require Import DecimalString QArith Qabs.
From Stdlib Require Import Floats.SpecFloat.
From Stdlib Require DecimalZ DecimalPos.
From stdpp Require Import base gmap strings list sorting.

Local Open Scope string_scope.

(** ** Python values *)

#[warnings="-register-all"]
Inductive json : Type :=
| JNull
| JBool (b : bool)
| JInt (z : Z)
| JStr (s : string)
| JList (l : list json)
| JDict (d : list (string * json)).

(** A Python dictionary with string keys, in insertion order. *)
Abbreviation dict := (list (string * json)).

Inductive exn : Type :=
| KeyError
| TypeError
| ValueError
| IndexError
| AttributeError
| ZeroDivisionError.

Inductive result (A : Type) : Type :=
| Ok (a : A)
| Raise (e : exn).
Arguments Ok {A} a.
Arguments Raise {A} e.

#[global] Instance result_ret : MRet result := fun A a => Ok a.
#[global] Instance result_bind : MBind result := fun A B k r =>
  match r with
  | Ok a => k a
  | Raise e => Raise e
  end.

(** [d.get(k)] as an option, [d.get(k, default)], and [d[k] = v]. *)
Fixpoint dict_get {V} (k : string) (d : list (string * V)) : option V :=
  match d with
  | [] => None
  | (k', v) :: d' => if String.eqb k k' then Some v else dict_get k d'
  end.

Definition dict_get_default (k : string) (default : json) (d : dict) : json :=
  match dict_get k d with
  | Some v => v
  | None => default
  end.

Fixpoint dict_set {V} (k : string) (v : V) (d : list (string * V))
  : list (string * V) :=
  match d with
  | [] => [(k, v)]
  | (k', v') :: d' =>
      if String.eqb k k' then (k', v) :: d' else (k', v') :: dict_set k v d'
  end.

Definition dict_keys {V} (d : list (string * V)) : list string := map fst d.
Definition dict_values {V} (d : list (string * V)) : list V := map snd d.

(** [v[k]] for a dictionary [v]. *)
Definition getitem (v : json) (k : string) : result json :=
  match v with
  | JDict d =>
      match dict_get k d with
      | Some x => Ok x
      | None => Raise KeyError
      end
  | _ => Raise TypeError
  end.

(** Python truthiness. *)
Definition truthy (v : json) : bool :=
  match v with
  | JNull => false
  | JBool b => b
  | JInt z => negb (Z.eqb z 0)
  | JStr s => negb (String.eqb s EmptyString)
  | JList l => negb (Nat.eqb (length l) 0)
  | JDict d => negb (Nat.eqb (length d) 0)
  end.

Definition py_len (v : json) : result nat :=
  match v with
  | JStr s => Ok (String.length s)
  | JList l => Ok (length l)
  | JDict d => Ok (length d)
  | _ => Raise TypeError
  end.

(** Python's [==] on loaded JSON: a boolean equals the number 1 or 0,
    lists are compared element by element, dictionaries key by key
    whatever their order. *)
Fixpoint py_eq (a b : json) : bool :=
  match a, b with
  | JNull, JNull => true
  | JBool x, JBool y => Bool.eqb x y
  | JBool x, JInt y => Z.eqb (if x then 1 else 0) y
  | JInt x, JBool y => Z.eqb x (if y then 1 else 0)
  | JInt x, JInt y => Z.eqb x y
  | JStr x, JStr y => String.eqb x y
  | JList x, JList y =>
      (fix go (x y : list json) : bool :=
         match x, y with
         | [], [] => true
         | a' :: x', b' :: y' => py_eq a' b' && go x' y'
         | _, _ => false
         end) x y
  | JDict x, JDict y =>
      Nat.eqb (length x) (length y)
      && forallb (fun kv => let '(k, a') := kv in
                            match dict_get k y with
                            | Some b' => py_eq a' b'
                            | None => false
                            end) x
  | _, _ => false
  end.

(** [str(v)] as an f-string renders it; containers are outside the data
    the program formats and are a [TypeError] of the model. *)
Definition str_of_Z (z : Z) : string := NilZero.string_of_int (Z.to_int z).

Definition py_str (v : json) : result string :=
  match v with
  | JNull => Ok "None"
  | JBool true => Ok "True"
  | JBool false => Ok "False"
  | JInt z => Ok (str_of_Z z)
  | JStr s => Ok s
  | _ => Raise TypeError
  end.

(** A string of the model holds code points below 256.

    [int(s)] on text: surrounding white space is dropped, then an optional
    sign and decimal digits, single underscores allowed between digits.
    Of the code points below 256 [int] skips the characters 9 to 13, the
    space, 133 and 160; the separators 28 to 31 are not skipped.  Text of
    more than [int_max_str_digits] digits is refused, whatever its sign,
    its underscores and the white space around it. *)
Definition is_space (c : ascii) : bool :=
  let n := nat_of_ascii c in
  (Nat.leb 9 n && Nat.leb n 13) || Nat.eqb n 32 || Nat.eqb n 133 || Nat.eqb n 160.

Fixpoint lstrip (s : string) : string :=
  match s with
  | String c s' => if is_space c then lstrip s' else s
  | EmptyString => EmptyString
  end.

Fixpoint rstrip (s : string) : string :=
  match s with
  | EmptyString => EmptyString
  | String c s' =>
      match rstrip s' with
      | EmptyString => if is_space c then EmptyString else String c EmptyString
      | r => String c r
      end
  end.

Definition digit_of (c : ascii) : option Z :=
  let n := nat_of_ascii c in
  if Nat.leb 48 n && Nat.leb n 57 then Some (Z.of_nat (n - 48)) else None.

Fixpoint parse_digits (s : string) (acc : Z) (after_digit : bool) : option Z :=
  match s with
  | EmptyString => if after_digit then Some acc else None
  | String c s' =>
      match digit_of c with
      | Some d => parse_digits s' (acc * 10 + d) true
      | None =>
          if Nat.eqb (nat_of_ascii c) 95 && after_digit
          then parse_digits s' acc false
          else None
      end
  end.

(** [sys.get_int_max_str_digits()], which the program leaves at its default. *)
Definition int_max_str_digits : Z := 4300.

Fixpoint count_digits (s : string) : Z :=
  match s with
  | EmptyString => 0
  | String c s' =>
      (match digit_of c with Some _ => 1 | None => 0 end + count_digits s')%Z
  end.

Definition py_int (s : string) : result Z :=
  let body := rstrip (lstrip s) in
  let parsed :=
    match body with
    | String c rest =>
        if Nat.eqb (nat_of_ascii c) 45 then Z.opp <$> parse_digits rest 0 false
        else if Nat.eqb (nat_of_ascii c) 43 then parse_digits rest 0 false
        else parse_digits body 0 false
    | EmptyString => None
    end in
  match parsed with
  | Some z =>
      if (int_max_str_digits <? count_digits body)%Z then Raise ValueError
      else Ok z
  | None => Raise ValueError
  end.

(** [s.replace('_', ' ')] *)
Fixpoint replace_underscore (s : string) : string :=
  match s with
  | EmptyString => EmptyString
  | String c s' =>
      String (if Nat.eqb (nat_of_ascii c) 95 then " "%char else c)
             (replace_underscore s')
  end.

(** [s.title()] on code points below 256.  The cased ones are the letters
    A to Z and a to z, the ordinal indicators 170 and 186, the micro sign
    181, and 192 to 255 without the signs 215 and 247.  After a cased
    character a character is put in lower case; any other character is put
    in title case, which is its upper case but for the sharp s, 223, whose
    title case is the two letters Ss.  The title case of the micro sign and
    of 255 lies above 255, where a string of the model has no character:
    [title] leaves these two as they are, and [title_below_256] tells the
    text that holds neither of them. *)
Definition between (lo hi n : nat) : bool := Nat.leb lo n && Nat.leb n hi.

Definition is_cased (c : ascii) : bool :=
  let n := nat_of_ascii c in
  between 65 90 n || between 97 122 n
  || Nat.eqb n 170 || Nat.eqb n 181 || Nat.eqb n 186
  || between 192 214 n || between 216 246 n || between 248 255 n.

Definition to_upper (c : ascii) : ascii :=
  let n := nat_of_ascii c in
  if between 97 122 n || between 224 246 n || between 248 254 n
  then ascii_of_nat (n - 32) else c.

Definition to_lower (c : ascii) : ascii :=
  let n := nat_of_ascii c in
  if between 65 90 n || between 192 214 n || between 216 222 n
  then ascii_of_nat (n + 32) else c.

Fixpoint title_from (previous_is_cased : bool) (s : string) : string :=
  match s with
  | EmptyString => EmptyString
  | String c s' =>
      let rest := title_from (is_cased c) s' in
      if previous_is_cased then String (to_lower c) rest
      else if Nat.eqb (nat_of_ascii c) 223 then String "S" (String "s" rest)
      else String (to_upper c) rest
  end.

Definition title (s : string) : string := title_from false s.

Fixpoint title_below_256 (s : string) : bool :=
  match s with
  | EmptyString => true
  | String c s' =>
      negb (Nat.eqb (nat_of_ascii c) 181 || Nat.eqb (nat_of_ascii c) 255)
      && title_below_256 s'
  end.

(** [sorted] on strings: the order of [str] is the order of code points. *)
Fixpoint insert_sorted (x : string) (l : list string) : list string :=
  match l with
  | [] => [x]
  | y :: l' => if String.leb x y then x :: l else y :: insert_sorted x l'
  end.

Fixpoint sorted (l : list string) : list string :=
  match l with
  | [] => []
  | x :: l' => insert_sorted x (sorted l')
  end.

(** ** Python floats

    A [float] is an IEEE 754 binary64 number; the operations are those of
    the specification of floating-point arithmetic, rounding to nearest,
    ties to even. *)

Module PyFloat.

Abbreviation float := spec_float.

Definition prec : Z := 53.
Definition emax : Z := 1024.

(** An integer as the operand of a division: its exact value. *)
Definition exact_of_Z (z : Z) : float :=
  match z with
  | Z0 => S754_zero false
  | Zpos p => S754_finite false p 0
  | Zneg p => S754_finite true p 0
  end.

(** [float(z)] *)
Definition of_Z (z : Z) : float := binary_normalize prec emax z 0 false.

(** [a / b] on integers: the quotient, correctly rounded. *)
Definition int_truediv (a b : Z) : float :=
  SFdiv prec emax (exact_of_Z a) (exact_of_Z b).

Definition mul (x y : float) : float := SFmul prec emax x y.

(** [x >= y] *)
Definition ge (x y : float) : bool := SFleb y x.

(** The quotient [n / d] for [0 <= n] and [0 < d], rounded to the nearest
    integer, a tie to the even one. *)
Definition round_half_even_div (n d : Z) : Z :=
  let q := (n / d)%Z in
  let r := (n mod d)%Z in
  match (2 * r ?= d)%Z with
  | Lt => q
  | Gt => (q + 1)%Z
  | Eq => if Z.even q then q else (q + 1)%Z
  end.

(** The number of tenths nearest to the magnitude of a finite float. *)
Definition tenths_of (m : positive) (e : Z) : Z :=
  if (0 <=? e)%Z then (10 * Zpos m * 2 ^ e)%Z
  else round_half_even_div (10 * Zpos m) (2 ^ (- e)).

(** The float nearest to [n / 10]. *)
Definition of_tenths (s : bool) (n : Z) : float :=
  match n with
  | Z0 => S754_zero s
  | Zpos p => SFdiv prec emax (S754_finite s p 0) (S754_finite false 10 0)
  | Zneg _ => S754_nan
  end.

(** [round(x, 1)]: the value of [x] is rounded to a decimal with one digit
    after the point, as the shortest-string conversion does it, and that
    decimal is read back as a float. *)
Definition round1 (x : float) : float :=
  match x with
  | S754_finite s m e => of_tenths s (tenths_of m e)
  | _ => x
  end.


End PyFloat.

(** ** [json.dumps(v, ensure_ascii=False)] *)

Definition dquote : ascii := ascii_of_nat 34.
Definition backslash : ascii := ascii_of_nat 92.

Definition hex_digit (n : nat) : ascii :=
  if Nat.ltb n 10 then ascii_of_nat (48 + n) else ascii_of_nat (87 + n).

(** The escape table of the encoder: the quote, the backslash and the
    control characters; everything else is written as it is. *)
Definition escape_char (c : ascii) : string :=
  let n := nat_of_ascii c in
  if Nat.eqb n 34 then String backslash (String dquote EmptyString)
  else if Nat.eqb n 92 then String backslash (String backslash EmptyString)
  else if Nat.eqb n 10 then String backslash "n"
  else if Nat.eqb n 13 then String backslash "r"
  else if Nat.eqb n 9 then String backslash "t"
  else if Nat.eqb n 8 then String backslash "b"
  else if Nat.eqb n 12 then String backslash "f"
  else if Nat.ltb n 32 then
    String backslash
      ("u00" ++ String (hex_digit (n / 16)) (String (hex_digit (n mod 16)) EmptyString))
  else String c EmptyString.

Fixpoint escape (s : string) : string :=
  match s with
  | EmptyString => EmptyString
  | String c s' => escape_char c ++ escape s'
  end.

Definition json_quote (s : string) : string :=
  String dquote (escape s ++ String dquote EmptyString).

Fixpoint join (sep : string) (parts : list string) : string :=
  match parts with
  | [] => EmptyString
  | [p] => p
  | p :: ps => p ++ sep ++ join sep ps
  end.

Fixpoint json_dumps (j : json) : string :=
  match j with
  | JNull => "null"
  | JBool true => "true"
  | JBool false => "false"
  | JInt z => str_of_Z z
  | JStr s => json_quote s
  | JList l => "[" ++ join ", " (map json_dumps l) ++ "]"
  | JDict d =>
      "{" ++ join ", "
               (map (fun kv => let '(k, v) := kv in
                               json_quote k ++ ": " ++ json_dumps v) d)
          ++ "}"
  end.

(** ** session_optimizer.py *)

Module SessionOptimizer.

(** The state the module works on: the wall clock, of which every call of
    [datetime.now()] takes the next reading, and the process-wide
    [session_cache]. *)
Record Store : Type := mkStore {
  clock : nat -> string;
  ticks : nat;
  session_cache : gmap string json
}.

(** [datetime.now().isoformat()] *)
Definition now_isoformat (st : Store) : string * Store :=
  (clock st (ticks st), mkStore (clock st) (S (ticks st)) (session_cache st)).

Section WithHash.

(** [hashlib.md5(s.encode()).hexdigest()] *)
Variable md5_hexdigest : string -> string.

Definition generate_session_id (st : Store) : string * Store :=
  let '(timestamp, st1) := now_isoformat st in
  (substring 0 16 (md5_hexdigest timestamp), st1).

Definition store_large_session (questions : list json) (quiz_mode : string)
    (st : Store) : dict * Store :=
  let '(session_id, st1) := generate_session_id st in
  let '(start_time, st2) := now_isoformat st1 in
  let compact_data : dict :=
    [ ("session_id", JStr session_id);
      ("quiz_mode", JStr quiz_mode);
      ("total_questions", JInt (Z.of_nat (length questions)));
      ("current_question", JInt 0);
      ("user_answers", JDict []);
      ("correct_answers", JInt 0);
      ("start_time", JStr start_time);
      ("is_large_session", JBool true) ] in
  let '(created_at, st3) := now_isoformat st2 in
  let large_data : json :=
    JDict [ ("questions", JList questions); ("created_at", JStr created_at) ] in
  (compact_data,
   mkStore (clock st3) (ticks st3) (<[session_id := large_data]> (session_cache st3))).

End WithHash.

(** [key in session_cache]: the cache holds string keys only; [None], a
    number or a boolean is hashable and never present, a list or a
    dictionary is unhashable. *)
Definition cache_lookup (key : json) (cache : gmap string json)
  : result (option json) :=
  match key with
  | JStr s => Ok (cache !! s)
  | JList _ | JDict _ => Raise TypeError
  | _ => Ok None
  end.

(** The result is a Python value: [JNull] is [None]. *)
Definition get_session_questions (session_data : dict)
    (cache : gmap string json) : result json :=
  if truthy (dict_get_default "is_large_session" JNull session_data) then
    let session_id := dict_get_default "session_id" JNull session_data in
    hit ← cache_lookup session_id cache;
    match hit with
    | Some large_data => getitem large_data "questions"
    | None => Ok JNull
    end
  else Ok (dict_get_default "questions" (JList []) session_data).

Definition sample_data (questions : list json) : json :=
  JDict [ ("questions", JList match questions with
                                 | [] => []
                                 | _ => take 1 questions
                                 end);
          ("quiz_mode", JStr "immediate");
          ("current_question", JInt 0);
          ("user_answers", JDict []);
          ("correct_answers", JInt 0) ].

Definition estimate_session_size (questions : list json) : nat :=
  let estimated_size := String.length (json_dumps (sample_data questions)) in
  match questions with
  | [] => 0
  | _ => estimated_size * length questions
  end.

Definition should_use_large_session (questions : list json) : bool :=
  let estimated_size := estimate_session_size questions in
  Nat.ltb 3000 estimated_size || Nat.ltb 40 (length questions).

End SessionOptimizer.

(** ** The random module

    The generator is an interface: a state, [random.shuffle] returning a
    rearrangement of its argument, and [random.sample] returning the first
    [k] elements of a rearrangement of the population. *)

Class Random (G : Type) : Type := {
  random_shuffle : forall {A : Type}, list A -> G -> list A * G;
  random_sample : forall {A : Type}, list A -> nat -> G -> list A * G;
  random_shuffle_perm : forall A (l : list A) g, (random_shuffle l g).1 ≡ₚ l;
  random_sample_take : forall A (l : list A) k g,
    exists l', l' ≡ₚ l /\ (random_sample l k g).1 = take k l'
}.

(** A generator whose state is a counter: it rotates the list by the
    counter, and advances. *)
Definition rotate_by {A} (n : nat) (l : list A) : list A :=
  drop (n mod length l) l ++ take (n mod length l) l.

Lemma rotate_by_perm {A} n (l : list A) : rotate_by n l ≡ₚ l.
Proof.
  unfold rotate_by. rewrite Permutation_app_comm. by rewrite take_drop.
Qed.

#[global] Instance rotating_random : Random nat := {|
  random_shuffle A l g := (rotate_by g l, S g);
  random_sample A l k g := (take k (rotate_by g l), S g);
  random_shuffle_perm A l g := rotate_by_perm g l;
  random_sample_take A l k g :=
    ex_intro _ (rotate_by g l) (conj (rotate_by_perm g l) eq_refl)
|}.

(** ** app.py *)

Module App.

Import SessionOptimizer.

(** [request.form]: the submitted fields in order, a name possibly several
    times.  [form.get(name)] is the first value, [form.getlist(name)] all. *)
Abbreviation form := (list (string * string)).

Fixpoint form_get (name : string) (f : form) : option string :=
  match f with
  | [] => None
  | (n, v) :: f' => if String.eqb name n then Some v else form_get name f'
  end.

Fixpoint form_getlist (name : string) (f : form) : list string :=
  match f with
  | [] => []
  | (n, v) :: f' =>
      if String.eqb name n then v :: form_getlist name f'
      else form_getlist name f'
  end.

Definition opt_to_json (o : option string) : json :=
  match o with
  | Some s => JStr s
  | None => JNull
  end.

Definition is_mapping_question (question : json) : result bool :=
  correct_answer ← getitem question "correct_answer";
  Ok match correct_answer with
     | JDict _ => true
     | _ => false
     end.

Definition is_multiple_choice_question (question : json) : result bool :=
  mapping ← is_mapping_question question;
  if mapping : bool then Ok false
  else
    correct_answer ← getitem question "correct_answer";
    n ← py_len correct_answer;
    Ok (Nat.ltb 1 n).

(** The elements a [for] loop or a comprehension draws from a value of the
    question bank: the items of a list. *)
Definition iter_list (v : json) : result (list json) :=
  match v with
  | JList l => Ok l
  | _ => Raise TypeError
  end.

Definition as_dict (v : json) : result dict :=
  match v with
  | JDict d => Ok d
  | _ => Raise AttributeError
  end.

Section Shuffle.

Context {G : Type} `{Random G}.

(** The body of the [for i, value in enumerate(option_values)] loop, with
    the two dictionaries it fills. *)
Fixpoint remap_loop (option_keys : list string) (original_options : dict)
    (i : nat) (option_values : list json)
    (shuffled_options : dict) (value_to_new_key : gmap string string)
  : result (dict * gmap string string) :=
  match option_values with
  | [] => Ok (shuffled_options, value_to_new_key)
  | value :: rest =>
      match option_keys !! i with
      | None => Raise IndexError
      | Some new_key =>
          let shuffled_options' := dict_set new_key value shuffled_options in
          let value_to_new_key' :=
            match find (fun kv => py_eq kv.2 value) original_options with
            | Some (orig_key, _) => <[orig_key := new_key]> value_to_new_key
            | None => value_to_new_key
            end in
          remap_loop option_keys original_options (S i) rest
                     shuffled_options' value_to_new_key'
      end
  end.

(** [value_to_new_key[correct_key]] *)
Definition new_key_of (value_to_new_key : gmap string string)
    (correct_key : json) : result json :=
  match correct_key with
  | JStr k =>
      match value_to_new_key !! k with
      | Some new_key => Ok (JStr new_key)
      | None => Raise KeyError
      end
  | JList _ | JDict _ => Raise TypeError
  | _ => Raise KeyError
  end.

Fixpoint mapM {A B} (f : A -> result B) (l : list A) : result (list B) :=
  match l with
  | [] => Ok []
  | x :: l' => y ← f x; ys ← mapM f l'; Ok (y :: ys)
  end.

Definition _shuffle_standard_question_options (question : json) (g : G)
  : result json * G :=
  match question with
  | JDict shuffled_question =>
      match (original_options ← getitem question "options";
             options ← as_dict original_options;
             original_correct ← getitem question "correct_answer";
             Ok (options, original_correct)) with
      | Raise e => (Raise e, g)
      | Ok (original_options, original_correct) =>
          let option_keys := dict_keys original_options in
          let '(option_values, g') :=
            random_shuffle (dict_values original_options) g in
          (r ← remap_loop option_keys original_options 0 option_values [] ∅;
           let '(shuffled_options, value_to_new_key) := r in
           correct_keys ← iter_list original_correct;
           new_correct_answers ← mapM (new_key_of value_to_new_key) correct_keys;
           Ok (JDict (dict_set "correct_answer" (JList new_correct_answers)
                        (dict_set "options" (JDict shuffled_options)
                           shuffled_question))),
           g')
      end
  | _ => (Raise AttributeError, g)
  end.

(** The loop over [question['options'].items()] of the mapping shuffle,
    with the two dictionaries of the new question. *)
Fixpoint shuffle_sub_questions (question : json) (items : dict)
    (new_options new_correct : dict) (g : G) : result (dict * dict) * G :=
  match items with
  | [] => (Ok (new_options, new_correct), g)
  | (sub_question_key, option_list) :: rest =>
      match option_list with
      | JList candidates =>
          let '(shuffled_options, g') := random_shuffle candidates g in
          match (correct ← getitem question "correct_answer";
                 getitem correct sub_question_key) with
          | Raise e => (Raise e, g')
          | Ok correct_answer =>
              shuffle_sub_questions question rest
                (dict_set sub_question_key (JList shuffled_options) new_options)
                (dict_set sub_question_key correct_answer new_correct) g'
          end
      | _ => (Raise AttributeError, g)
      end
  end.

Definition _shuffle_mapping_question_options (question : json) (g : G)
  : result json * G :=
  match question with
  | JDict shuffled_question =>
      match (options ← getitem question "options"; as_dict options) with
      | Raise e => (Raise e, g)
      | Ok items =>
          let '(r, g') := shuffle_sub_questions question items [] [] g in
          (r' ← r;
           let '(new_options, new_correct) := r' : dict * dict in
           Ok (JDict (dict_set "correct_answer" (JDict new_correct)
                        (dict_set "options" (JDict new_options)
                           shuffled_question))),
           g')
      end
  | _ => (Raise AttributeError, g)
  end.

Definition shuffle_question_options (question : json) (g : G)
  : result json * G :=
  match is_mapping_question question with
  | Raise e => (Raise e, g)
  | Ok true => _shuffle_mapping_question_options question g
  | Ok false => _shuffle_standard_question_options question g
  end.

End Shuffle.

(** [key in d] for a dictionary [d] with string keys. *)
Definition dict_contains (key : json) (d : dict) : result bool :=
  match key with
  | JStr k => Ok (bool_decide (is_Some (dict_get k d)))
  | JList _ | JDict _ => Raise TypeError
  | _ => Ok false
  end.

Fixpoint get_answer_text_from_keys (question : json) (answer_keys : list json)
  : result (list string) :=
  match answer_keys with
  | [] => Ok []
  | key :: rest =>
      options ← getitem question "options";
      options ← as_dict options;
      present ← dict_contains key options;
      if present : bool then
        label ← py_str key;
        text ← getitem (JDict options) label;
        text ← py_str text;
        texts ← get_answer_text_from_keys question rest;
        Ok ((label ++ ") " ++ text) :: texts)
      else get_answer_text_from_keys question rest
  end.

(** The loop of [get_mapping_answer_display] with its two lists. *)
Fixpoint mapping_display_parts (question : json) (user_answers : dict)
    (sub_question_keys : list string) : result (list string * list string) :=
  match sub_question_keys with
  | [] => Ok ([], [])
  | sub_question_key :: rest =>
      let display_key := title (replace_underscore sub_question_key) in
      user_answer ← py_str (dict_get_default sub_question_key
                              (JStr "Not answered") user_answers);
      correct ← getitem question "correct_answer";
      correct_answer ← getitem correct sub_question_key;
      correct_answer ← py_str correct_answer;
      parts ← mapping_display_parts question user_answers rest;
      Ok ((display_key ++ ": " ++ user_answer) :: parts.1,
          (display_key ++ ": " ++ correct_answer) :: parts.2)
  end.

Definition get_mapping_answer_display (question : json) (user_answers : dict)
  : result (string * string) :=
  options ← getitem question "options";
  options ← as_dict options;
  parts ← mapping_display_parts question user_answers (dict_keys options);
  Ok (join " | " parts.1, join " | " parts.2).

Record AnswerProcessor : Type := mkAnswerProcessor {
  question : json;
  is_mapping : bool;
  is_multiple_choice : bool
}.

(** [AnswerProcessor.__init__] *)
Definition AnswerProcessor_init (question : json) : result AnswerProcessor :=
  mapping ← is_mapping_question question;
  multiple ← is_multiple_choice_question question;
  Ok (mkAnswerProcessor question mapping multiple).

(** What [process_user_answer] returns:
    [(user_answer_data, is_correct, user_display, correct_display)]. *)
Abbreviation answer_result := (json * bool * string * string)%type.

(** The name of the form field of a standard question. *)
Definition answer_field (self : AnswerProcessor) (question_prefix : string)
  : result string :=
  if String.eqb question_prefix "batch" then
    number ← getitem (question self) "question_number";
    number ← py_str number;
    Ok ("question_" ++ number)
  else Ok (question_prefix ++ "answer").

(** The name of the form field of one sub-question of a mapping question. *)
Definition mapping_field (self : AnswerProcessor) (question_prefix : string)
    (sub_question_key : string) : result string :=
  if String.eqb question_prefix "batch" then
    number ← getitem (question self) "question_number";
    number ← py_str number;
    Ok ("mapping_" ++ number ++ "_" ++ sub_question_key)
  else Ok (question_prefix ++ "mapping_" ++ sub_question_key).

(** The loop of [_process_mapping_answer] with [user_answers] and
    [is_correct]. *)
Fixpoint mapping_answer_loop (self : AnswerProcessor) (form_data : form)
    (question_prefix : string) (correct_answers : json)
    (sub_question_keys : list string) (user_answers : dict) (is_correct : bool)
  : result (dict * bool) :=
  match sub_question_keys with
  | [] => Ok (user_answers, is_correct)
  | sub_question_key :: rest =>
      field_name ← mapping_field self question_prefix sub_question_key;
      let user_answer := opt_to_json (form_get field_name form_data) in
      let user_answers' := dict_set sub_question_key user_answer user_answers in
      expected ← getitem correct_answers sub_question_key;
      mapping_answer_loop self form_data question_prefix correct_answers rest
        user_answers' (if py_eq user_answer expected then is_correct else false)
  end.

Definition _process_mapping_answer (self : AnswerProcessor) (form_data : form)
    (question_prefix : string) (correct_answers : json) : result answer_result :=
  options ← getitem (question self) "options";
  options ← as_dict options;
  r ← mapping_answer_loop self form_data question_prefix correct_answers
        (dict_keys options) [] true;
  display ← get_mapping_answer_display (question self) r.1;
  Ok (JDict r.1, r.2, display.1, display.2).

(** The labels of a correct answer, for [sorted]. *)
Definition as_label (v : json) : result string :=
  match v with
  | JStr s => Ok s
  | _ => Raise TypeError
  end.

Definition labels_of (v : json) : result (list string) :=
  l ← iter_list v; mapM as_label l.

Definition _process_multiple_choice_answer (self : AnswerProcessor)
    (form_data : form) (question_prefix : string) (correct_answers : json)
  : result answer_result :=
  field_name ← answer_field self question_prefix;
  let user_answers := sorted (form_getlist field_name form_data) in
  correct_labels ← labels_of correct_answers;
  let correct_answers_sorted := sorted correct_labels in
  let is_correct := bool_decide (user_answers = correct_answers_sorted) in
  user_answer_texts ←
    match user_answers with
    | [] => Ok ["None"]
    | _ => get_answer_text_from_keys (question self) (JStr <$> user_answers)
    end;
  correct_answer_texts ←
    get_answer_text_from_keys (question self) (JStr <$> correct_answers_sorted);
  Ok (JList (JStr <$> user_answers), is_correct,
      join " | " user_answer_texts, join " | " correct_answer_texts).

(** [texts[0]] *)
Definition first_text (texts : list string) : result string :=
  match texts with
  | t :: _ => Ok t
  | [] => Raise IndexError
  end.

Definition _process_single_answer (self : AnswerProcessor) (form_data : form)
    (question_prefix : string) (correct_answers : json) : result answer_result :=
  field_name ← answer_field self question_prefix;
  let user_answer := opt_to_json (form_get field_name form_data) in
  let user_answers := if truthy user_answer then [user_answer] else [] in
  correct_keys ← iter_list correct_answers;
  first_correct ← match correct_keys with
                  | c :: _ => Ok c
                  | [] => Raise IndexError
                  end;
  let is_correct := py_eq user_answer first_correct in
  user_answer_texts ←
    (if truthy user_answer
     then get_answer_text_from_keys (question self) [user_answer]
     else Ok ["None"]);
  correct_answer_texts ← get_answer_text_from_keys (question self) correct_keys;
  user_display ← first_text user_answer_texts;
  correct_display ← first_text correct_answer_texts;
  Ok (JList user_answers, is_correct, user_display, correct_display).

Definition process_user_answer (self : AnswerProcessor) (form_data : form)
    (question_prefix : string) : result answer_result :=
  correct_answers ← getitem (question self) "correct_answer";
  if is_mapping self then
    _process_mapping_answer self form_data question_prefix correct_answers
  else if is_multiple_choice self then
    _process_multiple_choice_answer self form_data question_prefix correct_answers
  else
    _process_single_answer self form_data question_prefix correct_answers.

(** *** Question selection *)

(** Truthiness of an optional integer argument: [None] and [0] are false. *)
Definition given (o : option Z) : bool :=
  match o with
  | Some z => negb (Z.eqb z 0)
  | None => false
  end.

(** [start_range <= q['question_number'] <= end_range] *)
Definition in_range (start_range end_range : Z) (q : json) : result bool :=
  number ← getitem q "question_number";
  match number with
  | JInt n => Ok (Z.leb start_range n && Z.leb n end_range)
  | _ => Raise TypeError
  end.

Fixpoint filter_range (start_range end_range : Z) (questions : list json)
  : result (list json) :=
  match questions with
  | [] => Ok []
  | q :: rest =>
      keep ← in_range start_range end_range q;
      filtered ← filter_range start_range end_range rest;
      Ok (if keep : bool then q :: filtered else filtered)
  end.

Section Selection.

Context {G : Type} `{Random G}.

(** [random.sample(population, k)] for an integer [k]. *)
Definition sample (population : list json) (k : Z) (g : G)
  : result (list json) * G :=
  if (k <? 0)%Z || (Z.of_nat (length population) <? k)%Z then (Raise ValueError, g)
  else let '(chosen, g') := random_sample population (Z.to_nat k) g in
       (Ok chosen, g').

Definition get_question_subset (questions : list json) (selection_type : string)
    (start_range end_range num_random : option Z) (g : G)
  : result (list json) * G :=
  if String.eqb selection_type "all" then (Ok questions, g)
  else if String.eqb selection_type "range" && given start_range && given end_range
  then (filter_range (default 0%Z start_range) (default 0%Z end_range) questions, g)
  else if String.eqb selection_type "random" && given num_random
  then sample questions
         (Z.min (default 0%Z num_random) (Z.of_nat (length questions))) g
  else (Ok questions, g).

(** [int(form_data.get(name, fallback))] *)
Definition int_field (form_data : form) (name : string) (fallback : Z)
  : result Z :=
  match form_get name form_data with
  | Some text => py_int text
  | None => Ok fallback
  end.

Definition _get_selected_questions (questions : list json)
    (selection_type : string) (form_data : form) (g : G)
  : result (list json) * G :=
  if String.eqb selection_type "range" then
    match int_field form_data "start_range" 1 with
    | Raise e => (Raise e, g)
    | Ok start_range =>
        match int_field form_data "end_range" (Z.of_nat (length questions)) with
        | Raise e => (Raise e, g)
        | Ok end_range =>
            get_question_subset questions "range"
              (Some start_range) (Some end_range) None g
        end
    end
  else if String.eqb selection_type "random" then
    match int_field form_data "num_random" 10 with
    | Raise e => (Raise e, g)
    | Ok num_random =>
        get_question_subset questions "random" None None (Some num_random) g
    end
  else (Ok questions, g).

(** [[shuffle_question_options(question) for question in selected]] *)
Fixpoint shuffle_all (selected : list json) (g : G) : result (list json) * G :=
  match selected with
  | [] => (Ok [], g)
  | question :: rest =>
      match shuffle_question_options question g with
      | (Raise e, g') => (Raise e, g')
      | (Ok shuffled, g') =>
          match shuffle_all rest g' with
          | (Raise e, g'') => (Raise e, g'')
          | (Ok others, g'') => (Ok (shuffled :: others), g'')
          end
      end
  end.

End Selection.

(** *** The routes *)

(** What a request works on: the state of [session_optimizer], the
    client's Flask [session] and the random generator. *)
Record World (G : Type) : Type := mkWorld {
  store : Store;
  session : dict;
  rng : G
}.
Arguments mkWorld {G} store session rng.
Arguments store {G} w.
Arguments session {G} w.
Arguments rng {G} w.

Record Progress : Type := mkProgress {
  current : Z;
  total : nat;
  percentage : PyFloat.float
}.

Record QuestionDetail : Type := mkQuestionDetail {
  detail_question : json;
  detail_user_answer : string;
  detail_correct_answer : string;
  detail_is_correct : bool;
  detail_is_multiple_choice : bool;
  detail_is_mapping : bool
}.

Record ResultsData : Type := mkResultsData {
  correct_answers : Z;
  total_questions : nat;
  score_percentage : PyFloat.float;
  certification_level : string;
  level_class : string;
  question_details : list QuestionDetail
}.

Inductive page : Type :=
| IndexPage (total_questions : nat)
| QuizImmediatePage (question : json) (progress : Progress)
| QuizBatchPage (questions : list json)
| ResultsPage (results : ResultsData).

(** The outcome of a request; [Abort] is an exception nothing handles. *)
Inductive response : Type :=
| Redirect (endpoint : string)
| Render (p : page)
| Abort (e : exn).

(** [session.update(d)] *)
Definition dict_update (d : dict) (target : dict) : dict :=
  foldl (fun acc kv => dict_set kv.1 kv.2 acc) target d.

(** [round((a / b) * 100, 1)] *)
Definition percent (a b : Z) : result PyFloat.float :=
  if Z.eqb b 0 then Raise ZeroDivisionError
  else Ok (PyFloat.round1 (PyFloat.mul (PyFloat.int_truediv a b) (PyFloat.of_Z 100))).

Definition _calculate_progress (current total : Z) : result Progress :=
  p ← percent current total;
  Ok (mkProgress current (Z.to_nat total) p).

Definition _get_certification_level (score_percentage : PyFloat.float)
  : string * string :=
  if PyFloat.ge score_percentage (PyFloat.of_Z 80)
  then ("Excellent - Ready for the exam", "success")
  else if PyFloat.ge score_percentage (PyFloat.of_Z 70)
  then ("Good - Almost ready", "warning")
  else ("Needs more study", "danger").

(** [l[i]] for an integer [i], negative indices counting from the end. *)
Definition py_index (l : list json) (i : Z) : result json :=
  let n := Z.of_nat (length l) in
  let j := if (i <? 0)%Z then (n + i)%Z else i in
  if (j <? 0)%Z then Raise IndexError
  else match l !! Z.to_nat j with
       | Some x => Ok x
       | None => Raise IndexError
       end.

(** The generator expression under [all] in [_generate_question_details]. *)
Fixpoint all_sub_answers_equal (question : json) (user_answer_data : dict)
    (keys : list string) : result bool :=
  match keys with
  | [] => Ok true
  | key :: rest =>
      correct ← getitem question "correct_answer";
      expected ← getitem correct key;
      if py_eq (dict_get_default key JNull user_answer_data) expected
      then all_sub_answers_equal question user_answer_data rest
      else Ok false
  end.

Definition question_detail (user_answers : json) (question : json)
  : result QuestionDetail :=
  number ← getitem question "question_number";
  question_id ← py_str number;
  answers ← as_dict user_answers;
  let user_answer_data := dict_get_default question_id (JList []) answers in
  processor ← AnswerProcessor_init question;
  shown ←
    (if is_mapping processor then
       if truthy user_answer_data then
         data ← as_dict user_answer_data;
         display ← get_mapping_answer_display question data;
         options ← getitem question "options";
         options ← as_dict options;
         ok ← all_sub_answers_equal question data (dict_keys options);
         Ok (display.1, display.2, ok)
       else
         display ← get_mapping_answer_display question [];
         Ok ("Not answered", display.2, false)
     else
       r ← (if truthy user_answer_data then
              if is_multiple_choice processor then
                labels ← labels_of user_answer_data;
                user_answer_texts ←
                  get_answer_text_from_keys question (JStr <$> sorted labels);
                correct ← getitem question "correct_answer";
                correct_labels ← labels_of correct;
                Ok (join " | " user_answer_texts,
                    bool_decide (sorted labels = sorted correct_labels))
              else
                data ← iter_list user_answer_data;
                first ← py_index data 0;
                user_answer_texts ← get_answer_text_from_keys question [first];
                user_display ← first_text user_answer_texts;
                correct ← getitem question "correct_answer";
                correct ← iter_list correct;
                first_correct ← py_index correct 0;
                Ok (user_display, py_eq first first_correct)
            else Ok ("Not answered", false));
       correct ← getitem question "correct_answer";
       correct_display ←
         (if is_multiple_choice processor then
            correct_labels ← labels_of correct;
            texts ← get_answer_text_from_keys question (JStr <$> sorted correct_labels);
            Ok (join " | " texts)
          else
            correct ← iter_list correct;
            first_correct ← py_index correct 0;
            texts ← get_answer_text_from_keys question [first_correct];
            first_text texts);
       Ok (r.1, correct_display, r.2));
  Ok (mkQuestionDetail question shown.1.1 shown.1.2 shown.2
        (is_multiple_choice processor) (is_mapping processor)).

Definition _generate_question_details (questions : list json)
    (user_answers : json) : result (list QuestionDetail) :=
  mapM (question_detail user_answers) questions.

Section Routes.

Context {G : Type} `{Random G}.

(** [hashlib.md5(s.encode()).hexdigest()] *)
Variable md5_hexdigest : string -> string.

(** What [load_questions()] returns: the bank, loaded once. *)
Variable bank : list json.

Definition _initialize_quiz_session (quiz_mode : string) (questions : list json)
    (w : World G) : World G :=
  if should_use_large_session questions then
    let '(compact_data, st) :=
      store_large_session md5_hexdigest questions quiz_mode (store w) in
    mkWorld st (dict_update compact_data []) (rng w)
  else
    let '(start_time, st) := now_isoformat (store w) in
    mkWorld st
      (dict_update
         [ ("quiz_mode", JStr quiz_mode);
           ("questions", JList questions);
           ("current_question", JInt 0);
           ("user_answers", JDict []);
           ("correct_answers", JInt 0);
           ("start_time", JStr start_time);
           ("is_large_session", JBool false) ] [])
      (rng w).

Definition _get_session_questions (w : World G) : result json :=
  if truthy (dict_get_default "is_large_session" JNull (session w)) then
    get_session_questions (session w) (session_cache (store w))
  else Ok (dict_get_default "questions" (JList []) (session w)).

Definition index (w : World G) : response * World G :=
  (Render (IndexPage (length bank)), mkWorld (store w) [] (rng w)).

Definition start_quiz (form_data : form) (w : World G) : response * World G :=
  let questions := bank in
  match questions with
  | [] => (Redirect "index", w)
  | _ =>
      let quiz_mode := default "immediate" (form_get "quiz_mode" form_data) in
      let selection_type := default "all" (form_get "selection_type" form_data) in
      match _get_selected_questions questions selection_type form_data (rng w) with
      | (Raise ValueError, g) => (Redirect "index", mkWorld (store w) (session w) g)
      | (Raise e, g) => (Abort e, mkWorld (store w) (session w) g)
      | (Ok selected_questions, g) =>
          match shuffle_all selected_questions g with
          | (Raise e, g') => (Abort e, mkWorld (store w) (session w) g')
          | (Ok shuffled_questions, g') =>
              let w' := _initialize_quiz_session quiz_mode shuffled_questions
                          (mkWorld (store w) (session w) g') in
              (Redirect (if String.eqb quiz_mode "immediate"
                         then "quiz_immediate" else "quiz_batch"), w')
          end
      end
  end.

Definition quiz_immediate (w : World G) : response * World G :=
  match _get_session_questions w with
  | Raise e => (Abort e, w)
  | Ok questions =>
      if negb (truthy questions) then (Redirect "index", w)
      else
        match (l ← iter_list questions;
               match dict_get_default "current_question" (JInt 0) (session w) with
               | JInt current_index =>
                   if (Z.of_nat (length l) <=? current_index)%Z
                   then Ok (Redirect "results")
                   else
                     current_question ← py_index l current_index;
                     progress ← _calculate_progress (current_index + 1)
                                  (Z.of_nat (length l));
                     Ok (Render (QuizImmediatePage current_question progress))
               | _ => Raise TypeError
               end) with
        | Ok r => (r, w)
        | Raise e => (Abort e, w)
        end
  end.

Definition quiz_batch (w : World G) : response * World G :=
  match _get_session_questions w with
  | Raise e => (Abort e, w)
  | Ok questions =>
      if negb (truthy questions) then (Redirect "index", w)
      else match iter_list questions with
           | Ok l => (Render (QuizBatchPage l), w)
           | Raise e => (Abort e, w)
           end
  end.

Definition results (w : World G) : response * World G :=
  match _get_session_questions w with
  | Raise e => (Abort e, w)
  | Ok questions =>
      if negb (truthy questions) then (Redirect "index", w)
      else
        match (l ← iter_list questions;
               let user_answers := dict_get_default "user_answers" (JDict []) (session w) in
               match dict_get_default "correct_answers" (JInt 0) (session w) with
               | JInt correct_answers =>
                   let total_questions := length l in
                   score_percentage ← percent correct_answers (Z.of_nat total_questions);
                   let '(certification_level, level_class) :=
                     _get_certification_level score_percentage in
                   question_details ← _generate_question_details l user_answers;
                   Ok (Render (ResultsPage
                         (mkResultsData correct_answers total_questions
                            score_percentage certification_level level_class
                            question_details)))
               | _ => Raise TypeError
               end) with
        | Ok r => (r, w)
        | Raise e => (Abort e, w)
        end
  end.

(** *** The submission routes *)

(** What [feedback.html] is rendered with. *)
Record Feedback : Type := mkFeedback {
  feedback_user_answer : string;
  feedback_correct_answer : string;
  feedback_is_correct : bool;
  feedback_is_multiple_choice : bool;
  feedback_is_mapping : bool;
  explanation : string
}.

Record FeedbackPage : Type := mkFeedbackPage {
  feedback_question : json;
  feedback : Feedback;
  feedback_progress : Progress
}.

(** [session['user_answers'][str(question_id)] = value] *)
Definition record_answer (question_id : json) (value : json) (session : dict)
  : result dict :=
  user_answers ← getitem (JDict session) "user_answers";
  key ← py_str question_id;
  match user_answers with
  | JDict d => Ok (dict_set "user_answers" (JDict (dict_set key value d)) session)
  | _ => Raise TypeError
  end.

(** [v + 1] *)
Definition incremented (v : json) : result json :=
  match v with
  | JInt n => Ok (JInt (n + 1))
  | JBool b => Ok (JInt ((if b then 1 else 0) + 1))
  | _ => Raise TypeError
  end.

(** The outcome is a response of the kinds above or the feedback page.  A
    request that ends in an exception leaves the client's session as it
    was. *)
Definition submit_immediate (form_data : form) (w : World G)
  : (response + FeedbackPage) * World G :=
  match _get_session_questions w with
  | Raise e => (inl (Abort e), w)
  | Ok questions =>
      if negb (truthy questions) then (inl (Redirect "index"), w)
      else
        match (l ← iter_list questions;
               match dict_get_default "current_question" (JInt 0) (session w) with
               | JInt current_index =>
                   if (Z.of_nat (length l) <=? current_index)%Z
                   then Ok (inl (Redirect "results"), session w)
                   else
                     current_question ← py_index l current_index;
                     processor ← AnswerProcessor_init current_question;
                     r ← process_user_answer processor form_data EmptyString;
                     let '(user_answers, is_correct, user_display, correct_display) :=
                       r : answer_result in
                     question_id ← getitem current_question "question_number";
                     session1 ← record_answer question_id user_answers (session w);
                     session2 ←
                       (if is_correct : bool then
                          n ← incremented
                                (dict_get_default "correct_answers" (JInt 0) session1);
                          Ok (dict_set "correct_answers" n session1)
                        else Ok session1);
                     let plural :=
                       if is_multiple_choice processor || is_mapping processor
                       then "s" else EmptyString in
                     let feedback :=
                       mkFeedback user_display correct_display is_correct
                         (is_multiple_choice processor) (is_mapping processor)
                         ("The correct answer" ++ plural ++ ": " ++ correct_display) in
                     let session3 :=
                       dict_set "current_question" (JInt (current_index + 1)) session2 in
                     progress ← _calculate_progress (current_index + 1)
                                  (Z.of_nat (length l));
                     Ok (inr (mkFeedbackPage current_question feedback progress),
                         session3)
               | _ => Raise TypeError
               end) with
        | Ok (r, s) => (r, mkWorld (store w) s (rng w))
        | Raise e => (inl (Abort e), w)
        end
  end.

(** The loop of [submit_batch] with [correct_answers] and [user_answers]. *)
Fixpoint batch_answers (form_data : form) (questions : list json)
    (correct_answers : Z) (user_answers : dict) : result (Z * dict) :=
  match questions with
  | [] => Ok (correct_answers, user_answers)
  | question :: rest =>
      number ← getitem question "question_number";
      question_id ← py_str number;
      processor ← AnswerProcessor_init question;
      r ← process_user_answer processor form_data "batch";
      let '(user_answer_data, is_correct, _, _) := r : answer_result in
      batch_answers form_data rest
        (if is_correct : bool then (correct_answers + 1)%Z else correct_answers)
        (dict_set question_id user_answer_data user_answers)
  end.

Definition submit_batch (form_data : form) (w : World G) : response * World G :=
  match _get_session_questions w with
  | Raise e => (Abort e, w)
  | Ok questions =>
      if negb (truthy questions) then (Redirect "index", w)
      else
        match (l ← iter_list questions; batch_answers form_data l 0 []) with
        | Ok (correct_answers, user_answers) =>
            (Redirect "results",
             mkWorld (store w)
               (dict_set "correct_answers" (JInt correct_answers)
                  (dict_set "user_answers" (JDict user_answers) (session w)))
               (rng w))
        | Raise e => (Abort e, w)
        end
  end.

(** What [api_questions_count] hands to [jsonify]. *)
Definition api_questions_count : json :=
  let questions := bank in
  let loaded := negb (Nat.eqb (length questions) 0) in
  JDict [ ("total", JInt (Z.of_nat (length questions)));
          ("status", JStr (if loaded then "success" else "error"));
          ("message", JStr (if loaded then "Questions loaded successfully"
                            else "No questions found")) ].

(** *** The routing table *)

Inductive request : Type :=
| GetIndex
| PostStart (form_data : form)
| GetQuizImmediate
| GetQuizBatch
| PostSubmitImmediate (form_data : form)
| PostSubmitBatch (form_data : form)
| GetResults
| GetApiQuestionsCount.

(** The world a request leaves behind. *)
Definition serve (r : request) (w : World G) : World G :=
  match r with
  | GetIndex => (index w).2
  | PostStart form_data => (start_quiz form_data w).2
  | GetQuizImmediate => (quiz_immediate w).2
  | GetQuizBatch => (quiz_batch w).2
  | PostSubmitImmediate form_data => (submit_immediate form_data w).2
  | PostSubmitBatch form_data => (submit_batch form_data w).2
  | GetResults => (results w).2
  | GetApiQuestionsCount => w
  end.

End Routes.

End App.

(** ** The shuffler on objects

    Python dictionaries and lists are objects that several names may refer
    to.  Here a question is a reference into a heap of such objects, and
    the shuffler is the same code as above, with every copy, every new
    object and every assignment into an object made explicit. *)

Module Objects.

Abbreviation loc := positive.

Inductive val : Type :=
| VNone
| VBool (b : bool)
| VInt (z : Z)
| VStr (s : string)
| VRef (l : loc).

Inductive obj : Type :=
| OList (items : list val)
| ODict (items : list (string * val)).

Abbreviation heap := (gmap loc obj).

(** [==] on what a name holds; two references are compared by identity. *)
Definition val_eq (a b : val) : bool :=
  match a, b with
  | VNone, VNone => true
  | VBool x, VBool y => Bool.eqb x y
  | VBool x, VInt y => Z.eqb (if x then 1 else 0) y
  | VInt x, VBool y => Z.eqb x (if y then 1 else 0)
  | VInt x, VInt y => Z.eqb x y
  | VStr x, VStr y => String.eqb x y
  | VRef x, VRef y => Pos.eqb x y
  | _, _ => false
  end.

Section WithRandom.

Context {G : Type} `{Random G}.

(** A computation works on the heap and the generator, and returns a value
    or raises; what it did to the heap before raising stays done. *)
Definition M (A : Type) : Type := heap * G -> result A * (heap * G).

Definition ret {A} (a : A) : M A := fun s => (Ok a, s).
Definition raise {A} (e : exn) : M A := fun s => (Raise e, s).
Definition bind {A B} (m : M A) (k : A -> M B) : M B :=
  fun s => match m s with
           | (Ok a, s') => k a s'
           | (Raise e, s') => (Raise e, s')
           end.

Notation "x <~ m ;; k" := (bind m (fun x => k))
  (at level 100, m at next level, right associativity).

(** A new object, at a location the heap does not use. *)
Definition alloc (o : obj) : M val :=
  fun s => let l := fresh (dom s.1) in (Ok (VRef l), (<[l := o]> s.1, s.2)).

Definition deref (v : val) : M obj :=
  fun s => match v with
           | VRef l => match s.1 !! l with
                       | Some o => (Ok o, s)
                       | None => (Raise TypeError, s)
                       end
           | _ => (Raise TypeError, s)
           end.

Definition dict_items (v : val) : M (list (string * val)) :=
  o <~ deref v ;;
  match o with
  | ODict d => ret d
  | OList _ => raise AttributeError
  end.

Definition list_items (v : val) : M (list val) :=
  o <~ deref v ;;
  match o with
  | OList l => ret l
  | ODict _ => raise TypeError
  end.

(** [v[k]] *)
Definition getitem (v : val) (k : string) : M val :=
  o <~ deref v ;;
  match o with
  | ODict d => match dict_get k d with
               | Some x => ret x
               | None => raise KeyError
               end
  | OList _ => raise TypeError
  end.

(** [v[k] = x]: the dictionary [v] refers to is changed in place. *)
Definition setitem (v : val) (k : string) (x : val) : M unit :=
  fun s => match v with
           | VRef l => match s.1 !! l with
                       | Some (ODict d) =>
                           (Ok tt, (<[l := ODict (dict_set k x d)]> s.1, s.2))
                       | _ => (Raise TypeError, s)
                       end
           | _ => (Raise TypeError, s)
           end.

(** [random.shuffle(v)]: the list [v] refers to is rearranged in place. *)
Definition shuffle_in_place (v : val) : M unit :=
  fun s => match v with
           | VRef l => match s.1 !! l with
                       | Some (OList items) =>
                           let '(items', g') := random_shuffle items s.2 in
                           (Ok tt, (<[l := OList items']> s.1, g'))
                       | _ => (Raise TypeError, s)
                       end
           | _ => (Raise TypeError, s)
           end.

Definition is_mapping_question (question : val) : M bool :=
  correct_answer <~ getitem question "correct_answer" ;;
  match correct_answer with
  | VRef _ =>
      o <~ deref correct_answer ;;
      ret match o with
          | ODict _ => true
          | OList _ => false
          end
  | _ => ret false
  end.

(** The [for i, value in enumerate(option_values)] loop; [value_to_new_key]
    is a dictionary no other name refers to. *)
Fixpoint remap_loop (option_keys : list string) (original_options : val)
    (shuffled_options : val) (i : nat) (option_values : list val)
    (value_to_new_key : gmap string string) : M (gmap string string) :=
  match option_values with
  | [] => ret value_to_new_key
  | value :: rest =>
      match option_keys !! i with
      | None => raise IndexError
      | Some new_key =>
          _ <~ setitem shuffled_options new_key value ;;
          items <~ dict_items original_options ;;
          remap_loop option_keys original_options shuffled_options (S i) rest
            match find (fun kv => val_eq kv.2 value) items with
            | Some (orig_key, _) => <[orig_key := new_key]> value_to_new_key
            | None => value_to_new_key
            end
      end
  end.

Definition new_key_of (value_to_new_key : gmap string string)
    (correct_key : val) : result val :=
  match correct_key with
  | VStr k =>
      match value_to_new_key !! k with
      | Some new_key => Ok (VStr new_key)
      | None => Raise KeyError
      end
  | VRef _ => Raise TypeError
  | _ => Raise KeyError
  end.

Definition lift {A} (r : result A) : M A := fun s => (r, s).

Definition _shuffle_standard_question_options (question : val) : M val :=
  fields <~ dict_items question ;;
  shuffled_question <~ alloc (ODict fields) ;;
  original_options <~ getitem question "options" ;;
  items <~ dict_items original_options ;;
  let option_keys := dict_keys items in
  option_values <~ alloc (OList (dict_values items)) ;;
  original_correct <~ getitem question "correct_answer" ;;
  _ <~ shuffle_in_place option_values ;;
  shuffled_options <~ alloc (ODict []) ;;
  values <~ list_items option_values ;;
  value_to_new_key <~
    remap_loop option_keys original_options shuffled_options 0 values ∅ ;;
  correct_keys <~ list_items original_correct ;;
  new_keys <~ lift (App.mapM (new_key_of value_to_new_key) correct_keys) ;;
  new_correct_answers <~ alloc (OList new_keys) ;;
  _ <~ setitem shuffled_question "options" shuffled_options ;;
  _ <~ setitem shuffled_question "correct_answer" new_correct_answers ;;
  ret shuffled_question.

(** The loop over [question['options'].items()] of the mapping shuffle. *)
Fixpoint shuffle_sub_questions (question shuffled_question : val)
    (items : list (string * val)) : M unit :=
  match items with
  | [] => ret tt
  | (sub_question_key, option_list) :: rest =>
      candidates <~ list_items option_list ;;
      shuffled_options <~ alloc (OList candidates) ;;
      _ <~ shuffle_in_place shuffled_options ;;
      correct <~ getitem question "correct_answer" ;;
      correct_answer <~ getitem correct sub_question_key ;;
      new_options <~ getitem shuffled_question "options" ;;
      _ <~ setitem new_options sub_question_key shuffled_options ;;
      new_correct <~ getitem shuffled_question "correct_answer" ;;
      _ <~ setitem new_correct sub_question_key correct_answer ;;
      shuffle_sub_questions question shuffled_question rest
  end.

Definition _shuffle_mapping_question_options (question : val) : M val :=
  fields <~ dict_items question ;;
  shuffled_question <~ alloc (ODict fields) ;;
  new_options <~ alloc (ODict []) ;;
  _ <~ setitem shuffled_question "options" new_options ;;
  new_correct <~ alloc (ODict []) ;;
  _ <~ setitem shuffled_question "correct_answer" new_correct ;;
  options <~ getitem question "options" ;;
  items <~ dict_items options ;;
  _ <~ shuffle_sub_questions question shuffled_question items ;;
  ret shuffled_question.

Definition shuffle_question_options (question : val) : M val :=
  mapping <~ is_mapping_question question ;;
  if mapping : bool then _shuffle_mapping_question_options question
  else _shuffle_standard_question_options question.

End WithRandom.

(** The value a reference stands for, read back from the heap as far as
    [fuel] references deep. *)
Fixpoint read_back (fuel : nat) (h : heap) (v : val) : option json :=
  match v with
  | VNone => Some JNull
  | VBool b => Some (JBool b)
  | VInt z => Some (JInt z)
  | VStr s => Some (JStr s)
  | VRef l =>
      match fuel with
      | 0 => None
      | S fuel' =>
          match h !! l with
          | Some (OList items) => JList <$> mapM (read_back fuel' h) items
          | Some (ODict d) =>
              JDict <$> mapM (fun kv => pair kv.1 <$> read_back fuel' h kv.2) d
          | None => None
          end
      end
  end.

End Objects.

(** * Properties *)

(** ** Reading numbers and showing names *)

(** Text of more than 4300 digits is no number to [int]. *)
Lemma py_int_digit_limit (s : string) :
  (int_max_str_digits < count_digits (rstrip (lstrip s)))%Z ->
  py_int s = Raise ValueError.
Proof.
  intros Hlimit. unfold py_int. cbv zeta. apply Z.ltb_lt in Hlimit as ->.
  by destruct (match rstrip (lstrip s) with
               | EmptyString => None
               | String c rest => _
               end).
Qed.

(** The characters 9 to 13, the space, 133 and 160 are skipped around a
    number, the separators 28 to 31 are not; one underscore may stand
    between two digits. *)
Lemma py_int_examples :
  py_int "1000" = Ok 1000%Z
  /\ py_int " -1_0 " = Ok (-10)%Z
  /\ py_int (String (ascii_of_nat 160) "5") = Ok 5%Z
  /\ py_int (String (ascii_of_nat 28) "5") = Raise ValueError
  /\ py_int (String (ascii_of_nat 28) "1000") = Raise ValueError
  /\ py_int "abc" = Raise ValueError
  /\ py_int "1__0" = Raise ValueError
  /\ py_int EmptyString = Raise ValueError.
Proof. split_and!; by vm_compute. Qed.

(** A letter that follows a cased character is put in lower case, any other
    in title case, among the letters above 127 as among those below. *)
Lemma title_examples :
  title "use case" = "Use Case"
  /\ title "aBC dEF" = "Abc Def"
  /\ title "3d model" = "3D Model"
  /\ title (String (ascii_of_nat 233) "clair") = String (ascii_of_nat 201) "clair"
  /\ title ("funci" ++ String (ascii_of_nat 243) "N")
     = "Funci" ++ String (ascii_of_nat 243) "n"
  /\ title (String (ascii_of_nat 223) "a") = "Ssa".
Proof. split_and!; by vm_compute. Qed.

(** ** Storage decision *)

Import SessionOptimizer.

Lemma length_append (a b : string) :
  String.length (a ++ b) = String.length a + String.length b.
Proof. induction a as [|c a IH]; simpl; [done | by rewrite IH]. Qed.

(** The sample blob of a non-empty list is the first question wrapped in
    108 characters of fixed fields. *)
Lemma sample_data_length (q : json) (rest : list json) :
  String.length (json_dumps (sample_data (q :: rest)))
  = 108 + String.length (json_dumps q).
Proof.
  unfold sample_data. change (take 1 (q :: rest)) with (q :: take 0 rest).
  rewrite take_0. cbn [json_dumps map join].
  repeat (rewrite length_append; cbn [String.length]).
  change (String.length (json_quote "questions")) with 11.
  change (String.length (json_quote "quiz_mode")) with 11.
  change (String.length (json_quote "immediate")) with 11.
  change (String.length (json_quote "current_question")) with 18.
  change (String.length (json_quote "user_answers")) with 14.
  change (String.length (json_quote "correct_answers")) with 17.
  change (String.length (str_of_Z 0)) with 1.
  lia.
Qed.

Lemma estimate_session_size_eq (questions : list json) :
  estimate_session_size questions
  = match questions with
    | [] => 0
    | q :: _ => (108 + String.length (json_dumps q)) * length questions
    end.
Proof.
  destruct questions as [|q rest]; [done|].
  unfold estimate_session_size. by rewrite sample_data_length.
Qed.

(** The rule in the words of the specification: one question's serialized
    size times the number of questions, against 3000, or more than 40
    questions. *)
Definition representative_estimate (questions : list json) : nat :=
  match questions with
  | [] => 0
  | q :: _ => String.length (json_dumps q) * length questions
  end.

(** A question that serializes to 100 characters. *)
Definition question_of_100 : json :=
  JDict [ ("question_number", JInt 1);
          ("question", JStr "Which service hosts models? Pick the managed one.");
          ("x", JStr "0123") ].

(** C1, as stated, fails: fifteen questions of 100 characters each are
    estimated at 1500 by the specification's rule, which keeps them inline,
    while the code estimates 15 * 208 = 3120 and spills them. *)
Lemma storage_decision_not_representative :
  String.length (json_dumps question_of_100) = 100
  /\ ~ (should_use_large_session (repeat question_of_100 15) = true
        <-> 3000 < representative_estimate (repeat question_of_100 15)
            \/ 40 < length (repeat question_of_100 15)).
Proof.
  split; [by vm_compute|].
  intros [Hspill _].
  assert (Hcode : should_use_large_session (repeat question_of_100 15) = true)
    by (by vm_compute).
  specialize (Hspill Hcode).
  change (representative_estimate (repeat question_of_100 15)) with 1500 in Hspill.
  change (length (repeat question_of_100 15)) with 15 in Hspill.
  lia.
Qed.

(** C1, amended: the decision is spilled exactly when the estimate exceeds
    3000 or there are more than 40 questions, where the estimate is the
    serialized size of a sample session blob (the first question and the
    fixed progress fields: 108 characters more than the question) times the
    number of questions.  With questions of 100 characters, 41 of them are
    spilled and 10 stay inline. *)
Theorem storage_decision (questions : list json) :
  (should_use_large_session questions = true
   <-> 3000 < estimate_session_size questions \/ 40 < length questions)
  /\ estimate_session_size questions
     = match questions with
       | [] => 0
       | q :: _ => (108 + String.length (json_dumps q)) * length questions
       end
  /\ (length questions = 41 -> should_use_large_session questions = true)
  /\ (length questions = 10 ->
      (forall q, head questions = Some q -> String.length (json_dumps q) = 100) ->
      should_use_large_session questions = false).
Proof.
  split_and!.
  - unfold should_use_large_session.
    rewrite orb_true_iff, !Nat.ltb_lt. done.
  - apply estimate_session_size_eq.
  - intros Hlen. unfold should_use_large_session.
    rewrite Hlen. apply orb_true_r.
  - intros Hlen Hsize. unfold should_use_large_session.
    rewrite estimate_session_size_eq.
    destruct questions as [|q rest]; [done|].
    rewrite (Hsize q eq_refl), Hlen. done.
Qed.

Lemma storage_decision_witness :
  should_use_large_session (repeat question_of_100 41) = true
  /\ should_use_large_session (repeat question_of_100 10) = false.
Proof.
  split.
  - apply (storage_decision (repeat question_of_100 41)). reflexivity.
  - apply (storage_decision (repeat question_of_100 10)).
    + reflexivity.
    + intros q Hq. injection Hq as <-. vm_compute. reflexivity.
Defined.

(** ** Spill round trip *)

(** C2, as stated, fails: a blob marked large whose key is a list, which no
    cache holds, does not read as [None]; the membership test raises. *)
Lemma unhashable_key_raises :
  get_session_questions
    [("is_large_session", JBool true); ("session_id", JList [])] ∅
  = Raise TypeError.
Proof. reflexivity. Qed.

(** C2, amended: what [store_large_session] stores is what
    [get_session_questions] reads back through the returned blob, whose
    progress fields are initialized.  A blob marked large whose key is
    missing, [None], a boolean, a number or a string the cache does not hold
    reads as [None], neither an exception nor the empty list; a blob marked
    large whose key is a list or a dictionary raises [TypeError]. *)
Theorem spill_round_trip (md5_hexdigest : string -> string)
    (questions : list json) (quiz_mode : string) (st : Store) :
  (let '(blob, st') := store_large_session md5_hexdigest questions quiz_mode st in
   get_session_questions blob (session_cache st') = Ok (JList questions)
   /\ dict_get "quiz_mode" blob = Some (JStr quiz_mode)
   /\ dict_get "total_questions" blob = Some (JInt (Z.of_nat (length questions)))
   /\ dict_get "current_question" blob = Some (JInt 0)
   /\ dict_get "user_answers" blob = Some (JDict [])
   /\ dict_get "correct_answers" blob = Some (JInt 0)
   /\ dict_get "is_large_session" blob = Some (JBool true))
  /\ (forall (session_data : dict) (cache : gmap string json),
        truthy (dict_get_default "is_large_session" JNull session_data) = true ->
        let session_id := dict_get_default "session_id" JNull session_data in
        ((forall key, session_id = JStr key -> cache !! key = None) ->
         (forall l, session_id <> JList l) ->
         (forall d, session_id <> JDict d) ->
         get_session_questions session_data cache = Ok JNull)
        /\ ((exists l, session_id = JList l) \/ (exists d, session_id = JDict d) ->
            get_session_questions session_data cache = Raise TypeError))
  /\ Ok JNull <> Ok (JList []) :> result json.
Proof.
  split_and!; [| |done].
  - unfold store_large_session, generate_session_id, now_isoformat.
    cbn -[substring]. split_and!; try done.
    unfold get_session_questions. cbn -[substring].
    by rewrite lookup_insert_eq.
  - intros session_data cache Hlarge session_id.
    unfold get_session_questions. rewrite Hlarge. fold session_id. split.
    + intros Hmiss Hlist Hdict.
      destruct session_id as [| | |key|l|d]; cbn; try done.
      * by rewrite (Hmiss key).
      * by destruct (Hlist l).
      * by destruct (Hdict d).
    + by intros [[l ->] | [d ->]].
Qed.

Lemma spill_round_trip_witness :
  get_session_questions
    [("is_large_session", JBool true); ("session_id", JStr "0123456789abcdef")]
    ∅ = Ok JNull
  /\ get_session_questions
       [("is_large_session", JBool true); ("session_id", JDict [])] ∅
     = Raise TypeError.
Proof.
  destruct (spill_round_trip (fun s => s) [] "immediate"
              (mkStore (fun _ => "t") 0 ∅))
    as (_ & Hread & _).
  split.
  - apply (Hread [("is_large_session", JBool true);
                  ("session_id", JStr "0123456789abcdef")] ∅).
    + reflexivity.
    + intros key _. reflexivity.
    + discriminate.
    + discriminate.
  - apply (Hread [("is_large_session", JBool true); ("session_id", JDict [])] ∅).
    + reflexivity.
    + right. exists []. reflexivity.
Defined.

(** ** Spill keys *)

(** The key is a function of the clock reading alone. *)
Lemma generate_session_id_reading (md5_hexdigest : string -> string) (st : Store) :
  (generate_session_id md5_hexdigest st).1
  = substring 0 16 (md5_hexdigest (clock st (ticks st))).
Proof. reflexivity. Qed.

(** C4 fails on the code: whatever the hash, two attempts whose keys are
    minted at the same clock reading receive the same key, and the second
    one's questions replace the first one's in the cache. *)
Theorem same_reading_same_key (md5_hexdigest : string -> string)
    (questions1 questions2 : list json) (mode1 mode2 : string) (st : Store) :
  clock st (ticks st + 3) = clock st (ticks st) ->
  let '(blob1, st1) := store_large_session md5_hexdigest questions1 mode1 st in
  let '(blob2, st2) := store_large_session md5_hexdigest questions2 mode2 st1 in
  dict_get "session_id" blob2 = dict_get "session_id" blob1
  /\ get_session_questions blob1 (session_cache st2) = Ok (JList questions2).
Proof.
  intros Hsame.
  unfold store_large_session, generate_session_id, now_isoformat.
  cbn -[substring].
  replace (S (S (S (ticks st)))) with (ticks st + 3) by lia.
  rewrite Hsame. split; [done|].
  unfold get_session_questions. cbn -[substring].
  by rewrite lookup_insert_eq.
Qed.

Lemma same_reading_same_key_witness :
  let st := mkStore (fun _ => "2025-01-01T00:00:00.000000") 0 ∅ in
  let '(blob1, st1) := store_large_session (fun s => s) [JInt 1] "immediate" st in
  let '(blob2, st2) := store_large_session (fun s => s) [JInt 2] "batch" st1 in
  get_session_questions blob1 (session_cache st2) = Ok (JList [JInt 2]).
Proof.
  apply (same_reading_same_key (fun s => s) [JInt 1] [JInt 2] "immediate" "batch"
           (mkStore (fun _ => "2025-01-01T00:00:00.000000") 0 ∅)).
  reflexivity.
Defined.

(** ** Dictionaries *)

Lemma dict_get_set_eq {V} (k : string) (v : V) (d : list (string * V)) :
  dict_get k (dict_set k v d) = Some v.
Proof.
  induction d as [|[k' v'] d IH]; simpl.
  - by rewrite String.eqb_refl.
  - destruct (String.eqb k k') eqn:E; simpl; rewrite E; [done | apply IH].
Qed.

Lemma dict_get_set_ne {V} (k k' : string) (v : V) (d : list (string * V)) :
  k <> k' -> dict_get k (dict_set k' v d) = dict_get k d.
Proof.
  intros Hne. induction d as [|[k'' v''] d IH]; simpl.
  - by apply String.eqb_neq in Hne as ->.
  - destruct (String.eqb k' k'') eqn:E; simpl.
    + apply String.eqb_eq in E as <-. by apply String.eqb_neq in Hne as ->.
    + destruct (String.eqb k k''); [done | apply IH].
Qed.

Lemma dict_keys_set_in {V} (k : string) (v : V) (d : list (string * V)) :
  is_Some (dict_get k d) -> dict_keys (dict_set k v d) = dict_keys d.
Proof.
  induction d as [|[k' v'] d IH]; simpl.
  - by intros [? ?].
  - destruct (String.eqb k k') eqn:E; simpl; [done|].
    intros Hin. unfold dict_keys in *. simpl. by rewrite IH.
Qed.

Lemma dict_get_Some_elem {V} (k : string) (v : V) (d : list (string * V)) :
  dict_get k d = Some v -> (k, v) ∈ d.
Proof.
  induction d as [|[k' v'] d IH]; simpl; [done|].
  destruct (String.eqb k k') eqn:E.
  - apply String.eqb_eq in E as <-. intros [= <-]. left.
  - intros Hget. right. by apply IH.
Qed.

Lemma dict_get_is_Some {V} (k : string) (d : list (string * V)) :
  is_Some (dict_get k d) <-> k ∈ dict_keys d.
Proof.
  unfold dict_keys. induction d as [|[k' v'] d IH]; simpl.
  - split; [by intros [? ?] | by intros ?%elem_of_nil].
  - destruct (String.eqb k k') eqn:E.
    + apply String.eqb_eq in E as <-. split; [left | eauto].
    + apply String.eqb_neq in E. rewrite IH, elem_of_cons.
      split; [by right | by intros [?|?]].
Qed.

(** ** The order of strings and [sorted] *)

Definition str_le (a b : string) : Prop := String.leb a b = true.

Lemma ascii_compare_refl (a : ascii) : Ascii.compare a a = Eq.
Proof. apply N.compare_refl. Qed.

Lemma ascii_compare_lt_trans (a b c : ascii) :
  Ascii.compare a b = Lt -> Ascii.compare b c = Lt -> Ascii.compare a c = Lt.
Proof.
  unfold Ascii.compare. rewrite !N.compare_lt_iff. apply N.lt_trans.
Qed.

Lemma string_compare_le_trans (a b c : string) :
  String.compare a b <> Gt -> String.compare b c <> Gt -> String.compare a c <> Gt.
Proof.
  revert b c. induction a as [|x a IH]; intros [|y b] [|z c]; simpl; try done.
  destruct (Ascii.compare x y) eqn:Exy; [| |done];
    destruct (Ascii.compare y z) eqn:Eyz; try done.
  - apply Ascii.compare_eq_iff in Exy as ->, Eyz as ->.
    rewrite ascii_compare_refl. apply IH.
  - apply Ascii.compare_eq_iff in Exy as ->. by rewrite Eyz.
  - apply Ascii.compare_eq_iff in Eyz as <-. by rewrite Exy.
  - by rewrite (ascii_compare_lt_trans x y z).
Qed.

Lemma leb_compare (a b : string) : String.leb a b = true <-> String.compare a b <> Gt.
Proof. unfold String.leb. by destruct (String.compare a b). Qed.

#[local] Instance str_le_trans : Transitive str_le.
Proof.
  intros a b c. unfold str_le. rewrite !leb_compare. apply string_compare_le_trans.
Qed.

#[local] Instance str_le_antisym : AntiSymm (=) str_le.
Proof. intros a b. apply String.leb_antisym. Qed.

Lemma insert_sorted_perm (x : string) (l : list string) :
  insert_sorted x l ≡ₚ x :: l.
Proof.
  induction l as [|y l IH]; simpl; [done|].
  destruct (String.leb x y); [done|].
  rewrite IH. apply perm_swap.
Qed.

Lemma sorted_perm (l : list string) : sorted l ≡ₚ l.
Proof.
  induction l as [|x l IH]; simpl; [done|].
  by rewrite insert_sorted_perm, IH.
Qed.

Lemma insert_sorted_Sorted (x : string) (l : list string) :
  Sorted str_le l -> Sorted str_le (insert_sorted x l).
Proof.
  induction l as [|y l IH]; simpl; intros Hl.
  - repeat constructor.
  - destruct (String.leb x y) eqn:E.
    + constructor; [done | by constructor].
    + apply Sorted_inv in Hl as [Hl Hhd].
      constructor; [by apply IH|].
      assert (Hyx : str_le y x).
      { destruct (String.leb_total x y) as [H'|H']; [congruence | done]. }
      destruct l as [|z l]; simpl; [by constructor|].
      destruct (String.leb x z); constructor; [done|].
      by apply HdRel_inv in Hhd.
Qed.

Lemma sorted_Sorted (l : list string) : Sorted str_le (sorted l).
Proof.
  induction l as [|x l IH]; simpl; [constructor | by apply insert_sorted_Sorted].
Qed.

(** Two lists sort to the same list exactly when one is a rearrangement of
    the other. *)
Lemma sorted_eq_iff_perm (l1 l2 : list string) :
  sorted l1 = sorted l2 <-> l1 ≡ₚ l2.
Proof.
  split.
  - intros Heq. by rewrite <- (sorted_perm l1), Heq, sorted_perm.
  - intros Hperm. apply (Sorted_unique str_le); [apply sorted_Sorted..|].
    by rewrite !sorted_perm.
Qed.

(** ** Evaluation dispatch *)

Import App.

(** The three sub-protocols of the evaluator, and the one the chain of
    conditions of [process_user_answer] selects. *)
Inductive protocol : Type :=
| Mapping
| MultiSelect
| SingleChoice.

Definition selected_protocol (self : AnswerProcessor) : protocol :=
  if is_mapping self then Mapping
  else if is_multiple_choice self then MultiSelect
  else SingleChoice.

(** The data-model invariant on the shape of [correct_answer]: a non-empty
    list of labels or a dictionary. *)
Definition well_shaped (q : json) : Prop :=
  (exists labels, getitem q "correct_answer" = Ok (JList labels) /\ labels <> [])
  \/ (exists fields, getitem q "correct_answer" = Ok (JDict fields)).

(** C10: on a well-shaped question the processor is built, and it selects
    the mapping protocol exactly when [correct_answer] is a dictionary,
    multi-select exactly when it is a list of more than one element, and
    single choice exactly when it is a list of one element; a mapping
    question is never flagged multiple-choice; and the selected protocol is
    the one function [process_user_answer] runs. *)
Theorem dispatch_total_exclusive (q : json) :
  well_shaped q ->
  exists self,
    AnswerProcessor_init q = Ok self
    /\ question self = q
    /\ (selected_protocol self = Mapping
        <-> exists fields, getitem q "correct_answer" = Ok (JDict fields))
    /\ (selected_protocol self = MultiSelect
        <-> exists labels, getitem q "correct_answer" = Ok (JList labels)
                           /\ 1 < length labels)
    /\ (selected_protocol self = SingleChoice
        <-> exists labels, getitem q "correct_answer" = Ok (JList labels)
                           /\ length labels = 1)
    /\ (is_mapping self = true -> is_multiple_choice self = false)
    /\ forall form_data question_prefix,
         process_user_answer self form_data question_prefix
         = (correct_answers ← getitem q "correct_answer";
            match selected_protocol self with
            | Mapping =>
                _process_mapping_answer self form_data question_prefix correct_answers
            | MultiSelect =>
                _process_multiple_choice_answer self form_data question_prefix
                  correct_answers
            | SingleChoice =>
                _process_single_answer self form_data question_prefix correct_answers
            end).
Proof.
  intros [(labels & Hca & Hne) | (fields & Hca)].
  - exists (mkAnswerProcessor q false (Nat.ltb 1 (length labels))).
    unfold AnswerProcessor_init, is_multiple_choice_question, is_mapping_question,
      selected_protocol, process_user_answer.
    rewrite Hca. cbn -[Nat.ltb].
    destruct (Nat.ltb 1 (length labels)) eqn:E.
    + apply Nat.ltb_lt in E. split_and!; try done.
      * split; [done | by intros [? [=]]].
      * split; [eauto | done].
      * split; [done|]. intros (? & [= <-] & ?). lia.
      * intros ? ?. by rewrite Hca.
    + apply Nat.ltb_ge in E. split_and!; try done.
      * split; [done | by intros [? [=]]].
      * split; [done|]. intros (? & [= <-] & ?). lia.
      * split; [|done]. intros _. exists labels. split; [done|].
        destruct labels; [done | simpl in *; lia].
      * intros ? ?. by rewrite Hca.
  - exists (mkAnswerProcessor q true false).
    unfold AnswerProcessor_init, is_multiple_choice_question, is_mapping_question,
      selected_protocol, process_user_answer.
    rewrite Hca. cbn. split_and!; try done.
    + split; eauto.
    + split; [done | by intros (? & [=] & ?)].
    + split; [done | by intros (? & [=] & ?)].
    + intros ? ?. by rewrite Hca.
Qed.

Lemma dispatch_total_exclusive_witness :
  exists self,
    AnswerProcessor_init
      (JDict [("correct_answer", JList [JStr "A"; JStr "C"])]) = Ok self
    /\ selected_protocol self = MultiSelect.
Proof.
  destruct (dispatch_total_exclusive
              (JDict [("correct_answer", JList [JStr "A"; JStr "C"])]))
    as (self & Hinit & _ & _ & Hmulti & _).
  - left. exists [JStr "A"; JStr "C"]. split; [reflexivity | discriminate].
  - exists self. split; [exact Hinit|]. apply Hmulti.
    exists [JStr "A"; JStr "C"]. split; [reflexivity | simpl; lia].
Defined.

(** ** Standard questions *)

(** The options of a standard question: label and text. *)
Definition text_dict (options : list (string * string)) : dict :=
  map (fun kv => (kv.1, JStr kv.2)) options.

(** A standard question of the data model: a number, options from labels
    to texts, and a list of correct labels. *)
Definition standard_question (q : json) (number : Z)
    (options : list (string * string)) (correct : list string) : Prop :=
  getitem q "question_number" = Ok (JInt number)
  /\ getitem q "options" = Ok (JDict (text_dict options))
  /\ getitem q "correct_answer" = Ok (JList (JStr <$> correct)).

Lemma dict_get_text_dict (k : string) (options : list (string * string)) :
  dict_get k (text_dict options) = JStr <$> dict_get k options.
Proof.
  induction options as [|[k' t] options IH]; simpl; [done|].
  by destruct (String.eqb k k').
Qed.

Lemma labels_of_labels (labels : list string) :
  labels_of (JList (JStr <$> labels)) = Ok labels.
Proof.
  unfold labels_of. cbn. induction labels as [|x l IH]; cbn; [done|].
  by rewrite IH.
Qed.

(** Rendering the texts of labels never fails on a standard question. *)
Lemma get_answer_text_from_keys_ok (q : json) (options : list (string * string))
    (keys : list string) :
  getitem q "options" = Ok (JDict (text_dict options)) ->
  exists texts, get_answer_text_from_keys q (JStr <$> keys) = Ok texts.
Proof.
  intros Hopt. induction keys as [|k keys [texts IH]]; [by eexists|].
  cbn. rewrite Hopt. cbn. rewrite dict_get_text_dict.
  destruct (dict_get k options) as [t|] eqn:Hk; cbn.
  - rewrite IH. cbn. by eexists.
  - by eexists.
Qed.

Lemma answer_field_ok (q : json) (number : Z) (mapping multiple : bool)
    (question_prefix : string) :
  getitem q "question_number" = Ok (JInt number) ->
  exists field,
    answer_field (mkAnswerProcessor q mapping multiple) question_prefix = Ok field.
Proof.
  intros Hnum. unfold answer_field. cbn. rewrite Hnum. cbn.
  destruct (String.eqb question_prefix "batch"); by eexists.
Qed.

(** ** Multi-select evaluation *)

(** The processor of a standard question with two options marked. *)
Definition two_of_three : json :=
  JDict [ ("question_number", JInt 7);
          ("options", JDict [("A", JStr "S3"); ("B", JStr "EC2"); ("C", JStr "IAM")]);
          ("correct_answer", JList [JStr "A"; JStr "B"]) ].

(** C7, as stated, fails: the submission A, A, B has the set of labels of
    the correct answer A, B, and is marked incorrect. *)
Lemma multi_select_not_set_equality :
  let form_data : form := [("answer", "A"); ("answer", "A"); ("answer", "B")] in
  form_getlist "answer" form_data = ["A"; "A"; "B"]
  /\ (forall x : string, x ∈ ["A"; "A"; "B"] <-> x ∈ ["A"; "B"])
  /\ (self ← AnswerProcessor_init two_of_three;
      r ← process_user_answer self form_data EmptyString;
      Ok (is_multiple_choice self, r.1.1.2)) = Ok (true, false).
Proof.
  split_and!; [done| |by vm_compute].
  intros x. rewrite !elem_of_cons, !elem_of_nil. tauto.
Qed.

(** C7, amended: on a multi-select question the verdict is correct exactly
    when the submitted list is a rearrangement of the correct labels, so
    two rearrangements of one submission get one verdict, a submission with
    more or fewer entries than the correct answer is incorrect, and on a
    submission without repeated labels the verdict is correct exactly when
    the two sets of labels are equal. *)
Theorem multi_select_verdict (q : json) (number : Z)
    (options : list (string * string)) (correct : list string)
    (form_data : form) (question_prefix : string) :
  standard_question q number options correct ->
  1 < length correct ->
  exists self field,
    AnswerProcessor_init q = Ok self
    /\ selected_protocol self = MultiSelect
    /\ answer_field self question_prefix = Ok field
    /\ exists verdict user_display correct_display,
         process_user_answer self form_data question_prefix
         = Ok (JList (JStr <$> sorted (form_getlist field form_data)),
               verdict, user_display, correct_display)
         /\ (verdict = true <-> form_getlist field form_data ≡ₚ correct)
         /\ (length (form_getlist field form_data) <> length correct ->
             verdict = false)
         /\ (NoDup (form_getlist field form_data) -> NoDup correct ->
             (verdict = true
              <-> forall x, x ∈ form_getlist field form_data <-> x ∈ correct))
         /\ (forall form_data',
               form_getlist field form_data' ≡ₚ form_getlist field form_data ->
               exists user_display',
                 process_user_answer self form_data' question_prefix
                 = Ok (JList (JStr <$> sorted (form_getlist field form_data)),
                       verdict, user_display', correct_display)).
Proof.
  intros (Hnum & Hopt & Hca) Hlen.
  set (self := mkAnswerProcessor q false true).
  destruct (answer_field_ok q number false true question_prefix Hnum)
    as [field Hfield].
  assert (Hinit : AnswerProcessor_init q = Ok self).
  { unfold AnswerProcessor_init, is_multiple_choice_question, is_mapping_question.
    rewrite Hca. cbn -[Nat.ltb]. rewrite length_fmap.
    by apply Nat.ltb_lt in Hlen as ->. }
  assert (Hrun : forall fd, exists user_display correct_display,
    process_user_answer self fd question_prefix
    = Ok (JList (JStr <$> sorted (form_getlist field fd)),
          bool_decide (sorted (form_getlist field fd) = sorted correct),
          user_display, correct_display)
    /\ forall fd', exists user_display',
         process_user_answer self fd' question_prefix
         = Ok (JList (JStr <$> sorted (form_getlist field fd')),
               bool_decide (sorted (form_getlist field fd') = sorted correct),
               user_display', correct_display)).
  { destruct (get_answer_text_from_keys_ok q options (sorted correct) Hopt)
      as [ctexts Hctexts].
    assert (Hone : forall fd, exists user_display,
      process_user_answer self fd question_prefix
      = Ok (JList (JStr <$> sorted (form_getlist field fd)),
            bool_decide (sorted (form_getlist field fd) = sorted correct),
            user_display, join " | " ctexts)).
    { intros fd. unfold self, process_user_answer, _process_multiple_choice_answer.
      cbn [question is_mapping is_multiple_choice].
      rewrite Hca. cbn [mbind result_bind].
      rewrite Hfield. cbn [mbind result_bind].
      rewrite labels_of_labels. cbn [mbind result_bind].
      rewrite Hctexts.
      destruct (sorted (form_getlist field fd)) as [|u us] eqn:Eu.
      - cbn. by eexists.
      - destruct (get_answer_text_from_keys_ok q options (u :: us) Hopt)
          as [utexts Hutexts].
        rewrite Hutexts. cbn. by eexists. }
    intros fd. destruct (Hone fd) as [ud Hud].
    exists ud, (join " | " ctexts). split; [done|]. apply Hone. }
  exists self, field. split_and!; [done..|].
  destruct (Hrun form_data) as (ud & cd & Hrun1 & Hrun2).
  exists (bool_decide (sorted (form_getlist field form_data) = sorted correct)),
    ud, cd.
  split_and!; [done| | | |].
  - by rewrite bool_decide_eq_true, sorted_eq_iff_perm.
  - intros Hne. apply bool_decide_eq_false. rewrite sorted_eq_iff_perm.
    intros Hperm. by apply Permutation_length in Hperm.
  - intros Hnd1 Hnd2. rewrite bool_decide_eq_true, sorted_eq_iff_perm. split.
    + intros Hperm x. by rewrite Hperm.
    + intros Hset. by apply NoDup_Permutation.
  - intros fd' Hperm. destruct (Hrun2 fd') as [ud' Hud'].
    exists ud'. rewrite Hud'. apply sorted_eq_iff_perm in Hperm.
    by rewrite Hperm.
Qed.

Lemma multi_select_verdict_witness :
  exists user_display correct_display,
    process_user_answer (mkAnswerProcessor two_of_three false true)
      [("answer", "B"); ("answer", "A")] EmptyString
    = Ok (JList [JStr "A"; JStr "B"], true, user_display, correct_display).
Proof.
  destruct (multi_select_verdict two_of_three 7
              [("A", "S3"); ("B", "EC2"); ("C", "IAM")] ["A"; "B"]
              [("answer", "B"); ("answer", "A")] EmptyString)
    as (self & field & Hinit & _ & Hfield & verdict & ud & cd & Hrun & Hperm & _).
  - repeat split.
  - simpl. lia.
  - cbv in Hinit. injection Hinit as <-.
    cbv in Hfield. injection Hfield as <-.
    exists ud, cd. refine (eq_trans Hrun _).
    replace verdict with true; [reflexivity|].
    symmetry. apply Hperm. apply perm_swap.
Defined.

(** ** Mapping evaluation *)

(** The options of a mapping question: sub-question and candidates. *)
Definition candidates_dict (options : list (string * list string)) : dict :=
  map (fun kv => (kv.1, JList (JStr <$> kv.2))) options.

(** A mapping question of the data model: every sub-question of the
    options has its entry in [correct_answer]. *)
Definition mapping_question (q : json) (number : Z)
    (options : list (string * list string)) (correct : list (string * string))
  : Prop :=
  getitem q "question_number" = Ok (JInt number)
  /\ getitem q "options" = Ok (JDict (candidates_dict options))
  /\ getitem q "correct_answer" = Ok (JDict (text_dict correct))
  /\ forall sub, sub ∈ dict_keys options -> is_Some (dict_get sub correct).

(** The form field of a sub-question. *)
Definition mapping_field_name (number : Z) (question_prefix sub : string) : string :=
  if String.eqb question_prefix "batch"
  then "mapping_" ++ str_of_Z number ++ "_" ++ sub
  else question_prefix ++ "mapping_" ++ sub.

Lemma mapping_field_ok (q : json) (number : Z) (mapping multiple : bool)
    (question_prefix sub : string) :
  getitem q "question_number" = Ok (JInt number) ->
  mapping_field (mkAnswerProcessor q mapping multiple) question_prefix sub
  = Ok (mapping_field_name number question_prefix sub).
Proof.
  intros Hnum. unfold mapping_field, mapping_field_name. cbn. rewrite Hnum. cbn.
  by destruct (String.eqb question_prefix "batch").
Qed.

Lemma dict_keys_candidates_dict (options : list (string * list string)) :
  dict_keys (candidates_dict options) = dict_keys options.
Proof.
  unfold dict_keys, candidates_dict. rewrite map_map. done.
Qed.

(** What the sub-question [sub] contributes: the submitted value, and
    whether it is the correct one. *)
Definition submitted (number : Z) (question_prefix : string) (form_data : form)
    (sub : string) : option string :=
  form_get (mapping_field_name number question_prefix sub) form_data.

Lemma py_eq_opt_text (o : option string) (t : string) :
  py_eq (opt_to_json o) (JStr t) = true <-> o = Some t.
Proof.
  destruct o as [s|]; cbn; [|done].
  rewrite String.eqb_eq. split; [by intros -> | by intros [= ->]].
Qed.

Section MappingLoop.

Context (q : json) (number : Z) (correct : list (string * string)).
Context (form_data : form) (question_prefix : string).
Hypothesis Hnum : getitem q "question_number" = Ok (JInt number).

Let self := mkAnswerProcessor q true false.
Let answer (sub : string) : json :=
  opt_to_json (submitted number question_prefix form_data sub).

Lemma mapping_answer_loop_ok (keys : list string) (user_answers : dict) (ok : bool) :
  (forall sub, sub ∈ keys -> is_Some (dict_get sub correct)) ->
  mapping_answer_loop self form_data question_prefix (JDict (text_dict correct))
    keys user_answers ok
  = Ok (foldl (fun acc sub => dict_set sub (answer sub) acc) user_answers keys,
        ok && forallb (fun sub =>
                bool_decide (submitted number question_prefix form_data sub
                             = dict_get sub correct)) keys).
Proof.
  revert user_answers ok.
  induction keys as [|sub keys IH]; intros user_answers ok Hall; cbn.
  - by rewrite andb_true_r.
  - assert (Hf := mapping_field_ok q number true false question_prefix sub Hnum).
    fold self in Hf. rewrite Hf. cbn.
    rewrite dict_get_text_dict.
    destruct (Hall sub) as [t Ht]; [left|]. rewrite Ht. cbn.
    rewrite IH by (intros ? ?; apply Hall; by right).
    unfold answer at 2, submitted. f_equal. f_equal.
    fold (submitted number question_prefix form_data sub).
    destruct (py_eq _ _) eqn:E.
    + apply py_eq_opt_text in E. by rewrite bool_decide_eq_true_2.
    + rewrite bool_decide_eq_false_2; [by rewrite andb_false_r|].
      intros Heq. apply py_eq_opt_text in Heq. congruence.
Qed.

Lemma foldl_answers_get (keys : list string) (user_answers : dict) (sub : string) :
  dict_get sub (foldl (fun acc s => dict_set s (answer s) acc) user_answers keys)
  = if bool_decide (sub ∈ keys) then Some (answer sub) else dict_get sub user_answers.
Proof.
  revert user_answers. induction keys as [|k keys IH]; intros user_answers; cbn.
  - done.
  - rewrite IH. destruct (decide (sub ∈ keys)) as [Hin|Hnin].
    + rewrite !bool_decide_eq_true_2; [done | by right | done].
    + rewrite (bool_decide_eq_false_2 (sub ∈ keys)) by done.
      destruct (decide (sub = k)) as [->|Hne].
      * rewrite bool_decide_eq_true_2 by left. apply dict_get_set_eq.
      * rewrite bool_decide_eq_false_2.
        -- by apply dict_get_set_ne.
        -- rewrite elem_of_cons. by intros [?|?].
Qed.

(** The answers the loop collects are texts or [None], which the display
    renders. *)
Definition renderable (user_answers : dict) : Prop :=
  forall sub v, dict_get sub user_answers = Some v ->
                v = JNull \/ exists t, v = JStr t.

Lemma mapping_display_parts_ok (user_answers : dict) (keys : list string) :
  getitem q "correct_answer" = Ok (JDict (text_dict correct)) ->
  renderable user_answers ->
  (forall sub, sub ∈ keys -> is_Some (dict_get sub correct)) ->
  exists parts, mapping_display_parts q user_answers keys = Ok parts.
Proof.
  intros Hca Hrender. induction keys as [|sub keys IH]; intros Hall; cbn.
  - by eexists.
  - destruct IH as [parts Hparts]; [intros ? ?; apply Hall; by right|].
    assert (Hua : exists s, py_str (dict_get_default sub (JStr "Not answered")
                                     user_answers) = Ok s).
    { unfold dict_get_default.
      destruct (dict_get sub user_answers) as [v|] eqn:Hv; [|by eexists].
      destruct (Hrender _ _ Hv) as [-> | [t ->]]; by eexists. }
    destruct Hua as [s ->]. cbn. rewrite Hca. cbn.
    rewrite dict_get_text_dict.
    destruct (Hall sub) as [t ->]; [left|]. cbn.
    rewrite Hparts. cbn. by eexists.
Qed.

End MappingLoop.

(** A mapping question with two sub-questions. *)
Definition two_slots : json :=
  JDict [ ("question_number", JInt 3);
          ("options",
           JDict [ ("use_case", JList [JStr "chat"; JStr "search"]);
                   ("service", JList [JStr "Lex"; JStr "Kendra"; JStr "Polly"]) ]);
          ("correct_answer",
           JDict [ ("use_case", JStr "search"); ("service", JStr "Kendra") ]) ].

(** C8: a mapping question is evaluated without an exception whatever the
    form holds; the verdict is correct exactly when every sub-question's
    submitted value is its entry of [correct_answer]; the recorded answer of
    each sub-question is the submitted value, [None] when the field is
    missing, and one missing field makes the verdict incorrect. *)
Theorem mapping_verdict (q : json) (number : Z)
    (options : list (string * list string)) (correct : list (string * string))
    (form_data : form) (question_prefix : string) :
  mapping_question q number options correct ->
  exists self,
    AnswerProcessor_init q = Ok self
    /\ selected_protocol self = Mapping
    /\ exists user_answers verdict user_display correct_display,
         process_user_answer self form_data question_prefix
         = Ok (JDict user_answers, verdict, user_display, correct_display)
         /\ (verdict = true
             <-> forall sub, sub ∈ dict_keys options ->
                   submitted number question_prefix form_data sub
                   = dict_get sub correct)
         /\ (forall sub, sub ∈ dict_keys options ->
               dict_get sub user_answers
               = Some (opt_to_json (submitted number question_prefix form_data sub)))
         /\ (forall sub, sub ∈ dict_keys options ->
               mapping_field self question_prefix sub
               = Ok (mapping_field_name number question_prefix sub)
               /\ (form_get (mapping_field_name number question_prefix sub) form_data
                   = None ->
                   verdict = false /\ dict_get sub user_answers = Some JNull)).
Proof.
  intros (Hnum & Hopt & Hca & Hshape).
  exists (mkAnswerProcessor q true false).
  assert (Hinit : AnswerProcessor_init q = Ok (mkAnswerProcessor q true false)).
  { unfold AnswerProcessor_init, is_multiple_choice_question, is_mapping_question.
    rewrite Hca. done. }
  split_and!; [done..|].
  set (keys := dict_keys options).
  set (answers := foldl (fun acc sub =>
                     dict_set sub (opt_to_json
                       (submitted number question_prefix form_data sub)) acc)
                    ([] : dict) keys).
  set (verdict := forallb (fun sub =>
                    bool_decide (submitted number question_prefix form_data sub
                                 = dict_get sub correct)) keys).
  assert (Hget : forall sub, sub ∈ keys ->
            dict_get sub answers
            = Some (opt_to_json (submitted number question_prefix form_data sub))).
  { intros sub Hin. unfold answers.
    rewrite (foldl_answers_get number form_data question_prefix).
    by rewrite bool_decide_eq_true_2. }
  assert (Hrender : renderable answers).
  { intros sub v. unfold answers.
    rewrite (foldl_answers_get number form_data question_prefix).
    case_bool_decide; [|done]. intros [= <-].
    destruct (submitted _ _ _ _); [right; by eexists | by left]. }
  destruct (mapping_display_parts_ok q correct answers keys Hca Hrender Hshape)
    as [parts Hparts].
  exists answers, verdict, (join " | " parts.1), (join " | " parts.2).
  assert (Hverdict : verdict = true
            <-> forall sub, sub ∈ keys ->
                  submitted number question_prefix form_data sub
                  = dict_get sub correct).
  { unfold verdict. rewrite forallb_forall. split.
    - intros Hall sub Hin. apply list_elem_of_In, Hall in Hin.
      by apply bool_decide_eq_true in Hin.
    - intros Hall sub Hin. apply bool_decide_eq_true, Hall.
      by apply list_elem_of_In. }
  split_and!; [|done|done|].
  - unfold process_user_answer, _process_mapping_answer.
    cbn [question is_mapping]. rewrite Hca. cbn [mbind result_bind].
    rewrite Hopt. cbn [mbind result_bind as_dict].
    rewrite dict_keys_candidates_dict.
    rewrite (mapping_answer_loop_ok q number correct form_data question_prefix Hnum)
      by done.
    cbn [mbind result_bind fst snd andb].
    unfold get_mapping_answer_display.
    rewrite Hopt. cbn [mbind result_bind as_dict].
    rewrite dict_keys_candidates_dict.
    fold keys answers. rewrite Hparts. done.
  - intros sub Hin. split; [by apply mapping_field_ok|].
    intros Hmiss. split.
    + apply not_true_is_false. intros Htrue.
      pose proof (proj1 Hverdict Htrue sub Hin) as Heq.
      unfold submitted in Heq. rewrite Hmiss in Heq.
      destruct (Hshape sub Hin) as [t Ht]. congruence.
    + rewrite Hget by done. unfold submitted. by rewrite Hmiss.
Qed.

Lemma mapping_verdict_witness :
  exists user_answers user_display correct_display,
    process_user_answer (mkAnswerProcessor two_slots true false)
      [("mapping_use_case", "search")] EmptyString
    = Ok (JDict user_answers, false, user_display, correct_display)
    /\ dict_get "service" user_answers = Some JNull.
Proof.
  destruct (mapping_verdict two_slots 3
              [ ("use_case", ["chat"; "search"]);
                ("service", ["Lex"; "Kendra"; "Polly"]) ]
              [ ("use_case", "search"); ("service", "Kendra") ]
              [("mapping_use_case", "search")] EmptyString)
    as (self & Hinit & _ & ua & verdict & ud & cd & Hrun & _ & _ & Hmissing).
  - split_and!; try reflexivity.
    intros sub Hin. apply dict_get_is_Some.
    revert Hin. unfold dict_keys. simpl. exact (fun H => H).
  - cbv in Hinit. injection Hinit as <-.
    destruct (Hmissing "service") as [_ Hmiss].
    { unfold dict_keys. simpl. right. left. }
    destruct Hmiss as [-> Hnone]; [reflexivity|].
    exists ua, ud, cd. split; [exact Hrun | exact Hnone].
Defined.

(** ** Score and certification level *)

Import PyFloat.



#[local] Instance float_eq_dec : EqDecision spec_float.
Proof. solve_decision. Defined.

#[local] Instance exn_eq_dec : EqDecision exn.
Proof. solve_decision. Defined.

#[local] Instance result_float_eq_dec : EqDecision (result spec_float).
Proof. solve_decision. Defined.

(** The label a number of tenths earns. *)
Definition level_of_tenths (n : Z) : string :=
  if (800 <=? n)%Z then "Excellent - Ready for the exam"
  else if (700 <=? n)%Z then "Good - Almost ready"
  else "Needs more study".

(** [n] tenths is the score of [c] out of [t]: it is what the code reports,
    it is an integer nearest to [1000 * c / t], and the label is the one of
    its tier. *)
Definition reported_as (c t n : Z) : Prop :=
  percent c t = Ok (of_tenths false n)
  /\ (2 * Z.abs (t * n - 1000 * c) <= t)%Z
  /\ (_get_certification_level (of_tenths false n)).1 = level_of_tenths n.

Definition reported_asb (c t n : Z) : bool :=
  bool_decide (percent c t = Ok (of_tenths false n))
  && (2 * Z.abs (t * n - 1000 * c) <=? t)%Z
  && String.eqb (_get_certification_level (of_tenths false n)).1 (level_of_tenths n).

Definition score_ok (c t : Z) : bool :=
  let n := ((2000 * c + t) / (2 * t))%Z in
  reported_asb c t n || reported_asb c t (n - 1).

Definition scores_ok_upto (bound : nat) : bool :=
  forallb (fun t => forallb (fun c => score_ok (Z.of_nat c) (Z.of_nat t))
                            (seq 0 (S t)))
          (seq 1 bound).

Lemma reported_asb_sound (c t n : Z) : reported_asb c t n = true -> reported_as c t n.
Proof.
  unfold reported_asb, reported_as.
  rewrite !andb_true_iff, bool_decide_eq_true, Z.leb_le, String.eqb_eq. tauto.
Qed.

Lemma scores_ok_200 : scores_ok_upto 200 = true.
Proof. vm_compute. reflexivity. Qed.

Lemma forallb_seq (f : nat -> bool) (start len i : nat) :
  forallb f (seq start len) = true -> start <= i < start + len -> f i = true.
Proof.
  intros Hall Hi. rewrite forallb_forall in Hall. apply Hall, in_seq. lia.
Qed.

Lemma score_ok_sound (c t : Z) : score_ok c t = true -> exists n, reported_as c t n.
Proof.
  unfold score_ok. intros [H1|H1]%orb_true_iff;
    eexists; apply reported_asb_sound, H1.
Qed.

Lemma scores_ok_upto_sound (bound : nat) (c t : Z) :
  scores_ok_upto bound = true ->
  (0 <= c <= t)%Z -> (0 < t <= Z.of_nat bound)%Z -> score_ok c t = true.
Proof.
  unfold scores_ok_upto. intros Hall Hc Ht.
  pose proof (forallb_seq _ 1 bound (Z.to_nat t) Hall ltac:(lia)) as Hrow.
  pose proof (forallb_seq _ 0 (S (Z.to_nat t)) (Z.to_nat c) Hrow ltac:(lia)) as Hcell.
  cbv beta in Hcell. by rewrite !Z2Nat.id in Hcell by lia.
Qed.

Lemma score_exact_upto_200 (c t : Z) :
  (0 <= c <= t)%Z -> (0 < t <= 200)%Z -> exists n, reported_as c t n.
Proof.
  intros Hc Ht. apply score_ok_sound.
  apply (scores_ok_upto_sound 200 c t scores_ok_200); lia.
Qed.








(** ** Selection and the start of an attempt *)

Lemma world_eta {G : Type} (w : World G) : mkWorld (store w) (session w) (rng w) = w.
Proof. by destruct w. Qed.

Lemma filter_range_none (start_range end_range : Z) (questions : list json) :
  Forall (fun q => exists n, getitem q "question_number" = Ok (JInt n)
                             /\ ~ (start_range <= n <= end_range)%Z) questions ->
  filter_range start_range end_range questions = Ok [].
Proof.
  induction 1 as [|q rest (n & Hn & Hout) _ IH]; [done|].
  cbn. unfold in_range. rewrite Hn. cbn. rewrite IH. cbn.
  destruct (Z.leb_spec start_range n), (Z.leb_spec n end_range); cbn; [lia|done..].
Qed.

(** Comparisons of string literals are evaluated. *)
Ltac eval_eqb :=
  repeat match goal with
         | |- context [String.eqb ?a ?b] =>
             let v := eval vm_compute in (String.eqb a b) in
             match v with
             | true => change (String.eqb a b) with true
             | false => change (String.eqb a b) with false
             end
         end.

(** A bank of two standard questions. *)
Definition small_bank : list json :=
  [ JDict [ ("question_number", JInt 1);
            ("options", JDict [("A", JStr "S3"); ("B", JStr "EC2")]);
            ("correct_answer", JList [JStr "A"]) ];
    JDict [ ("question_number", JInt 2);
            ("options", JDict [("A", JStr "Lex"); ("B", JStr "Polly")]);
            ("correct_answer", JList [JStr "B"]) ] ].

Definition fresh_world : World nat :=
  mkWorld (mkStore (fun _ => "2025-01-01T00:00:00.000000") 0 ∅) [] 0.

(** What [_initialize_quiz_session] stores, [_get_session_questions] reads. *)
Lemma initialize_then_read {G : Type} (md5_hexdigest : string -> string)
    (quiz_mode : string) (questions : list json) (w : World G) :
  let w' := _initialize_quiz_session md5_hexdigest quiz_mode questions w in
  _get_session_questions w' = Ok (JList questions)
  /\ dict_get "quiz_mode" (session w') = Some (JStr quiz_mode)
  /\ dict_get "current_question" (session w') = Some (JInt 0)
  /\ dict_get "correct_answers" (session w') = Some (JInt 0)
  /\ dict_get "user_answers" (session w') = Some (JDict [])
  /\ dict_get "questions" (session w')
     = (if should_use_large_session questions then None
        else Some (JList questions))
  /\ rng w' = rng w.
Proof.
  unfold _initialize_quiz_session.
  destruct (should_use_large_session questions).
  - unfold store_large_session, generate_session_id, now_isoformat.
    cbn -[substring]. split_and!; try done.
    unfold _get_session_questions, get_session_questions. cbn -[substring].
    by rewrite lookup_insert_eq.
  - unfold now_isoformat. cbn. done.
Qed.

Lemma shuffle_all_length {G : Type} `{Random G} (selected : list json) :
  forall (g g' : G) (shuffled : list json),
    shuffle_all selected g = (Ok shuffled, g') ->
    length shuffled = length selected.
Proof.
  induction selected as [|q rest IH]; intros g g' shuffled; cbn.
  - by intros [= <- _].
  - destruct (shuffle_question_options q g) as [[q'|] g1]; [|done].
    specialize (IH g1).
    destruct (shuffle_all rest g1) as [[others|] g2]; [|done].
    intros [= <- _]. cbn. f_equal. by eapply IH.
Qed.

(** C3, as stated, fails: a random selection of 0 questions does not select
    nothing; it selects the whole bank, and the attempt starts with it. *)
Lemma zero_count_starts_whole_bank :
  let form_data : form := [("selection_type", "random"); ("num_random", "0")] in
  (_get_selected_questions small_bank "random" form_data 0).1 = Ok small_bank
  /\ (start_quiz (fun s => s) small_bank form_data fresh_world).1
     = Redirect "quiz_immediate"
  /\ (questions ← _get_session_questions
                     (start_quiz (fun s => s) small_bank form_data fresh_world).2;
      selected ← iter_list questions;
      Ok (length selected)) = Ok 2.
Proof. split_and!; by vm_compute. Qed.

(** C3, amended: on a non-empty bank, a range bound or a random count that
    is not a number, and a negative random count, raise [ValueError] in the
    selection, which [start_quiz] answers by redirecting to the selection
    page with the world as it was; a range with non-zero bounds that holds
    no question number selects nothing, and [start_quiz] then stores an
    attempt of zero questions and redirects to the quiz page, which
    redirects to the selection page; a random count of 0 selects the whole
    bank, and the attempt starts with it: once the options are shuffled
    [start_quiz] stores as many questions as the bank holds and redirects
    to the quiz page, which shows them. *)
Theorem invalid_selection {G : Type} `{Random G} (md5_hexdigest : string -> string)
    (bank : list json) (form_data : form) (w : World G) :
  bank <> [] ->
  let quiz_page :=
    if String.eqb (default "immediate" (form_get "quiz_mode" form_data)) "immediate"
    then "quiz_immediate" else "quiz_batch" in
  (form_get "selection_type" form_data = Some "range" ->
   int_field form_data "start_range" 1 = Raise ValueError
   \/ (exists a, int_field form_data "start_range" 1 = Ok a)
      /\ int_field form_data "end_range" (Z.of_nat (length bank)) = Raise ValueError ->
   start_quiz md5_hexdigest bank form_data w = (Redirect "index", w))
  /\ (form_get "selection_type" form_data = Some "random" ->
      forall k, int_field form_data "num_random" 10 = Ok k -> (k < 0)%Z ->
      start_quiz md5_hexdigest bank form_data w = (Redirect "index", w))
  /\ (form_get "selection_type" form_data = Some "range" ->
      forall a b,
        int_field form_data "start_range" 1 = Ok a ->
        int_field form_data "end_range" (Z.of_nat (length bank)) = Ok b ->
        a <> 0%Z -> b <> 0%Z ->
        Forall (fun q => exists n, getitem q "question_number" = Ok (JInt n)
                                   /\ ~ (a <= n <= b)%Z) bank ->
        (_get_selected_questions bank "range" form_data (rng w)).1 = Ok []
        /\ exists w',
             start_quiz md5_hexdigest bank form_data w = (Redirect quiz_page, w')
             /\ _get_session_questions w' = Ok (JList [])
             /\ quiz_immediate w' = (Redirect "index", w')
             /\ quiz_batch w' = (Redirect "index", w')
             /\ (index bank w').2 = mkWorld (store w') [] (rng w'))
  /\ (form_get "selection_type" form_data = Some "random" ->
      int_field form_data "num_random" 10 = Ok 0%Z ->
      _get_selected_questions bank "random" form_data (rng w) = (Ok bank, rng w)
      /\ (forall e g',
            shuffle_all bank (rng w) = (Raise e, g') ->
            start_quiz md5_hexdigest bank form_data w
            = (Abort e, mkWorld (store w) (session w) g'))
      /\ (forall shuffled g',
            shuffle_all bank (rng w) = (Ok shuffled, g') ->
            exists w',
              start_quiz md5_hexdigest bank form_data w = (Redirect quiz_page, w')
              /\ _get_session_questions w' = Ok (JList shuffled)
              /\ length shuffled = length bank
              /\ dict_get "current_question" (session w') = Some (JInt 0)
              /\ quiz_batch w' = (Render (QuizBatchPage shuffled), w')))
  /\ (form_get "selection_type" form_data = Some "random" ->
      int_field form_data "num_random" 10 = Raise ValueError ->
      start_quiz md5_hexdigest bank form_data w = (Redirect "index", w)).
Proof.
  intros Hbank quiz_page. destruct bank as [|q0 rest]; [done|]. clear Hbank.
  split_and!.
  - intros Hsel Hbad. unfold start_quiz. cbv zeta.
    rewrite Hsel. cbn [default from_option id]. unfold _get_selected_questions.
    eval_eqb.
    destruct Hbad as [-> | [[a ->] ->]]; by rewrite world_eta.
  - intros Hsel k Hk Hneg. unfold start_quiz. cbv zeta.
    rewrite Hsel. cbn [default from_option id]. unfold _get_selected_questions.
    eval_eqb. rewrite Hk.
    unfold get_question_subset. eval_eqb. cbn [andb given].
    assert (Hnz : Z.eqb k 0 = false) by lia. rewrite Hnz.
    cbn [negb default from_option id].
    unfold sample.
    assert (Hmin : (Z.min k (Z.of_nat (length (q0 :: rest))) <? 0)%Z = true) by lia.
    rewrite Hmin. cbn [orb]. by rewrite world_eta.
  - intros Hsel a b Ha Hb Hanz Hbnz Hout.
    assert (Hselected :
      _get_selected_questions (q0 :: rest) "range" form_data (rng w)
      = (Ok [], rng w)).
    { unfold _get_selected_questions. eval_eqb.
      rewrite Ha, Hb. unfold get_question_subset. eval_eqb. cbn [andb given].
      apply Z.eqb_neq in Hanz as ->, Hbnz as ->.
      cbn [negb andb default from_option id].
      by rewrite filter_range_none. }
    split; [by rewrite Hselected|].
    unfold start_quiz. cbv zeta.
    rewrite Hsel. cbn [default from_option id]. rewrite Hselected.
    cbn [shuffle_all]. eexists. split; [reflexivity|].
    unfold _initialize_quiz_session.
    change (should_use_large_session []) with false. cbv iota.
    cbn. done.
  - intros Hsel Hzero.
    assert (Hselected :
      _get_selected_questions (q0 :: rest) "random" form_data (rng w)
      = (Ok (q0 :: rest), rng w)).
    { unfold _get_selected_questions. eval_eqb. by rewrite Hzero. }
    split_and!; [done| |].
    + intros e g' Hshuffle. unfold start_quiz. cbv zeta.
      rewrite Hsel. cbn [default from_option id]. by rewrite Hselected, Hshuffle.
    + intros shuffled g' Hshuffle.
      pose proof (shuffle_all_length _ _ _ _ Hshuffle) as Hlen.
      pose proof (initialize_then_read md5_hexdigest
                    (default "immediate" (form_get "quiz_mode" form_data)) shuffled
                    (mkWorld (store w) (session w) g'))
        as (Hread & _ & Hcur & _).
      eexists. split_and!; [|exact Hread|exact Hlen|exact Hcur|].
      * unfold start_quiz. cbv zeta.
        rewrite Hsel. cbn [default from_option id]. by rewrite Hselected, Hshuffle.
      * unfold quiz_batch. rewrite Hread.
        by destruct shuffled.
  - intros Hsel Hbad. unfold start_quiz. cbv zeta.
    rewrite Hsel. cbn [default from_option id]. unfold _get_selected_questions.
    eval_eqb. rewrite Hbad. by rewrite world_eta.
Qed.

Lemma invalid_selection_witness :
  start_quiz (fun s => s) small_bank
    [("selection_type", "range"); ("start_range", "abc"); ("end_range", "5")]
    fresh_world
  = (Redirect "index", fresh_world)
  /\ (_get_selected_questions small_bank "range"
        [("selection_type", "range"); ("start_range", "1000"); ("end_range", "2000")]
        0).1 = Ok []
  /\ _get_selected_questions small_bank "random"
       [("selection_type", "random"); ("num_random", "0")] 0
     = (Ok small_bank, 0).
Proof.
  split_and!.
  - destruct (invalid_selection (fun s => s) small_bank
                [("selection_type", "range"); ("start_range", "abc");
                 ("end_range", "5")]
                fresh_world) as (Hrange & _); [discriminate|].
    apply Hrange; [reflexivity|]. left. reflexivity.
  - destruct (invalid_selection (fun s => s) small_bank
                [("selection_type", "range"); ("start_range", "1000");
                 ("end_range", "2000")]
                fresh_world) as (_ & _ & Hempty & _); [discriminate|].
    apply (Hempty eq_refl 1000%Z 2000%Z); try reflexivity; try discriminate.
    repeat constructor; eexists; (split; [reflexivity | lia]).
  - destruct (invalid_selection (fun s => s) small_bank
                [("selection_type", "random"); ("num_random", "0")] fresh_world)
      as (_ & _ & _ & Hzero & _); [discriminate|].
    apply Hzero; reflexivity.
Defined.

(** ** Shuffling a standard question *)

(** A standard question two of whose options carry the same text, the
    second of them marked correct. *)
Definition duplicate_texts : json :=
  JDict [ ("question_number", JInt 1);
          ("options", JDict [("A", JStr "Amazon S3"); ("B", JStr "Amazon S3")]);
          ("correct_answer", JList [JStr "B"]) ].

Lemma perm_pair_same {A} (a : A) (l : list A) : l ≡ₚ [a; a] -> l = [a; a].
Proof.
  intros Hperm.
  pose proof (Permutation_length Hperm) as Hlen.
  destruct l as [|x [|y [|z l]]]; try done.
  assert (Hx : x ∈ [a; a]) by (rewrite <- Hperm; left).
  assert (Hy : y ∈ [a; a]) by (rewrite <- Hperm; right; left).
  rewrite !elem_of_cons, elem_of_nil in Hx, Hy.
  by destruct Hx as [->|[->|[]]], Hy as [->|[->|[]]].
Qed.

(** C5 fails on the code: whatever the generator does, shuffling this
    question raises [KeyError].  Both values find the label A first, so
    [value_to_new_key] never gets an entry for the correct label B. *)
Theorem duplicate_texts_raise {G : Type} `{Random G} (g : G) :
  (shuffle_question_options duplicate_texts g).1 = Raise KeyError.
Proof.
  unfold shuffle_question_options, _shuffle_standard_question_options.
  cbn [duplicate_texts is_mapping_question getitem dict_get mbind result_bind
       as_dict dict_values map snd].
  eval_eqb. cbn [mbind result_bind as_dict dict_values map snd].
  pose proof (random_shuffle_perm _ [JStr "Amazon S3"; JStr "Amazon S3"] g) as Hperm.
  destruct (random_shuffle [JStr "Amazon S3"; JStr "Amazon S3"] g)
    as [option_values g'].
  apply perm_pair_same in Hperm. cbn [fst] in Hperm. subst option_values.
  by vm_compute.
Qed.

(** ** Shuffling a standard question whose option texts differ *)

Lemma dict_get_None_keys {V} (k : string) (d : list (string * V)) :
  dict_get k d = None <-> ~ (k ∈ dict_keys d).
Proof.
  rewrite <- dict_get_is_Some, eq_None_not_Some. done.
Qed.

Lemma dict_set_fresh {V} (k : string) (v : V) (d : list (string * V)) :
  dict_get k d = None -> dict_set k v d = (d ++ [(k, v)])%list.
Proof.
  induction d as [|[k' v'] d IH]; simpl; [done|].
  destruct (String.eqb k k'); [done|]. intros Hget. by rewrite IH.
Qed.

Lemma dict_get_app_fresh {V} (k k' : string) (v : V) (d : list (string * V)) :
  dict_get k (d ++ [(k', v)])%list
  = match dict_get k d with
    | Some x => Some x
    | None => if String.eqb k k' then Some v else None
    end.
Proof.
  induction d as [|[k'' v''] d IH]; simpl; [done|].
  by destruct (String.eqb k k'').
Qed.

Lemma text_dict_app (a b : list (string * string)) :
  text_dict (a ++ b)%list = (text_dict a ++ text_dict b)%list.
Proof. unfold text_dict. apply map_app. Qed.

Lemma dict_keys_text_dict (options : list (string * string)) :
  dict_keys (text_dict options) = dict_keys options.
Proof. unfold dict_keys, text_dict. rewrite map_map. done. Qed.

Lemma dict_get_NoDup {V} (k : string) (v : V) (d : list (string * V)) :
  NoDup (dict_keys d) -> (k, v) ∈ d -> dict_get k d = Some v.
Proof.
  unfold dict_keys. induction d as [|[k' v'] d IH]; simpl.
  - by intros _ ?%elem_of_nil.
  - intros [Hk' Hnd]%NoDup_cons [[= -> ->]|Hin]%elem_of_cons.
    + by rewrite String.eqb_refl.
    + destruct (String.eqb k k') eqn:E; [|by apply IH].
      apply String.eqb_eq in E as ->. destruct Hk'.
      apply list_elem_of_fmap. by exists (k', v).
Qed.

(** The first option that carries the text [t]. *)
Lemma find_text (options : list (string * string)) (t : string) :
  find (fun kv : string * json => py_eq kv.2 (JStr t)) (text_dict options)
  = (fun kv : string * string => (kv.1, JStr kv.2))
      <$> find (fun kv : string * string => String.eqb kv.2 t) options.
Proof.
  induction options as [|[k t'] options IH]; simpl; [done|].
  destruct (String.eqb t' t); [done | apply IH].
Qed.

Lemma find_text_elem (options : list (string * string)) (t : string) kv :
  find (fun kv : string * string => String.eqb kv.2 t) options = Some kv ->
  kv ∈ options /\ kv.2 = t.
Proof.
  induction options as [|[k t'] options IH]; simpl; [done|].
  destruct (String.eqb t' t) eqn:E.
  - intros [= <-]. apply String.eqb_eq in E. split; [left | done].
  - intros [Hin ?]%IH. split; [by right | done].
Qed.

Lemma find_text_unique (options : list (string * string)) (k t : string) :
  NoDup (dict_values options) -> (k, t) ∈ options ->
  find (fun kv : string * string => String.eqb kv.2 t) options = Some (k, t).
Proof.
  unfold dict_values. induction options as [|[k' t'] options IH]; simpl.
  - by intros _ ?%elem_of_nil.
  - intros [Ht' Hnd]%NoDup_cons [[= -> ->]|Hin]%elem_of_cons.
    + by rewrite String.eqb_refl.
    + destruct (String.eqb t' t) eqn:E; [|by apply IH].
      apply String.eqb_eq in E as ->. destruct Ht'.
      apply list_elem_of_fmap. by exists (k, t).
Qed.

Section RemapLoop.

Context (options : list (string * string)).
Hypothesis Hlabels : NoDup (dict_keys options).

Let option_keys := dict_keys options.

(** What the loop keeps true: the options filled so far are the first
    labels with the values drawn so far, and every label mapped so far
    leads to a new label that holds its text. *)
Definition remapped (shuffled : list (string * string))
    (value_to_new_key : gmap string string) : Prop :=
  forall c c', value_to_new_key !! c = Some c' ->
               exists t, dict_get c options = Some t
                         /\ dict_get c' shuffled = Some t.

Lemma remap_loop_spec (texts : list string) :
  forall (i : nat) (done : list string) (value_to_new_key : gmap string string),
    length done = i ->
    i + length texts <= length option_keys ->
    remapped (zip (take i option_keys) done) value_to_new_key ->
    exists value_to_new_key',
      remap_loop option_keys (text_dict options) i (JStr <$> texts)
        (text_dict (zip (take i option_keys) done)) value_to_new_key
      = Ok (text_dict (zip (take (i + length texts) option_keys)
                             (done ++ texts)%list),
            value_to_new_key')
      /\ remapped (zip (take (i + length texts) option_keys) (done ++ texts)%list)
           value_to_new_key'
      /\ (forall c, is_Some (value_to_new_key !! c) ->
                    is_Some (value_to_new_key' !! c))
      /\ (NoDup (dict_values options) ->
          forall c t, (c, t) ∈ options -> t ∈ texts ->
                      is_Some (value_to_new_key' !! c)).
Proof.
  induction texts as [|t texts IH]; intros i done v2k Hdone Hlen Hinv.
  - exists v2k. rewrite Nat.add_0_r, app_nil_r. cbn. split_and!; try done.
    intros _ c t' _ ?%elem_of_nil. done.
  - cbn [fmap list_fmap remap_loop length] in *.
    destruct (option_keys !! i) as [new_key|] eqn:Hkey;
      [|apply lookup_ge_None in Hkey; lia].
    assert (Hfresh : dict_get new_key (text_dict (zip (take i option_keys) done))
                     = None).
    { apply dict_get_None_keys. rewrite dict_keys_text_dict.
      unfold dict_keys. rewrite fst_zip by (rewrite length_take; lia).
      intros Hin. apply list_elem_of_lookup in Hin as [j Hj].
      pose proof (lookup_lt_Some _ _ _ Hj) as Hlt. rewrite length_take in Hlt.
      rewrite lookup_take_lt in Hj by lia.
      pose proof (NoDup_lookup _ _ _ _ Hlabels Hj Hkey). lia. }
    assert (Hzip : zip (take (S i) option_keys) (done ++ [t])%list
                   = (zip (take i option_keys) done ++ [(new_key, t)])%list).
    { rewrite (take_S_r _ _ _ Hkey).
      rewrite zip_with_app by (rewrite length_take; lia). done. }
    rewrite dict_set_fresh by done.
    change [(new_key, JStr t)] with (text_dict [(new_key, t)]).
    rewrite <- text_dict_app, <- Hzip.
    replace (i + S (length texts)) with (S i + length texts) by lia.
    replace (done ++ t :: texts)%list with ((done ++ [t]) ++ texts)%list
      by (by rewrite <- app_assoc).
    rewrite find_text.
    set (v2k1 := match (fun kv : string * string => (kv.1, JStr kv.2))
                         <$> find (fun kv : string * string => String.eqb kv.2 t)
                               options with
                 | Some (orig_key, _) => <[orig_key := new_key]> v2k
                 | None => v2k
                 end).
    assert (Hinv1 : remapped (zip (take (S i) option_keys) (done ++ [t])%list) v2k1).
    { rewrite Hzip. intros c c'. unfold v2k1.
      assert (Hold : v2k !! c = Some c' ->
                exists t0, dict_get c options = Some t0
                           /\ dict_get c' (zip (take i option_keys) done
                                             ++ [(new_key, t)])%list = Some t0).
      { intros (t0 & Hc & Hc')%Hinv. exists t0. split; [done|].
        by rewrite dict_get_app_fresh, Hc'. }
      destruct (find _ options) as [[ok ot]|] eqn:Hfind; cbn; [|done].
      apply find_text_elem in Hfind as [Hin Ht]. cbn in Ht. subst ot.
      destruct (decide (c = ok)) as [->|Hne].
      - rewrite lookup_insert_eq. intros [= <-]. exists t.
        split; [by apply dict_get_NoDup|].
        rewrite dict_get_app_fresh.
        rewrite dict_get_text_dict in Hfresh.
        destruct (dict_get new_key (zip (take i option_keys) done)); [done|].
        by rewrite String.eqb_refl.
      - by rewrite lookup_insert_ne. }
    destruct (IH (S i) (done ++ [t])%list v2k1) as (v2k' & Hrun & Hinv' & Hmono & Htotal);
      [rewrite length_app; simpl; lia | lia | done |].
    exists v2k'. split_and!; [done | done | |].
    + intros c Hc. apply Hmono. unfold v2k1.
      destruct (find _ options) as [[ok ot]|]; cbn; [|done].
      destruct (decide (c = ok)) as [->|Hne];
        [by rewrite lookup_insert_eq | by rewrite lookup_insert_ne].
    + intros Htexts c t' Hin [->|Ht']%elem_of_cons; [|by eapply Htotal].
      apply Hmono. unfold v2k1.
      rewrite (find_text_unique options c t Htexts Hin). cbn.
      by rewrite lookup_insert_eq.
Qed.

End RemapLoop.

Lemma mapM_new_key_of (value_to_new_key : gmap string string) (correct : list string) :
  (forall c, c ∈ correct -> is_Some (value_to_new_key !! c)) ->
  exists correct',
    mapM (new_key_of value_to_new_key) (JStr <$> correct) = Ok (JStr <$> correct')
    /\ Forall2 (fun c c' => value_to_new_key !! c = Some c') correct correct'.
Proof.
  induction correct as [|c correct IH]; intros Hall.
  - by exists [].
  - destruct (Hall c) as [c' Hc']; [left|].
    destruct IH as (correct' & Hrun & Hall'); [intros ? ?; apply Hall; by right|].
    exists (c' :: correct'). cbn. rewrite Hc'. cbn. rewrite Hrun. cbn.
    split; [done | by constructor].
Qed.

(** On a standard question whose labels are distinct, whose option texts
    are distinct and whose correct labels are labels of options, the
    shuffle returns, whatever the generator does: the labels are the same
    in the same order, the texts are a rearrangement, and each new correct
    label holds the text its original held. *)
Theorem shuffle_standard_preserves {G : Type} `{Random G} (fields : dict)
    (options : list (string * string)) (correct : list string) (g : G) :
  getitem (JDict fields) "options" = Ok (JDict (text_dict options)) ->
  getitem (JDict fields) "correct_answer" = Ok (JList (JStr <$> correct)) ->
  NoDup (dict_keys options) ->
  NoDup (dict_values options) ->
  Forall (fun c => c ∈ dict_keys options) correct ->
  exists options' correct',
    (shuffle_question_options (JDict fields) g).1
    = Ok (JDict (dict_set "correct_answer" (JList (JStr <$> correct'))
                   (dict_set "options" (JDict (text_dict options')) fields)))
    /\ dict_keys options' = dict_keys options
    /\ dict_values options' ≡ₚ dict_values options
    /\ Forall2 (fun c c' => dict_get c' options' = dict_get c options)
         correct correct'.
Proof.
  intros Hopt Hca Hlabels Htexts Hcorrect.
  unfold shuffle_question_options, is_mapping_question.
  rewrite Hca. cbn [mbind result_bind].
  unfold _shuffle_standard_question_options.
  rewrite Hopt, Hca. cbn [mbind result_bind as_dict].
  pose proof (random_shuffle_perm _ (dict_values (text_dict options)) g) as Hperm.
  destruct (random_shuffle (dict_values (text_dict options)) g)
    as [option_values g'].
  cbn [fst] in Hperm.
  assert (Hvalues : dict_values (text_dict options) = JStr <$> dict_values options).
  { unfold dict_values, text_dict. by rewrite !map_map. }
  rewrite Hvalues in Hperm.
  apply Permutation_map_inv in Hperm as (texts & -> & Hperm).
  assert (Hlen : length texts = length (dict_keys options)).
  { rewrite <- (Permutation_length Hperm). unfold dict_values, dict_keys.
    by rewrite !length_map. }
  rewrite dict_keys_text_dict.
  destruct (remap_loop_spec options Hlabels texts 0 [] ∅)
    as (value_to_new_key & Hrun & Hremapped & _ & Htotal); [done | lia | done |].
  change (text_dict (zip (take 0 (dict_keys options)) [])) with ([] : dict) in Hrun.
  change (0 + length texts) with (length texts) in Hrun, Hremapped.
  change ([] ++ texts)%list with texts in Hrun, Hremapped.
  rewrite take_ge in Hrun, Hremapped by lia.
  change (map JStr texts) with (JStr <$> texts).
  rewrite Hrun. cbn [mbind result_bind iter_list].
  destruct (mapM_new_key_of value_to_new_key correct) as (correct' & Hnew & Hall).
  { intros c Hc. rewrite Forall_forall in Hcorrect. apply Hcorrect in Hc.
    apply dict_get_is_Some in Hc as [t Ht].
    apply dict_get_Some_elem in Ht.
    apply (Htotal Htexts c t Ht). rewrite <- Hperm.
    unfold dict_values. apply list_elem_of_fmap. by exists (c, t). }
  rewrite Hnew. cbn [mbind result_bind fst].
  exists (zip (dict_keys options) texts), correct'. split_and!.
  - done.
  - unfold dict_keys at 1. by rewrite fst_zip by lia.
  - unfold dict_values at 1. rewrite snd_zip by lia. by symmetry.
  - eapply Forall2_impl; [exact Hall|]. intros c c' Hc.
    destruct (Hremapped c c' Hc) as (t & -> & ->). done.
Qed.

Lemma shuffle_standard_preserves_witness :
  exists options' correct',
    (shuffle_question_options two_of_three 1).1
    = Ok (JDict [ ("question_number", JInt 7);
                  ("options", JDict (text_dict options'));
                  ("correct_answer", JList (JStr <$> correct')) ])
    /\ dict_values options' ≡ₚ ["S3"; "EC2"; "IAM"].
Proof.
  destruct (shuffle_standard_preserves
              [ ("question_number", JInt 7);
                ("options", JDict [("A", JStr "S3"); ("B", JStr "EC2");
                                   ("C", JStr "IAM")]);
                ("correct_answer", JList [JStr "A"; JStr "B"]) ]
              [("A", "S3"); ("B", "EC2"); ("C", "IAM")] ["A"; "B"] 1)
    as (options' & correct' & Hrun & _ & Hperm & _).
  - reflexivity.
  - reflexivity.
  - compute_done.
  - compute_done.
  - compute_done.
  - exists options', correct'. split; [exact Hrun | exact Hperm].
Defined.

(** ** Shuffling a mapping question *)

Lemma candidates_dict_app (a b : list (string * list string)) :
  candidates_dict (a ++ b)%list = (candidates_dict a ++ candidates_dict b)%list.
Proof. unfold candidates_dict. apply map_app. Qed.

(** One sub-question before and after: the same name, the candidates
    rearranged. *)
Definition rearranged (before after : string * list string) : Prop :=
  after.1 = before.1 /\ after.2 ≡ₚ before.2.

Section SubQuestions.

Context {G : Type} `{Random G}.
Context (fields : dict) (correct : list (string * string)).
Hypothesis Hca :
  getitem (JDict fields) "correct_answer" = Ok (JDict (text_dict correct)).

Lemma shuffle_sub_questions_spec (items : list (string * list string)) :
  forall (done_options : list (string * list string))
         (done_correct : list (string * string)) (g : G),
    NoDup (dict_keys done_options ++ dict_keys items)%list ->
    dict_keys done_correct = dict_keys done_options ->
    (forall sub, sub ∈ dict_keys items -> is_Some (dict_get sub correct)) ->
    exists items' correct' g',
      shuffle_sub_questions (JDict fields) (candidates_dict items)
        (candidates_dict done_options) (text_dict done_correct) g
      = (Ok (candidates_dict (done_options ++ items')%list,
             text_dict (done_correct ++ correct')%list), g')
      /\ Forall2 rearranged items items'
      /\ Forall2 (fun item c => c.1 = item.1 /\ dict_get item.1 correct = Some c.2)
           items correct'.
Proof.
  induction items as [|[sub candidates] items IH];
    intros done_options done_correct g Hnodup Hkeys Hshape.
  - exists [], [], g. rewrite !app_nil_r. cbn. split_and!; [done | constructor..].
  - cbn [candidates_dict map shuffle_sub_questions fst snd].
    pose proof (random_shuffle_perm _ (JStr <$> candidates) g) as Hperm.
    destruct (random_shuffle (JStr <$> candidates) g) as [shuffled g1].
    cbn [fst] in Hperm.
    apply Permutation_map_inv in Hperm as (candidates' & -> & Hperm).
    rewrite Hca. cbn [mbind result_bind getitem].
    rewrite dict_get_text_dict.
    destruct (Hshape sub) as [t Ht]; [left|]. rewrite Ht. cbn [fmap option_fmap option_map].
    assert (Hfresh : ~ (sub ∈ dict_keys done_options)).
    { apply NoDup_app in Hnodup as (_ & Hdisj & _). intros Hin.
      apply (Hdisj sub Hin). left. }
    rewrite dict_set_fresh
      by (apply dict_get_None_keys; by rewrite dict_keys_candidates_dict).
    rewrite dict_set_fresh
      by (apply dict_get_None_keys; by rewrite dict_keys_text_dict, Hkeys).
    change [(sub, JList (map JStr candidates'))]
      with (candidates_dict [(sub, candidates')]).
    change [(sub, JStr t)] with (text_dict [(sub, t)]).
    rewrite <- candidates_dict_app, <- text_dict_app.
    destruct (IH (done_options ++ [(sub, candidates')])%list
                 (done_correct ++ [(sub, t)])%list g1)
      as (items' & correct' & g' & Hrun & Hitems & Hcorrect).
    { unfold dict_keys in *. rewrite map_app. cbn [map fst].
      rewrite <- app_assoc. done. }
    { unfold dict_keys in *. rewrite !map_app. cbn [map fst]. by rewrite Hkeys. }
    { intros ? ?. apply Hshape. by right. }
    exists ((sub, candidates') :: items'), ((sub, t) :: correct'), g'.
    unfold candidates_dict in Hrun |- *. rewrite Hrun.
    rewrite <- !app_assoc. split_and!; [done | |].
    + constructor; [|done]. split; [done | by symmetry].
    + constructor; [|done]. by split.
Qed.

End SubQuestions.

(** On a mapping question whose sub-questions have distinct names and each
    its entry in [correct_answer], the shuffle returns, whatever the
    generator does: every sub-question keeps its name and gets its
    candidates rearranged, and the correct value of every sub-question is
    the one it was. *)
Theorem shuffle_mapping_preserves {G : Type} `{Random G} (fields : dict)
    (options : list (string * list string)) (correct : list (string * string))
    (g : G) :
  getitem (JDict fields) "options" = Ok (JDict (candidates_dict options)) ->
  getitem (JDict fields) "correct_answer" = Ok (JDict (text_dict correct)) ->
  NoDup (dict_keys options) ->
  Forall (fun sub => is_Some (dict_get sub correct)) (dict_keys options) ->
  exists options' correct',
    (shuffle_question_options (JDict fields) g).1
    = Ok (JDict (dict_set "correct_answer" (JDict (text_dict correct'))
                   (dict_set "options" (JDict (candidates_dict options')) fields)))
    /\ Forall2 rearranged options options'
    /\ Forall2 (fun item c => c.1 = item.1 /\ dict_get item.1 correct = Some c.2)
         options correct'.
Proof.
  intros Hopt Hca Hnodup Hshape.
  unfold shuffle_question_options, is_mapping_question.
  rewrite Hca. cbn [mbind result_bind].
  unfold _shuffle_mapping_question_options.
  rewrite Hopt. cbn [mbind result_bind as_dict].
  destruct (shuffle_sub_questions_spec fields correct Hca options [] [] g)
    as (options' & correct' & g' & Hrun & Hoptions & Hcorrect).
  { done. }
  { done. }
  { intros sub Hsub. rewrite Forall_forall in Hshape. by apply Hshape. }
  change (candidates_dict []) with ([] : dict) in Hrun.
  change (text_dict []) with ([] : dict) in Hrun.
  rewrite Hrun. cbn [mbind result_bind fst app].
  by exists options', correct'.
Qed.

Lemma shuffle_mapping_preserves_witness :
  exists options' correct',
    (shuffle_question_options two_slots 1).1
    = Ok (JDict [ ("question_number", JInt 3);
                  ("options", JDict (candidates_dict options'));
                  ("correct_answer", JDict (text_dict correct')) ])
    /\ Forall2 rearranged
         [ ("use_case", ["chat"; "search"]);
           ("service", ["Lex"; "Kendra"; "Polly"]) ] options'.
Proof.
  destruct (shuffle_mapping_preserves
              [ ("question_number", JInt 3);
                ("options",
                 JDict [ ("use_case", JList [JStr "chat"; JStr "search"]);
                         ("service",
                          JList [JStr "Lex"; JStr "Kendra"; JStr "Polly"]) ]);
                ("correct_answer",
                 JDict [ ("use_case", JStr "search"); ("service", JStr "Kendra") ]) ]
              [ ("use_case", ["chat"; "search"]);
                ("service", ["Lex"; "Kendra"; "Polly"]) ]
              [ ("use_case", "search"); ("service", "Kendra") ] 1)
    as (options' & correct' & Hrun & Hoptions & _).
  - reflexivity.
  - reflexivity.
  - compute_done.
  - repeat constructor; by eexists.
  - exists options', correct'. split; [exact Hrun | exact Hoptions].
Defined.

(** ** The shuffler leaves its input alone *)

Section Frame.

Import Objects.

Context {G : Type} `{Random G}.

(** [wp m Q E s]: run from [s], the computation [m] ends in a state that
    satisfies [Q] with its result, or raises in a state that satisfies
    [E]. *)
Definition wp {A} (m : M A) (Q : A -> heap * G -> Prop) (E : heap * G -> Prop)
    (s : heap * G) : Prop :=
  match m s with
  | (Ok a, s') => Q a s'
  | (Raise _, s') => E s'
  end.

Lemma wp_bind {A B} (m : M A) (k : A -> M B) Q E s :
  wp m (fun a s' => wp (k a) Q E s') E s -> wp (bind m k) Q E s.
Proof. unfold wp, bind. by destruct (m s) as [[a|e] s']. Qed.

Lemma wp_mono {A} (m : M A) (Q Q' : A -> heap * G -> Prop) E s :
  wp m Q' E s -> (forall a s', Q' a s' -> Q a s') -> wp m Q E s.
Proof. unfold wp. destruct (m s) as [[a|e] s']; eauto. Qed.

Lemma wp_ret {A} (a : A) (Q : A -> heap * G -> Prop) E s :
  Q a s -> wp (ret a) Q E s.
Proof. done. Qed.

Lemma wp_raise {A} (e : exn) (Q : A -> heap * G -> Prop) E s :
  E s -> wp (raise e) Q E s.
Proof. done. Qed.

Lemma wp_lift {A} (r : result A) (Q : A -> heap * G -> Prop) E s :
  E s -> (forall a, r = Ok a -> Q a s) -> wp (lift r) Q E s.
Proof. unfold wp, lift. destruct r; eauto. Qed.

Lemma wp_alloc (o : obj) Q E (s : heap * G) :
  (forall l, s.1 !! l = None -> Q (VRef l) (<[l := o]> s.1, s.2)) ->
  wp (alloc o) Q E s.
Proof.
  intros HQ. unfold wp, alloc. apply HQ.
  apply not_elem_of_dom, is_fresh.
Qed.

Lemma wp_deref (v : val) Q E (s : heap * G) :
  E s -> (forall l o, v = VRef l -> s.1 !! l = Some o -> Q o s) ->
  wp (deref v) Q E s.
Proof.
  intros HE HQ. unfold wp, deref. destruct v; try done.
  destruct (s.1 !! l) eqn:Hl; eauto.
Qed.

Lemma wp_dict_items (v : val) Q E (s : heap * G) :
  E s -> (forall l d, v = VRef l -> s.1 !! l = Some (ODict d) -> Q d s) ->
  wp (dict_items v) Q E s.
Proof.
  intros HE HQ. apply wp_bind, wp_deref; [done|].
  intros l [items|d] -> Hl; [by apply wp_raise | apply wp_ret; eauto].
Qed.

Lemma wp_list_items (v : val) Q E (s : heap * G) :
  E s -> (forall l items, v = VRef l -> s.1 !! l = Some (OList items) -> Q items s) ->
  wp (list_items v) Q E s.
Proof.
  intros HE HQ. apply wp_bind, wp_deref; [done|].
  intros l [items|d] -> Hl; [apply wp_ret; eauto | by apply wp_raise].
Qed.

Lemma wp_getitem (v : val) (k : string) Q E (s : heap * G) :
  E s ->
  (forall l d x, v = VRef l -> s.1 !! l = Some (ODict d) -> dict_get k d = Some x ->
                 Q x s) ->
  wp (getitem v k) Q E s.
Proof.
  intros HE HQ. apply wp_bind, wp_deref; [done|].
  intros l [items|d] -> Hl; [by apply wp_raise|].
  destruct (dict_get k d) eqn:Hk; [apply wp_ret; eauto | by apply wp_raise].
Qed.

Lemma wp_setitem (v : val) (k : string) (x : val) Q E (s : heap * G) :
  E s ->
  (forall l d, v = VRef l -> s.1 !! l = Some (ODict d) ->
               Q tt (<[l := ODict (dict_set k x d)]> s.1, s.2)) ->
  wp (setitem v k x) Q E s.
Proof.
  intros HE HQ. unfold wp, setitem. destruct v; try done.
  destruct (s.1 !! l) as [[items|d]|] eqn:Hl; eauto.
Qed.

Lemma wp_shuffle_in_place (v : val) Q E (s : heap * G) :
  E s ->
  (forall l items items' g', v = VRef l -> s.1 !! l = Some (OList items) ->
                             Q tt (<[l := OList items']> s.1, g')) ->
  wp (shuffle_in_place v) Q E s.
Proof.
  intros HE HQ. unfold wp, shuffle_in_place. destruct v; try done.
  destruct (s.1 !! l) as [[items|d]|] eqn:Hl; eauto.
  destruct (random_shuffle items s.2) as [items' g']. eauto.
Qed.

(** The heap the call started from. *)
Variable h0 : heap.

(** Every object of the initial heap is where it was, as it was. *)
Definition framed (s : heap * G) : Prop := h0 ⊆ s.1.

Lemma framed_insert (l : loc) (o : obj) (h : heap) (g g' : G) :
  h0 !! l = None -> framed (h, g) -> framed (<[l := o]> h, g').
Proof. intros Hl Hsub. by apply insert_subseteq_r. Qed.

Lemma fresh_initially (l : loc) (h : heap) (g : G) :
  framed (h, g) -> h !! l = None -> h0 !! l = None.
Proof. intros Hsub Hl. by eapply lookup_weaken_None. Qed.

Lemma remap_loop_frame (option_keys : list string) (original_options : val)
    (lso : loc) (option_values : list val) :
  h0 !! lso = None ->
  forall i value_to_new_key s,
    framed s ->
    wp (remap_loop option_keys original_options (VRef lso) i option_values
          value_to_new_key)
       (fun _ s' => framed s') framed s.
Proof.
  intros Hlso. induction option_values as [|value rest IH];
    intros i value_to_new_key [h g] Hframed; cbn [remap_loop].
  - by apply wp_ret.
  - destruct (option_keys !! i) as [new_key|]; [|by apply wp_raise].
    apply wp_bind, wp_setitem; [done|]. intros l d [= <-] Hl. cbn [fst snd].
    apply wp_bind, wp_dict_items; [by eapply framed_insert|].
    intros l' d' -> Hl'. apply IH. by eapply framed_insert.
Qed.

(** The result of a shuffle: a reference to an object the initial heap did
    not hold. *)
Definition new_object (v : val) (s : heap * G) : Prop :=
  framed s /\ exists l, v = VRef l /\ h0 !! l = None /\ is_Some (s.1 !! l).

Lemma shuffle_standard_frame (question : val) (s : heap * G) :
  framed s ->
  wp (_shuffle_standard_question_options question) new_object framed s.
Proof.
  destruct s as [h g]. intros Hframed.
  unfold _shuffle_standard_question_options.
  apply wp_bind, wp_dict_items; [done|]. intros lq fields -> Hq.
  apply wp_bind, wp_alloc. intros lsq Hlsq. cbn [fst snd] in *.
  pose proof (fresh_initially _ _ _ Hframed Hlsq) as Hlsq0.
  pose proof (framed_insert lsq (ODict fields) h g g Hlsq0 Hframed) as Hf1.
  apply wp_bind, wp_getitem; [done|]. intros lq' dq original_options _ _ _.
  apply wp_bind, wp_dict_items; [done|]. intros lo items -> _.
  apply wp_bind, wp_alloc. intros lov Hlov. cbn [fst snd] in *.
  pose proof (fresh_initially _ _ _ Hf1 Hlov) as Hlov0.
  pose proof (framed_insert lov (OList (dict_values items)) _ g g Hlov0 Hf1) as Hf2.
  apply wp_bind, wp_getitem; [done|]. intros lq'' dq' original_correct _ _ _.
  apply wp_bind, wp_shuffle_in_place; [done|].
  intros l items0 items' g' [= <-] _. cbn [fst snd] in *.
  pose proof (framed_insert lov (OList items') _ g g' Hlov0 Hf2) as Hf3.
  apply wp_bind, wp_alloc. intros lso Hlso. cbn [fst snd] in *.
  pose proof (fresh_initially _ _ _ Hf3 Hlso) as Hlso0.
  pose proof (framed_insert lso (ODict []) _ g' g' Hlso0 Hf3) as Hf4.
  apply wp_bind, wp_list_items; [done|]. intros l values _ _.
  apply wp_bind.
  eapply wp_mono; [by apply (remap_loop_frame _ _ lso values Hlso0 0 ∅)|].
  intros value_to_new_key [h5 g5] Hf5. cbv beta.
  apply wp_bind, wp_list_items; [done|]. intros l' correct_keys _ _.
  apply wp_bind, wp_lift; [done|]. intros new_keys _.
  apply wp_bind, wp_alloc. intros lnc Hlnc. cbn [fst snd] in *.
  pose proof (fresh_initially _ _ _ Hf5 Hlnc) as Hlnc0.
  pose proof (framed_insert lnc (OList new_keys) _ g5 g5 Hlnc0 Hf5) as Hf6.
  apply wp_bind, wp_setitem; [done|]. intros l1 d1 [= <-] Hd1. cbn [fst snd] in *.
  eapply (framed_insert lsq _ _ g5 g5 Hlsq0) in Hf6 as Hf7.
  apply wp_bind, wp_setitem; [exact Hf7|]. intros l2 d2 [= <-] Hd2. cbn [fst snd] in *.
  apply wp_ret. split; [by eapply framed_insert|].
  exists lsq. split_and!; [done..|]. cbn. rewrite lookup_insert_eq. by eexists.
Qed.

(** What the loop of the mapping shuffle relies on: the new question
    holds, under [options] and [correct_answer], the two dictionaries made
    for it. *)
Definition rebound (lsq lo lc : loc) (s : heap * G) : Prop :=
  framed s
  /\ exists fields, s.1 !! lsq = Some (ODict fields)
                    /\ dict_get "options" fields = Some (VRef lo)
                    /\ dict_get "correct_answer" fields = Some (VRef lc).

Lemma shuffle_sub_questions_frame (question : val) (lsq lo lc : loc)
    (items : list (string * val)) :
  h0 !! lo = None -> h0 !! lc = None -> lsq <> lo -> lsq <> lc ->
  forall s,
    rebound lsq lo lc s ->
    wp (shuffle_sub_questions question (VRef lsq) items)
       (fun _ s' => rebound lsq lo lc s') framed s.
Proof.
  intros Hlo0 Hlc0 Hne_o Hne_c.
  induction items as [|[sub_question_key option_list] rest IH];
    intros [h g] (Hframed & fields & Hsq & Hopt & Hca); cbn [shuffle_sub_questions].
  - apply wp_ret. split; [done|]. by exists fields.
  - cbn [fst snd] in *.
    apply wp_bind, wp_list_items; [done|]. intros l candidates -> _.
    apply wp_bind, wp_alloc. intros lsh Hlsh. cbn [fst snd] in *.
    pose proof (fresh_initially _ _ _ Hframed Hlsh) as Hlsh0.
    assert (Hne_sh : lsh <> lsq) by congruence.
    pose proof (framed_insert lsh (OList candidates) h g g Hlsh0 Hframed) as Hf1.
    apply wp_bind, wp_shuffle_in_place; [done|].
    intros l1 items0 items' g' [= <-] _. cbn [fst snd] in *.
    pose proof (framed_insert lsh (OList items') _ g g' Hlsh0 Hf1) as Hf2.
    apply wp_bind, wp_getitem; [done|]. intros l2 d2 correct _ _ _.
    apply wp_bind, wp_getitem; [done|]. intros l3 d3 correct_answer _ _ _.
    apply wp_bind, wp_getitem; [done|]. intros l4 d4 new_options [= <-] Hd4 Hx4.
    cbn [fst snd] in *. rewrite !lookup_insert_ne in Hd4 by done.
    assert (d4 = fields) as -> by congruence.
    assert (new_options = VRef lo) as -> by congruence.
    apply wp_bind, wp_setitem; [done|]. intros l5 d5 [= <-] _. cbn [fst snd] in *.
    eapply (framed_insert lo _ _ g' g' Hlo0) in Hf2 as Hf3.
    apply wp_bind, wp_getitem; [exact Hf3|].
    intros l6 d6 new_correct [= <-] Hd6 Hx6.
    cbn [fst snd] in *. rewrite !lookup_insert_ne in Hd6 by done.
    assert (d6 = fields) as -> by congruence.
    assert (new_correct = VRef lc) as -> by congruence.
    apply wp_bind, wp_setitem; [exact Hf3|]. intros l7 d7 [= <-] _.
    cbn [fst snd] in *.
    apply IH. split; [by eapply framed_insert|].
    exists fields. cbn [fst]. by rewrite !lookup_insert_ne by done.
Qed.

Lemma shuffle_mapping_frame (question : val) (s : heap * G) :
  framed s ->
  wp (_shuffle_mapping_question_options question) new_object framed s.
Proof.
  destruct s as [h g]. intros Hframed.
  unfold _shuffle_mapping_question_options.
  apply wp_bind, wp_dict_items; [done|]. intros lq fields -> Hq.
  apply wp_bind, wp_alloc. intros lsq Hlsq. cbn [fst snd] in *.
  pose proof (fresh_initially _ _ _ Hframed Hlsq) as Hlsq0.
  pose proof (framed_insert lsq (ODict fields) h g g Hlsq0 Hframed) as Hf1.
  apply wp_bind, wp_alloc. intros lo Hlo. cbn [fst snd] in *.
  pose proof (fresh_initially _ _ _ Hf1 Hlo) as Hlo0.
  assert (Hne_o : lsq <> lo).
  { intros ->. by rewrite lookup_insert_eq in Hlo. }
  pose proof (framed_insert lo (ODict []) _ g g Hlo0 Hf1) as Hf2.
  apply wp_bind, wp_setitem; [done|]. intros l1 d1 [= <-] Hd1. cbn [fst snd] in *.
  rewrite lookup_insert_ne, lookup_insert_eq in Hd1 by done.
  injection Hd1 as <-.
  eapply (framed_insert lsq _ _ g g Hlsq0) in Hf2 as Hf3.
  apply wp_bind, wp_alloc. intros lc Hlc. cbn [fst snd] in *.
  pose proof (fresh_initially _ _ _ Hf3 Hlc) as Hlc0.
  assert (Hne_c : lsq <> lc).
  { intros ->. by rewrite lookup_insert_eq in Hlc. }
  eapply (framed_insert lc (ODict []) _ g g Hlc0) in Hf3 as Hf4.
  apply wp_bind, wp_setitem; [exact Hf4|]. intros l2 d2 [= <-] Hd2.
  cbn [fst snd] in *.
  rewrite lookup_insert_ne, lookup_insert_eq in Hd2 by done.
  injection Hd2 as <-.
  eapply (framed_insert lsq _ _ g g Hlsq0) in Hf4 as Hf5.
  apply wp_bind, wp_getitem; [exact Hf5|]. intros l3 d3 options _ _ _.
  apply wp_bind, wp_dict_items; [exact Hf5|]. intros l4 items -> _.
  apply wp_bind.
  eapply wp_mono.
  { apply (shuffle_sub_questions_frame (VRef lq) lsq lo lc items); try done.
    split; [exact Hf5|]. eexists. cbn [fst]. rewrite lookup_insert_eq.
    split; [reflexivity|]. split.
    - by rewrite dict_get_set_ne, dict_get_set_eq.
    - by rewrite dict_get_set_eq. }
  intros _ [h' g'] (Hf' & fields' & Hsq' & _). cbv beta.
  apply wp_ret. split; [done|]. exists lsq. split_and!; [done..|]. by eexists.
Qed.

Lemma is_mapping_question_frame (question : val) (s : heap * G) :
  framed s ->
  wp (Objects.is_mapping_question question) (fun _ s' => framed s') framed s.
Proof.
  intros Hframed. unfold Objects.is_mapping_question.
  apply wp_bind, wp_getitem; [done|]. intros l d correct_answer _ _ _.
  destruct correct_answer; try by apply wp_ret.
  apply wp_bind, wp_deref; [done|]. intros l' o _ _. by apply wp_ret.
Qed.

Lemma shuffle_question_options_frame (question : val) (s : heap * G) :
  framed s ->
  wp (Objects.shuffle_question_options question) new_object framed s.
Proof.
  intros Hframed. unfold Objects.shuffle_question_options.
  apply wp_bind.
  eapply wp_mono; [by apply is_mapping_question_frame|].
  intros [|] s' Hs'; cbv beta.
  - by apply shuffle_mapping_frame.
  - by apply shuffle_standard_frame.
Qed.

End Frame.

(** A standard question and a mapping question as objects: the question
    dictionaries at 1 and 4, their options at 2 and 5, their correct
    answers at 3 and 8, the candidate lists of the mapping question at 6
    and 7. *)
Definition two_questions : Objects.heap :=
  list_to_map
    [ (1%positive,
       Objects.ODict [ ("question_number", Objects.VInt 1);
                       ("options", Objects.VRef 2);
                       ("correct_answer", Objects.VRef 3) ]);
      (2%positive,
       Objects.ODict [ ("A", Objects.VStr "S3"); ("B", Objects.VStr "EC2");
                       ("C", Objects.VStr "IAM") ]);
      (3%positive, Objects.OList [Objects.VStr "B"]);
      (4%positive,
       Objects.ODict [ ("question_number", Objects.VInt 2);
                       ("options", Objects.VRef 5);
                       ("correct_answer", Objects.VRef 8) ]);
      (5%positive,
       Objects.ODict [ ("use_case", Objects.VRef 6); ("service", Objects.VRef 7) ]);
      (6%positive, Objects.OList [Objects.VStr "chat"; Objects.VStr "search"]);
      (7%positive,
       Objects.OList [Objects.VStr "Lex"; Objects.VStr "Kendra"; Objects.VStr "Polly"]);
      (8%positive,
       Objects.ODict [ ("use_case", Objects.VStr "search");
                       ("service", Objects.VStr "Kendra") ]) ].

(** Both shuffles run to their end on these objects: the new question is
    a new object whose options and correct answer are new objects too. *)
Example shuffle_objects_standard :
  let '(r, (h', _)) :=
    Objects.shuffle_question_options (Objects.VRef 1) (two_questions, 1) in
  r = Ok (Objects.VRef 9)
  /\ h' !! 9%positive
     = Some (Objects.ODict [ ("question_number", Objects.VInt 1);
                             ("options", Objects.VRef 11);
                             ("correct_answer", Objects.VRef 12) ])
  /\ h' !! 11%positive
     = Some (Objects.ODict [ ("A", Objects.VStr "EC2"); ("B", Objects.VStr "IAM");
                             ("C", Objects.VStr "S3") ])
  /\ h' !! 12%positive = Some (Objects.OList [Objects.VStr "A"])
  /\ h' !! 2%positive = two_questions !! 2%positive.
Proof. by vm_compute. Qed.

Example shuffle_objects_mapping :
  let '(r, (h', _)) :=
    Objects.shuffle_question_options (Objects.VRef 4) (two_questions, 1) in
  r = Ok (Objects.VRef 9)
  /\ h' !! 9%positive
     = Some (Objects.ODict [ ("question_number", Objects.VInt 2);
                             ("options", Objects.VRef 10);
                             ("correct_answer", Objects.VRef 11) ])
  /\ h' !! 10%positive
     = Some (Objects.ODict [ ("use_case", Objects.VRef 12);
                             ("service", Objects.VRef 13) ])
  /\ h' !! 12%positive
     = Some (Objects.OList [Objects.VStr "search"; Objects.VStr "chat"])
  /\ h' !! 11%positive
     = Some (Objects.ODict [ ("use_case", Objects.VStr "search");
                             ("service", Objects.VStr "Kendra") ])
  /\ h' !! 5%positive = two_questions !! 5%positive
  /\ h' !! 6%positive = two_questions !! 6%positive.
Proof. by vm_compute. Qed.

(** The shuffler on objects and the shuffler on values return the same
    question for the question at [l]. *)
Definition shufflers_agree (l : positive) : Prop :=
  let '(r, (h', _)) :=
    Objects.shuffle_question_options (Objects.VRef l) (two_questions, 1) in
  match r, Objects.read_back 3 two_questions (Objects.VRef l) with
  | Ok v, Some q =>
      Some (shuffle_question_options q 1).1 = Ok <$> Objects.read_back 3 h' v
  | _, _ => False
  end.

Example shuffle_objects_agree : shufflers_agree 1 /\ shufflers_agree 4.
Proof. split; vm_compute; reflexivity. Qed.

(** C6: whatever the question, the heap and the generator, a call of
    [shuffle_question_options] leaves every object of the heap it started
    from as it was, the question's dictionary, its options and its correct
    answer among them, also when it raises; and what it returns is a
    reference to an object that did not exist before. *)
Theorem shuffle_does_not_mutate {G : Type} `{Random G} (question : Objects.val)
    (h : Objects.heap) (g : G) :
  let '(r, (h', _)) := Objects.shuffle_question_options question (h, g) in
  (forall l o, h !! l = Some o -> h' !! l = Some o)
  /\ match r with
     | Ok v => exists l, v = Objects.VRef l /\ h !! l = None /\ is_Some (h' !! l)
     | Raise _ => True
     end.
Proof.
  assert (Hwp : wp (Objects.shuffle_question_options question)
                   (new_object h) (framed h) (h, g)).
  { apply shuffle_question_options_frame. by unfold framed. }
  unfold wp in Hwp.
  destruct (Objects.shuffle_question_options question (h, g)) as [[v|e] [h' g']].
  - destruct Hwp as [Hframed Hnew]. split; [|done].
    intros l o Hl. by eapply lookup_weaken.
  - split; [|done]. intros l o Hl. by eapply lookup_weaken.
Qed.

(** * Further properties of the code *)

(** ** Where an attempt is stored *)

(** The size test alone decides: a list of more than 40 questions is
    estimated above 3000 whatever the questions are, so the count test of
    [should_use_large_session] never changes the outcome; and a list that
    stays inline has at most 27 questions. *)
Theorem spill_by_size_alone (questions : list json) :
  should_use_large_session questions
  = Nat.ltb 3000 (estimate_session_size questions)
  /\ (should_use_large_session questions = false -> length questions <= 27).
Proof.
  unfold should_use_large_session. rewrite estimate_session_size_eq.
  destruct questions as [|q rest]; [split; [done | simpl; lia]|].
  set (n := length (q :: rest)). set (s := String.length (json_dumps q)).
  split.
  - destruct (Nat.ltb_spec 40 n) as [Hn|Hn]; [|by rewrite orb_false_r].
    rewrite orb_true_r. symmetry. apply Nat.ltb_lt. nia.
  - intros [Hsize _]%orb_false_iff. apply Nat.ltb_ge in Hsize. nia.
Qed.

Lemma spill_by_size_alone_witness :
  length (repeat question_of_100 10) <= 27.
Proof.
  apply (spill_by_size_alone (repeat question_of_100 10)).
  vm_compute. reflexivity.
Defined.

(** Whichever way [_initialize_quiz_session] stores the questions,
    [_get_session_questions] reads the same list back from the world it
    leaves; the attempt starts at question 0 with no answer and no correct
    answer counted; and the session carries the questions themselves exactly
    when they were not spilled. *)
Theorem attempt_round_trip {G : Type} (md5_hexdigest : string -> string)
    (quiz_mode : string) (questions : list json) (w : World G) :
  let w' := _initialize_quiz_session md5_hexdigest quiz_mode questions w in
  _get_session_questions w' = Ok (JList questions)
  /\ dict_get "quiz_mode" (session w') = Some (JStr quiz_mode)
  /\ dict_get "current_question" (session w') = Some (JInt 0)
  /\ dict_get "correct_answers" (session w') = Some (JInt 0)
  /\ dict_get "user_answers" (session w') = Some (JDict [])
  /\ dict_get "questions" (session w')
     = (if should_use_large_session questions then None
        else Some (JList questions))
  /\ rng w' = rng w.
Proof. apply initialize_then_read. Qed.

(** Starting an attempt leaves every other attempt readable as it was,
    unless that attempt's key is the key minted now. *)
Theorem other_attempt_undisturbed {G : Type} (md5_hexdigest : string -> string)
    (quiz_mode : string) (questions : list json) (w : World G) (other : dict) :
  dict_get_default "session_id" JNull other
  <> JStr (generate_session_id md5_hexdigest (store w)).1 ->
  get_session_questions other
    (session_cache
       (store (_initialize_quiz_session md5_hexdigest quiz_mode questions w)))
  = get_session_questions other (session_cache (store w)).
Proof.
  intros Hother. unfold _initialize_quiz_session.
  destruct (should_use_large_session questions); [|done].
  unfold store_large_session, generate_session_id, now_isoformat in *.
  cbn -[substring] in *.
  unfold get_session_questions.
  destruct (truthy (dict_get_default "is_large_session" JNull other)); [|done].
  destruct (dict_get_default "session_id" JNull other) as [| | |key| |];
    cbn -[substring]; try done.
  rewrite lookup_insert_ne; [done|]. intros Heq. apply Hother. by rewrite Heq.
Qed.

Lemma other_attempt_undisturbed_witness :
  get_session_questions
    [("is_large_session", JBool true); ("session_id", JStr "k")]
    (session_cache
       (store (_initialize_quiz_session (fun s => s) "batch"
                 (repeat question_of_100 41)
                 (mkWorld (mkStore (fun _ => "2025-01-01T00:00:00.000000") 0
                             {["k" := JDict [("questions", JList [JInt 1])]]})
                    [] 0))))
  = Ok (JList [JInt 1]).
Proof.
  refine (eq_trans
            (other_attempt_undisturbed (fun s => s) "batch"
               (repeat question_of_100 41)
               (mkWorld (mkStore (fun _ => "2025-01-01T00:00:00.000000") 0
                           {["k" := JDict [("questions", JList [JInt 1])]]})
                  [] 0)
               [("is_large_session", JBool true); ("session_id", JStr "k")] _) _).
  - discriminate.
  - vm_compute. reflexivity.
Defined.

(** ** Requests that find no attempt *)

(** When the session points at spilled questions that the cache no longer
    holds, every quiz route sends the client to the start page, without an
    exception and without a change. *)
Theorem lost_attempt_redirects {G : Type} (w : World G) (key : string)
    (form_data : form) :
  truthy (dict_get_default "is_large_session" JNull (session w)) = true ->
  dict_get_default "session_id" JNull (session w) = JStr key ->
  session_cache (store w) !! key = None ->
  quiz_immediate w = (Redirect "index", w)
  /\ quiz_batch w = (Redirect "index", w)
  /\ results w = (Redirect "index", w)
  /\ submit_immediate form_data w = (inl (Redirect "index"), w)
  /\ submit_batch form_data w = (Redirect "index", w).
Proof.
  intros Hlarge Hkey Hlost.
  assert (Hnone : _get_session_questions w = Ok JNull).
  { unfold _get_session_questions, get_session_questions.
    rewrite Hlarge, Hkey. cbn. by rewrite Hlost. }
  unfold quiz_immediate, quiz_batch, results, submit_immediate, submit_batch.
  rewrite Hnone. done.
Qed.

Lemma lost_attempt_redirects_witness :
  let w := mkWorld (mkStore (fun _ => "t") 0 ∅)
             [("is_large_session", JBool true); ("session_id", JStr "k");
              ("current_question", JInt 3)] 0 in
  results w = (Redirect "index", w).
Proof.
  apply (lost_attempt_redirects
           (mkWorld (mkStore (fun _ => "t") 0 ∅)
              [("is_large_session", JBool true); ("session_id", JStr "k");
               ("current_question", JInt 3)] 0) "k" []); reflexivity.
Defined.

(** The start page forgets the attempt: after [index] the session is empty
    and every quiz route sends the client back to the start page; the spill
    cache is as it was, the entry of a spilled attempt included. *)
Theorem index_forgets_attempt {G : Type} (bank : list json) (w : World G)
    (form_data : form) :
  let w' := (index bank w).2 in
  session w' = []
  /\ store w' = store w
  /\ quiz_immediate w' = (Redirect "index", w')
  /\ quiz_batch w' = (Redirect "index", w')
  /\ results w' = (Redirect "index", w')
  /\ submit_immediate form_data w' = (inl (Redirect "index"), w')
  /\ submit_batch form_data w' = (Redirect "index", w').
Proof. done. Qed.

(** ** The spill cache over requests *)

Lemma initialize_keeps_entries {G : Type} (md5_hexdigest : string -> string)
    (quiz_mode : string) (questions : list json) (w : World G) (key : string) :
  is_Some (session_cache (store w) !! key) ->
  is_Some (session_cache
             (store (_initialize_quiz_session md5_hexdigest quiz_mode questions w))
           !! key).
Proof.
  intros Hkey. unfold _initialize_quiz_session.
  destruct (should_use_large_session questions); [|done].
  unfold store_large_session, generate_session_id, now_isoformat.
  cbn -[substring].
  destruct (decide (substring 0 16 (md5_hexdigest (clock (store w) (ticks (store w))))
                    = key)) as [->|Hne].
  - rewrite lookup_insert_eq. by eexists.
  - by rewrite lookup_insert_ne.
Qed.

Lemma start_quiz_store {G : Type} `{Random G} (md5_hexdigest : string -> string)
    (bank : list json) (form_data : form) (w : World G) :
  store (start_quiz md5_hexdigest bank form_data w).2 = store w
  \/ exists quiz_mode questions g,
       (start_quiz md5_hexdigest bank form_data w).2
       = _initialize_quiz_session md5_hexdigest quiz_mode questions
           (mkWorld (store w) (session w) g).
Proof.
  unfold start_quiz. destruct bank as [|q0 rest]; [by left|].
  destruct (_get_selected_questions _ _ _ _) as [[selected|e] g].
  - destruct (shuffle_all selected g) as [[shuffled|e] g'].
    + right. by eexists _, _, _.
    + by left.
  - left. by destruct e.
Qed.

Lemma submit_immediate_store {G : Type} (form_data : form) (w : World G) :
  store (submit_immediate form_data w).2 = store w
  /\ rng (submit_immediate form_data w).2 = rng w.
Proof.
  unfold submit_immediate.
  destruct (_get_session_questions w) as [questions|]; [|done].
  destruct (negb (truthy questions)); [done|].
  by destruct (_ ← iter_list questions; _) as [[? ?]|].
Qed.

Lemma submit_batch_store {G : Type} (form_data : form) (w : World G) :
  store (submit_batch form_data w).2 = store w
  /\ rng (submit_batch form_data w).2 = rng w.
Proof.
  unfold submit_batch.
  destruct (_get_session_questions w) as [questions|]; [|done].
  destruct (negb (truthy questions)); [done|].
  by destruct (_ ← iter_list questions; _) as [[? ?]|].
Qed.

Lemma read_only_routes {G : Type} (w : World G) :
  (quiz_immediate w).2 = w /\ (quiz_batch w).2 = w /\ (results w).2 = w.
Proof.
  unfold quiz_immediate, quiz_batch, results.
  destruct (_get_session_questions w) as [questions|]; [|done].
  destruct (negb (truthy questions)); [done|].
  split_and!.
  - by destruct (_ ← iter_list questions; _).
  - by destruct (iter_list questions).
  - by destruct (_ ← iter_list questions; _).
Qed.

(** No request removes an entry of the spill cache, whatever sequence of
    requests arrives; and the start of an attempt is the only request that
    touches the cache or the clock at all. *)
Theorem cache_never_shrinks {G : Type} `{Random G}
    (md5_hexdigest : string -> string) (bank : list json)
    (requests : list request) (w : World G) (key : string) :
  is_Some (session_cache (store w) !! key) ->
  is_Some (session_cache
             (store (foldl (fun w r => serve md5_hexdigest bank r w) w requests))
           !! key)
  /\ ((forall form_data, PostStart form_data ∉ requests) ->
      store (foldl (fun w r => serve md5_hexdigest bank r w) w requests) = store w).
Proof.
  revert w. induction requests as [|r requests IH]; intros w Hkey; [done|].
  cbn [foldl].
  assert (Hstep : is_Some (session_cache (store (serve md5_hexdigest bank r w)) !! key)
                  /\ ((forall form_data, r <> PostStart form_data) ->
                      store (serve md5_hexdigest bank r w) = store w)).
  { destruct r as [|form_data| | |form_data|form_data| |]; cbn [serve].
    - done.
    - split; [|intros Hne; by destruct (Hne form_data)].
      destruct (start_quiz_store md5_hexdigest bank form_data w)
        as [-> | (quiz_mode & questions & g & ->)]; [done|].
      by apply initialize_keeps_entries.
    - by rewrite (proj1 (read_only_routes w)).
    - by rewrite (proj1 (proj2 (read_only_routes w))).
    - by rewrite (proj1 (submit_immediate_store form_data w)).
    - by rewrite (proj1 (submit_batch_store form_data w)).
    - by rewrite (proj2 (proj2 (read_only_routes w))).
    - done. }
  destruct Hstep as [Hkey' Hsame].
  destruct (IH _ Hkey') as [Hkeep Hstore]. split; [done|].
  intros Hno. rewrite Hstore, Hsame; [done | |].
  - intros form_data ->. apply (Hno form_data). left.
  - intros form_data Hin. apply (Hno form_data). by right.
Qed.

Lemma cache_never_shrinks_witness :
  let w := mkWorld (mkStore (fun _ => "2025-01-01T00:00:00.000000") 0
                      {["k" := JDict [("questions", JList [JInt 1])]]}) [] 0 in
  is_Some (session_cache
             (store (foldl (fun w r => serve (fun s => s) small_bank r w) w
                       [PostStart []; GetQuizImmediate; GetIndex]))
           !! "k").
Proof.
  apply (cache_never_shrinks (fun s => s) small_bank
           [PostStart []; GetQuizImmediate; GetIndex]
           (mkWorld (mkStore (fun _ => "2025-01-01T00:00:00.000000") 0
                       {["k" := JDict [("questions", JList [JInt 1])]]}) [] 0) "k").
  vm_compute. eexists. reflexivity.
Defined.

(** ** What the shuffle leaves alone *)

(** Two question records that differ at most in [options] and
    [correct_answer]: the same fields in the same order, every other field
    with the value it had. *)
Definition same_but_options (q q' : json) : Prop :=
  exists fields fields',
    q = JDict fields /\ q' = JDict fields'
    /\ dict_keys fields' = dict_keys fields
    /\ forall k, k <> "options" -> k <> "correct_answer" ->
                 dict_get k fields' = dict_get k fields.

Lemma set_options_same (fields : dict) (new_options new_correct : json) :
  is_Some (dict_get "options" fields) ->
  is_Some (dict_get "correct_answer" fields) ->
  same_but_options (JDict fields)
    (JDict (dict_set "correct_answer" new_correct
              (dict_set "options" new_options fields))).
Proof.
  intros Hopt Hca. exists fields. eexists. split_and!; [done..| |].
  - rewrite dict_keys_set_in; [by apply dict_keys_set_in|].
    by rewrite dict_get_set_ne.
  - intros k Hk1 Hk2. by rewrite !dict_get_set_ne.
Qed.

Lemma shuffle_same_but_options {G : Type} `{Random G} (q q' : json) (g : G) :
  (shuffle_question_options q g).1 = Ok q' -> same_but_options q q'.
Proof.
  unfold shuffle_question_options, is_mapping_question.
  destruct q as [| | | | |fields]; try done.
  cbn [getitem].
  destruct (dict_get "correct_answer" fields) as [correct|] eqn:Hca;
    cbn [mbind result_bind]; [|done].
  assert (Hset : forall new_options new_correct,
            is_Some (dict_get "options" fields) ->
            same_but_options (JDict fields)
              (JDict (dict_set "correct_answer" new_correct
                        (dict_set "options" new_options fields)))).
  { intros ? ? ?. by apply set_options_same. }
  destruct correct as [| | | | |correct].
  6: {
    unfold _shuffle_mapping_question_options. cbn [getitem].
    destruct (dict_get "options" fields) as [options|] eqn:Hopt;
      cbn [mbind result_bind]; [|done].
    destruct (as_dict options) as [items|]; [|done].
    destruct (shuffle_sub_questions (JDict fields) items [] [] g) as [[[o c]|] g'];
      cbn [mbind result_bind fst]; [|done].
    intros [= <-]. by apply Hset. }
  all: unfold _shuffle_standard_question_options; cbn [getitem];
    destruct (dict_get "options" fields) as [options|] eqn:Hopt;
      cbn [mbind result_bind]; [|done];
    destruct (as_dict options) as [items|]; cbn [mbind result_bind]; [|done];
    rewrite Hca; cbn [mbind result_bind];
    destruct (random_shuffle (dict_values items) g) as [option_values g'];
    destruct (remap_loop (dict_keys items) items 0 option_values [] ∅)
      as [[shuffled_options value_to_new_key]|]; cbn [mbind result_bind fst];
      [|done];
    destruct (iter_list _) as [correct_keys|]; cbn [mbind result_bind]; [|done];
    destruct (mapM (new_key_of value_to_new_key) correct_keys) as [new_correct|];
      cbn [mbind result_bind]; [|done];
    intros [= <-]; by apply Hset.
Qed.

(** Whenever the shuffle returns a question, it is the question it was
    given except for [options] and [correct_answer]: the number, the text
    and every other field are kept, in the order they had. *)
Theorem shuffle_touches_only_options {G : Type} `{Random G} (q q' : json) (g : G) :
  (shuffle_question_options q g).1 = Ok q' -> same_but_options q q'.
Proof. apply shuffle_same_but_options. Qed.

Lemma shuffle_touches_only_options_witness :
  same_but_options two_of_three
    (JDict [ ("question_number", JInt 7);
             ("options", JDict [("A", JStr "EC2"); ("B", JStr "IAM");
                                ("C", JStr "S3")]);
             ("correct_answer", JList [JStr "C"; JStr "A"]) ]).
Proof.
  apply (shuffle_touches_only_options two_of_three _ 1).
  vm_compute. reflexivity.
Defined.

(** ** Which questions are selected *)

Lemma filter_range_spec (start_range end_range : Z) (questions r : list json) :
  filter_range start_range end_range questions = Ok r ->
  sublist r questions
  /\ forall q n, q ∈ questions -> getitem q "question_number" = Ok (JInt n) ->
                 (q ∈ r <-> (start_range <= n <= end_range)%Z).
Proof.
  revert r. induction questions as [|q0 rest IH]; intros r; cbn.
  - intros [= <-]. split; [done|]. by intros q n ?%elem_of_nil.
  - unfold in_range at 1.
    destruct (getitem q0 "question_number") as [number|] eqn:Hnum;
      cbn [mbind result_bind]; [|done].
    destruct number as [| |n0| | |]; cbn [mbind result_bind]; try done.
    destruct (filter_range start_range end_range rest) as [filtered|];
      cbn [mbind result_bind]; [|done].
    destruct (IH filtered eq_refl) as [Hsub Hmem].
    assert (Hrest : forall q, q ∈ filtered -> q ∈ rest).
    { intros q Hq. by eapply elem_of_sublist. }
    intros [= <-].
    destruct (Z.leb_spec start_range n0) as [H1|H1],
             (Z.leb_spec n0 end_range) as [H2|H2]; cbn [andb].
    1: { split; [by apply sublist_skip|]. intros q n Hin Hn.
         rewrite elem_of_cons.
         apply elem_of_cons in Hin as [->|Hin].
         - assert (n = n0) as -> by congruence. split; [done | by left].
         - rewrite <- (Hmem q n Hin Hn). split; [|by right].
           intros [->|?]; [|done]. apply (Hmem q0 n Hin Hn).
           assert (n = n0) as -> by congruence. done. }
    all: split; [by apply sublist_cons|]; intros q n Hin Hn;
      apply elem_of_cons in Hin as [->|Hin]; [|by apply Hmem];
      assert (n = n0) as -> by congruence;
      split; [|lia]; intros Hin;
      pose proof (proj1 (Hmem q0 n0 (Hrest _ Hin) Hnum) Hin); lia.
Qed.

Lemma filter_range_total (start_range end_range : Z) (questions : list json) :
  Forall (fun q => exists n, getitem q "question_number" = Ok (JInt n)) questions ->
  exists r, filter_range start_range end_range questions = Ok r.
Proof.
  induction 1 as [|q rest [n Hn] _ [r IH]]; [by eexists|].
  cbn. unfold in_range. rewrite Hn. cbn. rewrite IH. cbn. by eexists.
Qed.

(** A range selection with two non-zero bounds, on a bank whose questions
    are numbered: the selection is the questions whose number lies within
    the bounds, in the order of the bank, and the generator is not used. *)
Theorem range_selects_in_order {G : Type} `{Random G} (questions : list json)
    (form_data : form) (a b : Z) (g : G) :
  int_field form_data "start_range" 1 = Ok a ->
  int_field form_data "end_range" (Z.of_nat (length questions)) = Ok b ->
  a <> 0%Z -> b <> 0%Z ->
  Forall (fun q => exists n, getitem q "question_number" = Ok (JInt n)) questions ->
  exists r,
    _get_selected_questions questions "range" form_data g = (Ok r, g)
    /\ sublist r questions
    /\ forall q n, q ∈ questions -> getitem q "question_number" = Ok (JInt n) ->
                   (q ∈ r <-> (a <= n <= b)%Z).
Proof.
  intros Ha Hb Hanz Hbnz Hnumbered.
  destruct (filter_range_total a b questions Hnumbered) as [r Hr].
  exists r. split; [|by apply filter_range_spec].
  unfold _get_selected_questions. eval_eqb. rewrite Ha, Hb.
  unfold get_question_subset. eval_eqb. cbn [andb given].
  apply Z.eqb_neq in Hanz as ->, Hbnz as ->.
  cbn [negb andb default from_option id]. by rewrite Hr.
Qed.

Lemma range_selects_in_order_witness :
  exists r,
    _get_selected_questions small_bank "range"
      [("start_range", "2")] 0 = (Ok r, 0)
    /\ sublist r small_bank.
Proof.
  destruct (range_selects_in_order small_bank [("start_range", "2")] 2 2 0)
    as (r & Hrun & Hsub & _).
  - reflexivity.
  - reflexivity.
  - discriminate.
  - discriminate.
  - repeat constructor; eexists; reflexivity.
  - exists r. split; [exact Hrun | exact Hsub].
Defined.

Lemma sample_spec {G : Type} `{Random G} (population : list json) (k : Z) (g : G) :
  (0 <= k <= Z.of_nat (length population))%Z ->
  exists r g', sample population k g = (Ok r, g')
               /\ length r = Z.to_nat k /\ r ⊆+ population.
Proof.
  intros Hk. unfold sample.
  assert (Hok : (k <? 0)%Z || (Z.of_nat (length population) <? k)%Z = false) by lia.
  rewrite Hok.
  destruct (random_sample_take _ population (Z.to_nat k) g) as (l' & Hperm & Htake).
  destruct (random_sample population (Z.to_nat k) g) as [chosen g'].
  cbn [fst] in Htake. subst chosen. exists (take (Z.to_nat k) l'), g'.
  split_and!; [done| |].
  - rewrite length_take, (Permutation_length Hperm). lia.
  - trans l'; [apply sublist_submseteq, sublist_take | by apply Permutation_submseteq].
Qed.

(** A random selection with a positive count draws that many questions, or
    the whole bank when it holds fewer, and draws without replacement: no
    question is selected more often than the bank holds it. *)
Theorem random_selects_from_bank {G : Type} `{Random G} (questions : list json)
    (form_data : form) (k : Z) (g : G) :
  int_field form_data "num_random" 10 = Ok k ->
  (0 < k)%Z ->
  exists r g',
    _get_selected_questions questions "random" form_data g = (Ok r, g')
    /\ length r = Nat.min (Z.to_nat k) (length questions)
    /\ r ⊆+ questions.
Proof.
  intros Hk Hpos.
  unfold _get_selected_questions. eval_eqb. rewrite Hk.
  unfold get_question_subset. eval_eqb. cbn [andb given].
  assert (Hnz : Z.eqb k 0 = false) by lia. rewrite Hnz.
  cbn [negb default from_option id].
  destruct (sample_spec questions (Z.min k (Z.of_nat (length questions))) g)
    as (r & g' & Hrun & Hlen & Hsub); [lia|].
  exists r, g'. split_and!; [done | lia | done].
Qed.

Lemma random_selects_from_bank_witness :
  exists r g',
    _get_selected_questions small_bank "random" [("num_random", "5")] 1 = (Ok r, g')
    /\ length r = 2.
Proof.
  destruct (random_selects_from_bank small_bank [("num_random", "5")] 5 1)
    as (r & g' & Hrun & Hlen & _).
  - reflexivity.
  - lia.
  - exists r, g'. split; [exact Hrun | exact Hlen].
Defined.

(** Whatever the selection type and the form, what is selected comes from
    the bank. *)
Lemma selected_from_bank {G : Type} `{Random G} (questions : list json)
    (selection_type : string) (form_data : form) (g g' : G) (r : list json) :
  _get_selected_questions questions selection_type form_data g = (Ok r, g') ->
  r ⊆+ questions.
Proof.
  assert (Hsubset : forall a b c g0,
            get_question_subset questions selection_type a b c g0 = (Ok r, g') ->
            r ⊆+ questions).
  { intros a b c g0. unfold get_question_subset.
    destruct (String.eqb selection_type "all"); [by intros [= <- _]|].
    destruct (String.eqb selection_type "range" && given a && given b).
    { intros [= Hr _]. apply sublist_submseteq.
      by apply (filter_range_spec _ _ _ _ Hr). }
    destruct (String.eqb selection_type "random" && given c);
      [|by intros [= <- _]].
    unfold sample. destruct (_ || _); [done|].
    destruct (random_sample_take _ questions
                (Z.to_nat (Z.min (default 0%Z c) (Z.of_nat (length questions)))) g0)
      as (l' & Hperm & Htake).
    destruct (random_sample questions _ g0) as [chosen g1].
    cbn [fst] in Htake. intros [= <- _]. rewrite Htake.
    trans l'; [apply sublist_submseteq, sublist_take|].
    by apply Permutation_submseteq. }
  unfold _get_selected_questions.
  destruct (String.eqb selection_type "range") eqn:Erange.
  { apply String.eqb_eq in Erange as ->.
    destruct (int_field form_data "start_range" 1); [|done].
    destruct (int_field form_data "end_range" _); [|done].
    apply Hsubset. }
  destruct (String.eqb selection_type "random") eqn:Erandom.
  { apply String.eqb_eq in Erandom as ->.
    destruct (int_field form_data "num_random" 10); [|done].
    apply Hsubset. }
  by intros [= <- _].
Qed.

Lemma shuffle_all_spec {G : Type} `{Random G} (selected : list json) :
  forall (g g' : G) (shuffled : list json),
    shuffle_all selected g = (Ok shuffled, g') ->
    Forall2 same_but_options selected shuffled.
Proof.
  induction selected as [|q rest IH]; intros g g' shuffled; cbn.
  - intros [= <- _]. constructor.
  - pose proof (shuffle_same_but_options q) as Hone.
    destruct (shuffle_question_options q g) as [[q'|] g1] eqn:Hq; [|done].
    specialize (IH g1).
    destruct (shuffle_all rest g1) as [[others|] g2]; [|done].
    intros [= <- _]. constructor; [|by eapply IH].
    apply (Hone q' g). by rewrite Hq.
Qed.

(** ** The start of an attempt *)

(** When [start_quiz] sends the client to a quiz page, the attempt it has
    stored is readable; its questions are questions of the bank, none more
    often than the bank holds it, each as the bank has it except for
    [options] and [correct_answer]; and the attempt is at question 0 with
    nothing counted. *)
Theorem started_attempt_from_bank {G : Type} `{Random G}
    (md5_hexdigest : string -> string) (bank : list json) (form_data : form)
    (w w' : World G) (endpoint : string) :
  start_quiz md5_hexdigest bank form_data w = (Redirect endpoint, w') ->
  endpoint <> "index" ->
  exists selected attempt,
    _get_session_questions w' = Ok (JList attempt)
    /\ selected ⊆+ bank
    /\ Forall2 same_but_options selected attempt
    /\ dict_get "current_question" (session w') = Some (JInt 0)
    /\ dict_get "correct_answers" (session w') = Some (JInt 0)
    /\ dict_get "user_answers" (session w') = Some (JDict [])
    /\ endpoint = (if String.eqb (default "immediate" (form_get "quiz_mode" form_data))
                                 "immediate"
                   then "quiz_immediate" else "quiz_batch").
Proof.
  unfold start_quiz. destruct bank as [|q0 rest] eqn:Hbank; [by intros [= <- _]|].
  rewrite <- Hbank. cbv zeta.
  destruct (_get_selected_questions bank _ form_data (rng w))
    as [[selected|e] g] eqn:Hselected; [|destruct e; by intros [= <- _]].
  destruct (shuffle_all selected g) as [[shuffled|e] g'] eqn:Hshuffled; [|done].
  intros [= <- <-] _.
  exists selected, shuffled.
  pose proof (initialize_then_read md5_hexdigest
                (default "immediate" (form_get "quiz_mode" form_data)) shuffled
                (mkWorld (store w) (session w) g'))
    as (Hread & _ & Hcur & Hcount & Hanswers & _).
  split_and!; try done.
  - by eapply selected_from_bank.
  - by eapply shuffle_all_spec.
Qed.

Lemma started_attempt_from_bank_witness :
  exists selected attempt,
    _get_session_questions
      (start_quiz (fun s => s) small_bank [("quiz_mode", "batch")] fresh_world).2
    = Ok (JList attempt)
    /\ selected ⊆+ small_bank
    /\ Forall2 same_but_options selected attempt.
Proof.
  destruct (started_attempt_from_bank (fun s => s) small_bank
              [("quiz_mode", "batch")] fresh_world
              (start_quiz (fun s => s) small_bank [("quiz_mode", "batch")]
                 fresh_world).2
              "quiz_batch")
    as (selected & attempt & Hread & Hsel & Hsame & _).
  - vm_compute. reflexivity.
  - discriminate.
  - exists selected, attempt. split; [exact Hread|]. split; [exact Hsel | exact Hsame].
Defined.

(** ** Rendering labels *)

(** How a label is shown: the label and the text of its option. *)
Definition rendered (options : list (string * string)) (label : string)
  : option string :=
  (fun text => label ++ ") " ++ text) <$> dict_get label options.

Lemma get_answer_text_from_keys_spec (q : json) (options : list (string * string))
    (keys : list string) :
  getitem q "options" = Ok (JDict (text_dict options)) ->
  get_answer_text_from_keys q (JStr <$> keys) = Ok (omap (rendered options) keys).
Proof.
  intros Hopt. induction keys as [|k keys IH]; [done|].
  cbn. rewrite Hopt. cbn. rewrite dict_get_text_dict. unfold rendered at 1.
  destruct (dict_get k options) as [t|] eqn:Hk; cbn.
  - rewrite IH. done.
  - apply IH.
Qed.

Lemma render_one (q : json) (options : list (string * string)) (a : string) :
  getitem q "options" = Ok (JDict (text_dict options)) ->
  get_answer_text_from_keys q [JStr a]
  = Ok match rendered options a with
       | Some shown => [shown]
       | None => []
       end.
Proof.
  intros Hopt. change [JStr a] with (JStr <$> [a]).
  rewrite (get_answer_text_from_keys_spec q options [a] Hopt).
  cbn. by destruct (rendered options a).
Qed.

(** On a standard question [get_answer_text_from_keys] never raises: it
    renders, in the order given, the labels that are labels of options, and
    skips the others without a trace. *)
Theorem unknown_labels_dropped (q : json) (options : list (string * string))
    (keys : list string) :
  getitem q "options" = Ok (JDict (text_dict options)) ->
  get_answer_text_from_keys q (JStr <$> keys) = Ok (omap (rendered options) keys).
Proof. apply get_answer_text_from_keys_spec. Qed.

Lemma unknown_labels_dropped_witness :
  get_answer_text_from_keys two_of_three [JStr "C"; JStr "Z"; JStr "A"]
  = Ok ["C) IAM"; "A) S3"].
Proof.
  apply (unknown_labels_dropped two_of_three
           [("A", "S3"); ("B", "EC2"); ("C", "IAM")] ["C"; "Z"; "A"]).
  reflexivity.
Defined.

(** ** Single-choice evaluation *)

(** On a standard question with one correct label, itself the label of an
    option: a missing field is recorded as no answer and is incorrect; a
    submitted label of an option is recorded, shown with its text, and
    correct exactly when it is the correct label; a submitted label that is
    no label of an option raises [IndexError], because its list of texts is
    empty when the first text is taken. *)
Theorem single_choice_verdict (q : json) (number : Z)
    (options : list (string * string)) (c text : string)
    (form_data : form) (question_prefix : string) :
  standard_question q number options [c] ->
  dict_get c options = Some text ->
  exists self field,
    AnswerProcessor_init q = Ok self
    /\ selected_protocol self = SingleChoice
    /\ answer_field self question_prefix = Ok field
    /\ (form_get field form_data = None ->
        process_user_answer self form_data question_prefix
        = Ok (JList [], false, "None", c ++ ") " ++ text))
    /\ (forall a t, form_get field form_data = Some a -> a <> EmptyString ->
          dict_get a options = Some t ->
          process_user_answer self form_data question_prefix
          = Ok (JList [JStr a], bool_decide (a = c), a ++ ") " ++ t,
                c ++ ") " ++ text))
    /\ (forall a, form_get field form_data = Some a -> a <> EmptyString ->
          dict_get a options = None ->
          process_user_answer self form_data question_prefix = Raise IndexError).
Proof.
  intros (Hnum & Hopt & Hca) Hc.
  destruct (answer_field_ok q number false false question_prefix Hnum)
    as [field Hfield].
  exists (mkAnswerProcessor q false false), field.
  assert (Hcorrect : get_answer_text_from_keys q [JStr c] = Ok [c ++ ") " ++ text]).
  { rewrite (render_one q options c Hopt). unfold rendered. by rewrite Hc. }
  assert (Heqb : forall a, py_eq (JStr a) (JStr c) = bool_decide (a = c)).
  { intros a. cbn. destruct (String.eqb_spec a c);
      [by rewrite bool_decide_eq_true_2 | by rewrite bool_decide_eq_false_2]. }
  split_and!.
  - unfold AnswerProcessor_init, is_multiple_choice_question, is_mapping_question.
    rewrite Hca. done.
  - done.
  - done.
  - intros Hmiss.
    unfold process_user_answer, _process_single_answer.
    cbn [question is_mapping is_multiple_choice].
    rewrite Hca. cbn [mbind result_bind]. rewrite Hfield. cbn [mbind result_bind].
    rewrite Hmiss. cbn [opt_to_json truthy iter_list fmap list_fmap mbind result_bind].
    rewrite Hcorrect. done.
  - intros a t Ha Hne Hin.
    unfold process_user_answer, _process_single_answer.
    cbn [question is_mapping is_multiple_choice].
    rewrite Hca. cbn [mbind result_bind]. rewrite Hfield. cbn [mbind result_bind].
    rewrite Ha. cbn [opt_to_json truthy iter_list fmap list_fmap mbind result_bind].
    apply String.eqb_neq in Hne as ->. cbn [negb].
    rewrite (render_one q options a Hopt). unfold rendered. rewrite Hin.
    cbn [fmap option_fmap option_map mbind result_bind].
    rewrite Hcorrect. cbn [mbind result_bind first_text]. by rewrite Heqb.
  - intros a Ha Hne Hout.
    unfold process_user_answer, _process_single_answer.
    cbn [question is_mapping is_multiple_choice].
    rewrite Hca. cbn [mbind result_bind]. rewrite Hfield. cbn [mbind result_bind].
    rewrite Ha. cbn [opt_to_json truthy iter_list fmap list_fmap mbind result_bind].
    apply String.eqb_neq in Hne as ->. cbn [negb].
    rewrite (render_one q options a Hopt). unfold rendered. rewrite Hout.
    cbn [fmap option_fmap option_map mbind result_bind].
    rewrite Hcorrect. done.
Qed.

Lemma single_choice_verdict_witness :
  let q := JDict [ ("question_number", JInt 1);
                   ("options", JDict [("A", JStr "S3"); ("B", JStr "EC2")]);
                   ("correct_answer", JList [JStr "A"]) ] in
  process_user_answer (mkAnswerProcessor q false false) [("answer", "Z")] EmptyString
  = Raise IndexError.
Proof.
  destruct (single_choice_verdict
              (JDict [ ("question_number", JInt 1);
                       ("options", JDict [("A", JStr "S3"); ("B", JStr "EC2")]);
                       ("correct_answer", JList [JStr "A"]) ])
              1 [("A", "S3"); ("B", "EC2")] "A" "S3" [("answer", "Z")] EmptyString)
    as (self & field & Hinit & _ & Hfield & _ & _ & Hraise).
  - repeat split.
  - reflexivity.
  - cbv in Hinit. injection Hinit as <-.
    cbv in Hfield. injection Hfield as <-.
    apply (Hraise "Z"); [reflexivity | discriminate | reflexivity].
Defined.

(** ** One answer at a time *)

(** The attempt a world holds: its questions, the position of the cursor and
    the count of correct answers. *)
Definition attempt_at {G : Type} (w : World G) (questions : list json)
    (cursor correct : Z) : Prop :=
  _get_session_questions w = Ok (JList questions)
  /\ dict_get "current_question" (session w) = Some (JInt cursor)
  /\ dict_get "correct_answers" (session w) = Some (JInt correct).

(** What a submission does with one question: the processor is built, the
    answer is read from the fields the prefix names and judged, and the
    question's number as text is the key of the recorded answer. *)
Definition judged (question_prefix : string) (form_data : form) (question : json)
    (key : string) (data : json) (verdict : bool) : Prop :=
  exists self user_display correct_display number,
    AnswerProcessor_init question = Ok self
    /\ process_user_answer self form_data question_prefix
       = Ok (data, verdict, user_display, correct_display)
    /\ getitem question "question_number" = Ok number
    /\ py_str number = Ok key.

(** Where the questions are read from does not depend on the progress
    fields. *)
Lemma session_questions_set {G : Type} (st : Store) (s : dict) (g : G)
    (k : string) (v : json) :
  k <> "is_large_session" -> k <> "session_id" -> k <> "questions" ->
  _get_session_questions (mkWorld st (dict_set k v s) g)
  = _get_session_questions (mkWorld st s g).
Proof.
  intros H1 H2 H3.
  unfold _get_session_questions, get_session_questions, dict_get_default.
  cbn [session store]. by rewrite !dict_get_set_ne by done.
Qed.

Lemma calculate_progress_fields (a : Z) (n : nat) (p : Progress) :
  _calculate_progress a (Z.of_nat n) = Ok p -> current p = a /\ total p = n.
Proof.
  unfold _calculate_progress.
  destruct (percent a (Z.of_nat n)); cbn; [|done].
  intros [= <-]. cbn. by rewrite Nat2Z.id.
Qed.

Lemma submit_immediate_spec {G : Type} (form_data : form) (w : World G)
    (questions : list json) (cursor correct : Z) :
  attempt_at w questions cursor correct ->
  match submit_immediate form_data w with
  | (inr page, w') =>
      (cursor < Z.of_nat (length questions))%Z
      /\ py_index questions cursor = Ok (feedback_question page)
      /\ attempt_at w' questions (cursor + 1)
           (if feedback_is_correct (feedback page) then correct + 1 else correct)
      /\ current (feedback_progress page) = (cursor + 1)%Z
      /\ total (feedback_progress page) = length questions
      /\ store w' = store w /\ rng w' = rng w
      /\ exists key data previous,
           judged EmptyString form_data (feedback_question page) key data
             (feedback_is_correct (feedback page))
           /\ dict_get "user_answers" (session w) = Some (JDict previous)
           /\ dict_get "user_answers" (session w')
              = Some (JDict (dict_set key data previous))
  | (inl r, w') =>
      w' = w
      /\ (questions = [] -> r = Redirect "index")
      /\ (questions <> [] -> (Z.of_nat (length questions) <= cursor)%Z ->
          r = Redirect "results")
  end.
Proof.
  intros (Hq & Hcur & Hcount). unfold submit_immediate. rewrite Hq.
  destruct questions as [|q0 rest]; [done|].
  set (questions := q0 :: rest).
  assert (Hne : questions <> []) by done.
  change (negb (truthy (JList questions))) with false. cbv iota.
  cbn [iter_list mbind result_bind]. unfold dict_get_default. rewrite Hcur.
  destruct (Z.leb_spec (Z.of_nat (length questions)) cursor) as [Hend|Hin].
  { rewrite world_eta. done. }
  assert (Habort : forall e,
            (w = w /\ (questions = [] -> Abort e = Redirect "index")
             /\ (questions <> [] -> (Z.of_nat (length questions) <= cursor)%Z ->
                 Abort e = Redirect "results"))).
  { intros e. split_and!; [done| |]; intros; [done | lia]. }
  destruct (py_index questions cursor) as [current_question|] eqn:Hindex;
    cbn [mbind result_bind]; [|apply Habort].
  destruct (AnswerProcessor_init current_question) as [processor|] eqn:Hinit;
    cbn [mbind result_bind]; [|apply Habort].
  destruct (process_user_answer processor form_data EmptyString)
    as [[[[data verdict] user_display] correct_display]|] eqn:Hrun;
    cbn [mbind result_bind]; [|apply Habort].
  destruct (getitem current_question "question_number") as [number|] eqn:Hnum;
    cbn [mbind result_bind]; [|apply Habort].
  unfold record_answer. cbn [getitem].
  destruct (dict_get "user_answers" (session w)) as [answers|] eqn:Hanswers;
    cbn [mbind result_bind]; [|apply Habort].
  destruct (py_str number) as [key|] eqn:Hkey;
    cbn [mbind result_bind]; [|apply Habort].
  destruct answers as [| | | | |answers]; cbn [mbind result_bind]; try apply Habort.
  set (session1 := dict_set "user_answers" (JDict (dict_set key data answers))
                     (session w)).
  assert (Hcount1 : dict_get "correct_answers" session1 = Some (JInt correct)).
  { unfold session1. by rewrite dict_get_set_ne. }
  set (counted := (if verdict then correct + 1 else correct)%Z).
  assert (Hsession2 : exists session2,
            (if verdict
             then n ← incremented
                        match dict_get "correct_answers" session1 with
                        | Some v => v
                        | None => JInt 0
                        end;
                  Ok (dict_set "correct_answers" n session1)
             else Ok session1) = Ok session2
            /\ dict_get "correct_answers" session2 = Some (JInt counted)
            /\ dict_get "user_answers" session2
               = Some (JDict (dict_set key data answers))
            /\ forall st (g : G),
                 _get_session_questions (mkWorld st session2 g)
                 = _get_session_questions (mkWorld st (session w) g)).
  { assert (Hread1 : forall st (g : G),
              _get_session_questions (mkWorld st session1 g)
              = _get_session_questions (mkWorld st (session w) g)).
    { intros st g. by apply session_questions_set. }
    assert (Hanswers1 : dict_get "user_answers" session1
                        = Some (JDict (dict_set key data answers))).
    { apply dict_get_set_eq. }
    unfold counted. destruct verdict.
    - rewrite Hcount1. cbn [incremented mbind result_bind]. eexists.
      split_and!; [done| | |].
      + apply dict_get_set_eq.
      + by rewrite dict_get_set_ne.
      + intros st g. by rewrite session_questions_set.
    - by exists session1. }
  destruct Hsession2 as (session2 & -> & Hcount2 & Hanswers2 & Hread2).
  cbn [mbind result_bind].
  destruct (_calculate_progress (cursor + 1) (Z.of_nat (length questions)))
    as [progress|] eqn:Hprogress; cbn [mbind result_bind]; [|apply Habort].
  apply calculate_progress_fields in Hprogress as [Hcurrent Htotal].
  cbn [feedback_question feedback feedback_progress feedback_is_correct
       store rng session].
  split_and!; try done.
  - split_and!.
    + rewrite session_questions_set by done. rewrite Hread2.
      by rewrite world_eta.
    + cbn [session]. apply dict_get_set_eq.
    + cbn [session]. by rewrite dict_get_set_ne.
  - exists key, data, answers. split_and!; [|done|].
    + by exists processor, user_display, correct_display, number.
    + by rewrite dict_get_set_ne.
Qed.

(** One submission in immediate mode, on an attempt whose session holds a
    cursor and a count.  Either the feedback page is rendered: then the
    cursor was inside the attempt, the question shown is the one at the
    cursor, the cursor has advanced by one, the count has grown by one
    exactly when the answer was judged correct, the answer is recorded
    under the question's number, and the questions, the cache and the
    generator are as they were.  Or nothing at all has changed: the client
    is sent to the results when the cursor is at the end, to the start page
    when the attempt is empty, and anything else is an exception. *)
Theorem submit_immediate_step {G : Type} (form_data : form) (w : World G)
    (questions : list json) (cursor correct : Z) :
  attempt_at w questions cursor correct ->
  match submit_immediate form_data w with
  | (inr page, w') =>
      (cursor < Z.of_nat (length questions))%Z
      /\ py_index questions cursor = Ok (feedback_question page)
      /\ attempt_at w' questions (cursor + 1)
           (if feedback_is_correct (feedback page) then correct + 1 else correct)
      /\ current (feedback_progress page) = (cursor + 1)%Z
      /\ total (feedback_progress page) = length questions
      /\ store w' = store w /\ rng w' = rng w
      /\ exists key data previous,
           judged EmptyString form_data (feedback_question page) key data
             (feedback_is_correct (feedback page))
           /\ dict_get "user_answers" (session w) = Some (JDict previous)
           /\ dict_get "user_answers" (session w')
              = Some (JDict (dict_set key data previous))
  | (inl r, w') =>
      w' = w
      /\ (questions = [] -> r = Redirect "index")
      /\ (questions <> [] -> (Z.of_nat (length questions) <= cursor)%Z ->
          r = Redirect "results")
  end.
Proof. apply submit_immediate_spec. Qed.

(** An attempt of the two questions of the small bank, at its start. *)
Definition small_attempt : World nat :=
  mkWorld (mkStore (fun _ => "2025-01-01T00:00:00.000000") 0 ∅)
    [ ("quiz_mode", JStr "immediate");
      ("questions", JList small_bank);
      ("current_question", JInt 0);
      ("user_answers", JDict []);
      ("correct_answers", JInt 0);
      ("is_large_session", JBool false) ] 0.

Lemma submit_immediate_step_witness :
  attempt_at (submit_immediate [("answer", "A")] small_attempt).2 small_bank 1 1.
Proof.
  pose proof (submit_immediate_step [("answer", "A")] small_attempt small_bank 0 0)
    as Hstep.
  assert (Hrun : exists page w',
            submit_immediate [("answer", "A")] small_attempt = (inr page, w')
            /\ feedback_is_correct (feedback page) = true).
  { eexists _, _. vm_compute. split; reflexivity. }
  destruct Hrun as (page & w' & Hrun & Hverdict).
  rewrite Hrun in Hstep |- *. rewrite Hverdict in Hstep.
  apply Hstep. repeat split.
Defined.

(** Over any sequence of submissions in immediate mode, from an attempt
    whose count of correct answers is at most its cursor and whose cursor
    is within the attempt: the world still holds the same questions, the
    cursor has not moved back and has advanced by at most one per
    submission, the count is still at most the cursor and the cursor within
    the attempt; so the results page, when it is rendered, reports a count
    between 0 and the number of questions. *)
Theorem immediate_count_bounded {G : Type} (forms : list form) (w : World G)
    (questions : list json) (cursor correct : Z) :
  attempt_at w questions cursor correct ->
  (0 <= correct <= cursor)%Z ->
  (cursor <= Z.of_nat (length questions))%Z ->
  let w' := foldl (fun w form_data => (submit_immediate form_data w).2) w forms in
  exists cursor' correct',
    attempt_at w' questions cursor' correct'
    /\ (0 <= correct' <= cursor')%Z
    /\ (cursor <= cursor' <= cursor + Z.of_nat (length forms))%Z
    /\ (cursor' <= Z.of_nat (length questions))%Z
    /\ forall r w'',
         results w' = (Render (ResultsPage r), w'') ->
         correct_answers r = correct'
         /\ total_questions r = length questions.
Proof.
  revert w cursor correct.
  induction forms as [|form_data forms IH]; intros w cursor correct Hat Hcount Hcursor.
  - cbn [foldl length]. exists cursor, correct. split_and!; [done | lia..|].
    intros r w''. destruct Hat as (Hq & _ & Hcorrect).
    unfold results. rewrite Hq.
    destruct (negb (truthy (JList questions))); [done|].
    cbn [iter_list mbind result_bind]. unfold dict_get_default. rewrite Hcorrect.
    destruct (percent correct _); cbn [mbind result_bind]; [|done].
    destruct (_get_certification_level _).
    destruct (_generate_question_details questions _); cbn [mbind result_bind];
      [|done].
    by intros [= <- _].
  - cbn [foldl length].
    pose proof (submit_immediate_spec form_data w questions cursor correct Hat)
      as Hstep.
    destruct (submit_immediate form_data w) as [[r|page] w1]; cbn [snd].
    + destruct Hstep as (-> & _).
      destruct (IH w cursor correct Hat Hcount Hcursor)
        as (cursor' & correct' & Hat' & ? & ? & ? & Hresults).
      exists cursor', correct'. split_and!; [done | lia..| done].
    + destruct Hstep as (Hin & _ & Hat1 & _).
      destruct (IH w1 _ _ Hat1) as (cursor' & correct' & Hat' & ? & ? & ? & Hresults).
      { destruct (feedback_is_correct (feedback page)); lia. }
      { lia. }
      exists cursor', correct'. split_and!; [done | lia..| done].
Qed.

Lemma immediate_count_bounded_witness :
  exists cursor' correct',
    attempt_at
      (foldl (fun w form_data => (submit_immediate form_data w).2) small_attempt
         [[("answer", "A")]; [("answer", "A")]; [("answer", "B")]])
      small_bank cursor' correct'
    /\ (0 <= correct' <= cursor')%Z
    /\ (cursor' <= 2)%Z.
Proof.
  destruct (immediate_count_bounded
              [[("answer", "A")]; [("answer", "A")]; [("answer", "B")]]
              small_attempt small_bank 0 0)
    as (cursor' & correct' & Hat & Hcount & _ & Hcursor & _).
  - repeat split.
  - lia.
  - simpl. lia.
  - exists cursor', correct'. split; [exact Hat|].
    split; [exact Hcount | exact Hcursor].
Defined.

(** ** All answers at once *)

(** The number of verdicts that are correct. *)
Definition count_true (verdicts : list bool) : Z :=
  Z.of_nat (length (List.filter id verdicts)).

Lemma count_true_bounds (verdicts : list bool) :
  (0 <= count_true verdicts <= Z.of_nat (length verdicts))%Z.
Proof.
  unfold count_true. pose proof (List.filter_length_le id verdicts). lia.
Qed.

Lemma count_true_cons (v : bool) (verdicts : list bool) :
  count_true (v :: verdicts)
  = ((if v then 1 else 0) + count_true verdicts)%Z.
Proof. unfold count_true. destruct v; cbn [List.filter id length]; lia. Qed.

(** One judged question: its key, its recorded answer and its verdict. *)
Record Judgement : Type := mkJudgement {
  judged_key : string;
  judged_data : json;
  judged_verdict : bool
}.

(** The answers a list of judgements leaves in [user_answers]. *)
Definition recorded (judgements : list Judgement) (user_answers : dict) : dict :=
  foldl (fun acc j => dict_set (judged_key j) (judged_data j) acc)
        user_answers judgements.

Lemma batch_answers_spec (form_data : form) (questions : list json) :
  forall (count : Z) (user_answers : dict) (count' : Z) (user_answers' : dict),
    batch_answers form_data questions count user_answers = Ok (count', user_answers') ->
    exists judgements,
      Forall2 (fun q j => judged "batch" form_data q (judged_key j)
                            (judged_data j) (judged_verdict j))
              questions judgements
      /\ count' = (count + count_true (judged_verdict <$> judgements))%Z
      /\ user_answers' = recorded judgements user_answers.
Proof.
  induction questions as [|q rest IH]; intros count ua count' ua'; cbn.
  - intros [= <- <-]. exists []. split_and!; [constructor | |done].
    unfold count_true. cbn. lia.
  - destruct (getitem q "question_number") as [number|] eqn:Hnum;
      cbn [mbind result_bind]; [|done].
    destruct (py_str number) as [key|] eqn:Hkey; cbn [mbind result_bind]; [|done].
    destruct (AnswerProcessor_init q) as [self|] eqn:Hinit;
      cbn [mbind result_bind]; [|done].
    destruct (process_user_answer self form_data "batch")
      as [[[[data verdict] ud] cd]|] eqn:Hrun; cbn [mbind result_bind]; [|done].
    intros Hrest. apply IH in Hrest as (judgements & Hall & -> & ->).
    exists (mkJudgement key data verdict :: judgements). split_and!.
    + constructor; [|done]. cbn. by exists self, ud, cd, number.
    + cbn [fmap list_fmap judged_verdict]. rewrite count_true_cons.
      destruct verdict; lia.
    + done.
Qed.

Lemma recorded_is_Some (judgements : list Judgement) (user_answers : dict)
    (key : string) :
  is_Some (dict_get key user_answers)
  \/ key ∈ judged_key <$> judgements ->
  is_Some (dict_get key (recorded judgements user_answers)).
Proof.
  revert user_answers. induction judgements as [|j rest IH]; intros ua; cbn.
  - intros [?|?%elem_of_nil]; done.
  - intros Hkey. apply IH.
    destruct (decide (key = judged_key j)) as [->|Hne].
    + left. rewrite dict_get_set_eq. by eexists.
    + rewrite dict_get_set_ne by done.
      destruct Hkey as [?|[?|?]%elem_of_cons]; [by left | done | by right].
Qed.

Lemma recorded_keep (judgements : list Judgement) (user_answers : dict)
    (key : string) (data : json) :
  dict_get key user_answers = Some data ->
  key ∉ judged_key <$> judgements ->
  dict_get key (recorded judgements user_answers) = Some data.
Proof.
  revert user_answers.
  induction judgements as [|j rest IH]; intros ua Hget Hfresh; cbn; [done|].
  cbn in Hfresh. apply not_elem_of_cons in Hfresh as [Hne Hfresh].
  apply IH; [|done]. by rewrite dict_get_set_ne.
Qed.

Lemma recorded_last (judgements : list Judgement) (user_answers : dict)
    (j : Judgement) :
  NoDup (judged_key <$> judgements) -> j ∈ judgements ->
  dict_get (judged_key j) (recorded judgements user_answers) = Some (judged_data j).
Proof.
  revert user_answers. induction judgements as [|j0 rest IH]; intros ua; cbn.
  - by intros _ ?%elem_of_nil.
  - intros [Hfresh Hnodup]%NoDup_cons [->|Hin]%elem_of_cons; [|by apply IH].
    apply recorded_keep; [apply dict_get_set_eq | done].
Qed.

Lemma dict_set_same {V} (k : string) (v : V) (d : list (string * V)) :
  dict_get k d = Some v -> dict_set k v d = d.
Proof.
  induction d as [|[k' v'] d IH]; simpl; [done|].
  destruct (String.eqb k k') eqn:E.
  - by intros [= ->].
  - intros Hget. by rewrite IH.
Qed.

Lemma submit_batch_spec {G : Type} (form_data : form) (w : World G)
    (questions : list json) :
  _get_session_questions w = Ok (JList questions) ->
  match submit_batch form_data w with
  | (Redirect endpoint, w') =>
      (questions = [] /\ endpoint = "index" /\ w' = w)
      \/ (questions <> [] /\ endpoint = "results"
          /\ exists judgements,
               Forall2 (fun q j => judged "batch" form_data q (judged_key j)
                                     (judged_data j) (judged_verdict j))
                       questions judgements
               /\ session w'
                  = dict_set "correct_answers"
                      (JInt (count_true (judged_verdict <$> judgements)))
                      (dict_set "user_answers" (JDict (recorded judgements []))
                         (session w))
               /\ store w' = store w /\ rng w' = rng w
               /\ _get_session_questions w' = Ok (JList questions))
  | (Abort e, w') => w' = w
  | (Render _, _) => False
  end.
Proof.
  intros Hq. unfold submit_batch. rewrite Hq.
  destruct questions as [|q0 rest]; [left; done|].
  set (questions := q0 :: rest).
  change (negb (truthy (JList questions))) with false. cbv iota.
  cbn [iter_list mbind result_bind].
  destruct (batch_answers form_data questions 0 []) as [[count answers]|] eqn:Hrun;
    [|done].
  apply batch_answers_spec in Hrun as (judgements & Hall & -> & ->).
  right. split_and!; [done..|].
  exists judgements. split_and!; try done.
  rewrite !session_questions_set by done. by rewrite world_eta.
Qed.

(** A batch submission on an attempt either changes nothing (the attempt is
    empty and the client is sent to the start page, or an exception is
    raised), or sends the client to the results having judged every
    question of the attempt once, in order: the count stored is the number
    of verdicts that are correct, so it is between 0 and the number of
    questions, and it is the count the results page then reports; every
    question's key holds a recorded answer; the questions, the cursor, the
    cache and the generator are as they were. *)
Theorem batch_counts_verdicts {G : Type} (form_data : form) (w : World G)
    (questions : list json) :
  _get_session_questions w = Ok (JList questions) ->
  match submit_batch form_data w with
  | (Redirect endpoint, w') =>
      (questions = [] /\ endpoint = "index" /\ w' = w)
      \/ (questions <> [] /\ endpoint = "results"
          /\ exists judgements answers,
               Forall2 (fun q j => judged "batch" form_data q (judged_key j)
                                     (judged_data j) (judged_verdict j))
                       questions judgements
               /\ dict_get "correct_answers" (session w')
                  = Some (JInt (count_true (judged_verdict <$> judgements)))
               /\ (0 <= count_true (judged_verdict <$> judgements)
                   <= Z.of_nat (length questions))%Z
               /\ dict_get "user_answers" (session w') = Some (JDict answers)
               /\ Forall (fun j => is_Some (dict_get (judged_key j) answers))
                    judgements
               /\ dict_get "current_question" (session w')
                  = dict_get "current_question" (session w)
               /\ store w' = store w /\ rng w' = rng w
               /\ _get_session_questions w' = Ok (JList questions)
               /\ forall r w'',
                    results w' = (Render (ResultsPage r), w'') ->
                    correct_answers r = count_true (judged_verdict <$> judgements)
                    /\ total_questions r = length questions)
  | (Abort e, w') => w' = w
  | (Render _, _) => False
  end.
Proof.
  intros Hq. pose proof (submit_batch_spec form_data w questions Hq) as Hspec.
  destruct (submit_batch form_data w) as [[endpoint|p|e] w']; [|done..].
  destruct Hspec as [?|(Hne & -> & judgements & Hall & Hsession & Hstore & Hrng & Hq')];
    [by left|].
  right. split_and!; [done..|].
  exists judgements, (recorded judgements []).
  assert (Hcount : dict_get "correct_answers" (session w')
                   = Some (JInt (count_true (judged_verdict <$> judgements)))).
  { rewrite Hsession. apply dict_get_set_eq. }
  pose proof (count_true_bounds (judged_verdict <$> judgements)) as Hb.
  rewrite length_fmap, <- (Forall2_length _ _ _ Hall) in Hb.
  split_and!; try done; try lia.
  - rewrite Hsession. rewrite dict_get_set_ne by done. apply dict_get_set_eq.
  - apply Forall_forall. intros j Hj. apply recorded_is_Some. right.
    by apply list_elem_of_fmap_2.
  - rewrite Hsession. by rewrite !dict_get_set_ne.
  - intros r w''. unfold results. rewrite Hq'.
    destruct (negb (truthy (JList questions))); [done|].
    cbn [iter_list mbind result_bind]. unfold dict_get_default. rewrite Hcount.
    destruct (percent _ _); cbn [mbind result_bind]; [|done].
    destruct (_get_certification_level _).
    destruct (_generate_question_details questions _); cbn [mbind result_bind];
      [|done].
    by intros [= <- _].
Qed.

Lemma batch_counts_verdicts_witness :
  dict_get "correct_answers"
    (session (submit_batch [("question_1", "A"); ("question_2", "A")]
                small_attempt).2)
  = Some (JInt 1).
Proof.
  pose proof (batch_counts_verdicts [("question_1", "A"); ("question_2", "A")]
                small_attempt small_bank eq_refl) as Hspec.
  assert (Hrun : exists w',
            submit_batch [("question_1", "A"); ("question_2", "A")] small_attempt
            = (Redirect "results", w')
            /\ dict_get "correct_answers" (session w') = Some (JInt 1)).
  { eexists. vm_compute. split; reflexivity. }
  destruct Hrun as (w' & Hrun & Hcount). rewrite Hrun in Hspec |- *.
  destruct Hspec as [(Hempty & _) | _]; [discriminate Hempty | exact Hcount].
Defined.

(** A batch submission starts its count and its answers afresh, so
    submitting the same form again changes nothing: the second submission
    gives the response and the world of the first. *)
Theorem submit_batch_idempotent {G : Type} (form_data : form) (w : World G) :
  submit_batch form_data (submit_batch form_data w).2 = submit_batch form_data w.
Proof.
  destruct (_get_session_questions w) as [questions|e] eqn:Hq.
  2: { unfold submit_batch at 2 3. rewrite Hq. cbn [snd].
       unfold submit_batch. by rewrite Hq. }
  assert (Hother : (forall l, questions <> JList l) ->
            submit_batch form_data (submit_batch form_data w).2
            = submit_batch form_data w).
  { intros Hno.
    assert (Hsame : submit_batch form_data w
                    = (if negb (truthy questions) then Redirect "index"
                       else Abort TypeError, w)).
    { unfold submit_batch. rewrite Hq.
      destruct (negb (truthy questions)); [done|].
      destruct questions as [| | | |l|]; try done. by destruct (Hno l). }
    rewrite Hsame. cbn [snd]. done. }
  destruct questions as [| | | |l|]; try (by apply Hother).
  clear Hother.
  pose proof (submit_batch_spec form_data w l Hq) as Hspec.
  destruct (submit_batch form_data w) as [[endpoint|p|e] w'] eqn:Hrun;
    cbn [snd]; [| done | by subst w'].
  destruct Hspec as [(_ & _ & ->)|(Hne & -> & judgements & Hall & Hsession & Hstore
                                   & Hrng & Hq')]; [done|].
  assert (Hw' : w' = mkWorld (store w) (session w') (rng w)).
  { rewrite <- Hstore, <- Hrng. by rewrite world_eta. }
  unfold submit_batch in Hrun |- *. rewrite Hq in Hrun. rewrite Hq'.
  destruct (negb (truthy (JList l))); [done|].
  cbn [iter_list mbind result_bind] in Hrun |- *.
  destruct (batch_answers form_data l 0 []) as [[count answers]|]; [|done].
  injection Hrun as <-. rewrite Hstore, Hrng. cbn [session].
  rewrite (dict_set_same "user_answers")
    by (by rewrite dict_get_set_ne, dict_get_set_eq).
  by rewrite (dict_set_same "correct_answers") by apply dict_get_set_eq.
Qed.

(** ** The results page against the submission *)

Lemma sorted_idempotent (l : list string) : sorted (sorted l) = sorted l.
Proof. apply sorted_eq_iff_perm, sorted_perm. Qed.

Lemma sorted_nil_inv (l : list string) : sorted l = [] -> l = [].
Proof.
  intros Hnil. apply Permutation_nil_r. rewrite <- Hnil. by rewrite sorted_perm.
Qed.

(** What [process_user_answer] returns on a multi-select question. *)
Lemma multi_select_run (q : json) (number : Z) (options : list (string * string))
    (correct : list string) (form_data : form) (question_prefix field : string) :
  standard_question q number options correct ->
  answer_field (mkAnswerProcessor q false true) question_prefix = Ok field ->
  process_user_answer (mkAnswerProcessor q false true) form_data question_prefix
  = Ok (JList (JStr <$> sorted (form_getlist field form_data)),
        bool_decide (sorted (form_getlist field form_data) = sorted correct),
        join " | " match sorted (form_getlist field form_data) with
                   | [] => ["None"]
                   | labels => omap (rendered options) labels
                   end,
        join " | " (omap (rendered options) (sorted correct))).
Proof.
  intros (Hnum & Hopt & Hca) Hfield.
  unfold process_user_answer, _process_multiple_choice_answer.
  cbn [question is_mapping is_multiple_choice].
  rewrite Hca. cbn [mbind result_bind].
  rewrite Hfield. cbn [mbind result_bind].
  rewrite labels_of_labels. cbn [mbind result_bind].
  rewrite (get_answer_text_from_keys_spec q options (sorted correct) Hopt).
  destruct (sorted (form_getlist field form_data)) as [|u us] eqn:Eu.
  - done.
  - by rewrite (get_answer_text_from_keys_spec q options (u :: us) Hopt).
Qed.

Lemma py_index_first (x : json) (l : list json) : py_index (x :: l) 0 = Ok x.
Proof. done. Qed.

Lemma question_detail_standard (q : json) (number : Z)
    (options : list (string * string)) (correct : list string)
    (form_data : form) (question_prefix : string) (self : AnswerProcessor)
    (data : json) (verdict : bool) (user_display correct_display : string)
    (answers : dict) :
  standard_question q number options correct ->
  EmptyString ∉ correct ->
  AnswerProcessor_init q = Ok self ->
  process_user_answer self form_data question_prefix
  = Ok (data, verdict, user_display, correct_display) ->
  dict_get (str_of_Z number) answers = Some data ->
  exists detail,
    question_detail (JDict answers) q = Ok detail
    /\ detail_question detail = q
    /\ detail_is_correct detail = verdict
    /\ detail_correct_answer detail = correct_display
    /\ detail_user_answer detail
       = (if truthy data then user_display else "Not answered")
    /\ detail_is_multiple_choice detail = is_multiple_choice self
    /\ detail_is_mapping detail = false.
Proof.
  intros Hstd Hnonempty Hinit Hrun Hrecorded.
  pose proof Hstd as (Hnum & Hopt & Hca).
  assert (Hinit' : AnswerProcessor_init q
                   = Ok (mkAnswerProcessor q false (Nat.ltb 1 (length correct)))).
  { unfold AnswerProcessor_init, is_multiple_choice_question, is_mapping_question.
    rewrite Hca. cbn -[Nat.ltb]. by rewrite length_fmap. }
  rewrite Hinit' in Hinit. injection Hinit as <-.
  unfold question_detail. rewrite Hnum. cbn [mbind result_bind py_str as_dict].
  unfold dict_get_default. rewrite Hrecorded, Hinit'.
  cbn [mbind result_bind is_mapping is_multiple_choice].
  rewrite Hca. cbn [mbind result_bind].
  destruct (Nat.ltb 1 (length correct)) eqn:Hmulti.
  - destruct (answer_field_ok q number false true question_prefix Hnum)
      as [field Hfield].
    rewrite (multi_select_run q number options correct form_data question_prefix
               field Hstd Hfield) in Hrun.
    injection Hrun as <- <- <- <-.
    cbn [truthy]. rewrite length_fmap.
    rewrite labels_of_labels. cbn [mbind result_bind].
    rewrite (get_answer_text_from_keys_spec q options (sorted correct) Hopt).
    cbn [mbind result_bind].
    destruct (sorted (form_getlist field form_data)) as [|u us] eqn:Eu.
    + cbn. eexists. split_and!; try done.
      cbn. symmetry. apply bool_decide_eq_false_2. intros Heq.
      symmetry in Heq. apply sorted_nil_inv in Heq. subst correct.
      apply Nat.ltb_lt in Hmulti. simpl in Hmulti. lia.
    + cbn [length Nat.eqb negb].
      rewrite labels_of_labels. cbn [mbind result_bind].
      rewrite <- Eu, sorted_idempotent.
      rewrite (get_answer_text_from_keys_spec q options _ Hopt).
      cbn [mbind result_bind]. eexists. split_and!; try done.
      cbn. rewrite Eu. done.
  - apply Nat.ltb_ge in Hmulti.
    destruct (answer_field_ok q number false false question_prefix Hnum)
      as [field Hfield].
    unfold process_user_answer, _process_single_answer in Hrun.
    cbn [question is_mapping is_multiple_choice] in Hrun.
    rewrite Hca in Hrun. cbn [mbind result_bind] in Hrun.
    rewrite Hfield in Hrun. cbn [mbind result_bind iter_list] in Hrun.
    destruct correct as [|c [|c' correct]]; [done| |simpl in Hmulti; lia].
    cbn [fmap list_fmap mbind result_bind] in Hrun.
    assert (Hc : c <> EmptyString).
    { intros ->. apply Hnonempty. left. }
    rewrite (render_one q options c Hopt) in Hrun.
    cbn [fmap list_fmap] in Hrun |- *.
    destruct (rendered options c) as [shown|] eqn:Hshown.
    2: { destruct (truthy _) in Hrun;
           [destruct (get_answer_text_from_keys q _) as [l|] in Hrun|];
           cbn in Hrun; try done.
         by destruct (first_text l) in Hrun. }
    assert (Hcorrect :
      (correct ← iter_list (JList [JStr c]);
       first_correct ← py_index correct 0;
       texts ← get_answer_text_from_keys q [first_correct];
       first_text texts) = Ok shown).
    { cbn [iter_list mbind result_bind]. rewrite py_index_first.
      cbn [mbind result_bind]. by rewrite (render_one q options c Hopt), Hshown. }
    rewrite Hcorrect. clear Hcorrect.
    destruct (form_get field form_data) as [a|] eqn:Ha.
    + cbn [opt_to_json truthy] in Hrun.
      destruct (String.eqb_spec a EmptyString) as [->|Hane].
      * cbn in Hrun. injection Hrun as <- <- <- <-.
        cbn. eexists. split_and!; try done. cbn.
        by destruct c.
      * cbn [negb] in Hrun.
        rewrite (render_one q options a Hopt) in Hrun.
        destruct (rendered options a) as [ashown|] eqn:Hashown; [|done].
        cbn in Hrun. injection Hrun as <- <- <- <-.
        cbn [truthy length Nat.eqb negb iter_list mbind result_bind].
        rewrite !py_index_first. cbn [mbind result_bind].
        rewrite (render_one q options a Hopt), Hashown.
        cbn. eexists. split_and!; done.
    + cbn in Hrun. injection Hrun as <- <- <- <-.
      cbn. eexists. split_and!; done.
Qed.

(** The results page judges a standard question again from the recorded
    answer, and agrees with the submission: on a question whose correct
    labels are not empty strings, whatever was submitted, the detail of the
    results page carries the verdict and the correct answer's display of
    the submission, and the user's display of the submission unless nothing
    was recorded, which reads "Not answered". *)
Theorem results_repeat_standard (q : json) (number : Z)
    (options : list (string * string)) (correct : list string)
    (form_data : form) (question_prefix : string) (self : AnswerProcessor)
    (data : json) (verdict : bool) (user_display correct_display : string)
    (answers : dict) :
  standard_question q number options correct ->
  EmptyString ∉ correct ->
  AnswerProcessor_init q = Ok self ->
  process_user_answer self form_data question_prefix
  = Ok (data, verdict, user_display, correct_display) ->
  dict_get (str_of_Z number) answers = Some data ->
  exists detail,
    question_detail (JDict answers) q = Ok detail
    /\ detail_question detail = q
    /\ detail_is_correct detail = verdict
    /\ detail_correct_answer detail = correct_display
    /\ detail_user_answer detail
       = (if truthy data then user_display else "Not answered")
    /\ detail_is_multiple_choice detail = is_multiple_choice self
    /\ detail_is_mapping detail = false.
Proof. apply question_detail_standard. Qed.

Lemma results_repeat_standard_witness :
  exists detail,
    question_detail (JDict [("7", JList [JStr "A"; JStr "B"])]) two_of_three
    = Ok detail
    /\ detail_is_correct detail = true.
Proof.
  destruct (results_repeat_standard two_of_three 7
              [("A", "S3"); ("B", "EC2"); ("C", "IAM")] ["A"; "B"]
              [("answer", "B"); ("answer", "A")] EmptyString
              (mkAnswerProcessor two_of_three false true)
              (JList [JStr "A"; JStr "B"]) true
              "A) S3 | B) EC2" "A) S3 | B) EC2"
              [("7", JList [JStr "A"; JStr "B"])])
    as (detail & Hdetail & _ & Hverdict & _).
  - repeat split.
  - compute_done.
  - reflexivity.
  - reflexivity.
  - reflexivity.
  - exists detail. split; [exact Hdetail | exact Hverdict].
Defined.

(** The answers [_process_mapping_answer] collects. *)
Definition collected (number : Z) (question_prefix : string) (form_data : form)
    (keys : list string) : dict :=
  foldl (fun acc sub =>
           dict_set sub (opt_to_json (submitted number question_prefix form_data sub))
             acc) [] keys.

Lemma all_sub_answers_equal_spec (q : json) (number : Z)
    (correct : list (string * string)) (form_data : form) (question_prefix : string)
    (all_keys keys : list string) :
  getitem q "correct_answer" = Ok (JDict (text_dict correct)) ->
  (forall sub, sub ∈ keys -> is_Some (dict_get sub correct)) ->
  (forall sub, sub ∈ keys -> sub ∈ all_keys) ->
  all_sub_answers_equal q (collected number question_prefix form_data all_keys) keys
  = Ok (forallb (fun sub =>
                   bool_decide (submitted number question_prefix form_data sub
                                = dict_get sub correct)) keys).
Proof.
  intros Hca. induction keys as [|sub keys IH]; intros Hshape Hsub; [done|].
  cbn [all_sub_answers_equal forallb]. rewrite Hca. cbn [mbind result_bind getitem].
  rewrite dict_get_text_dict.
  destruct (Hshape sub) as [t Ht]; [left|]. rewrite Ht.
  cbn [fmap option_fmap option_map].
  unfold dict_get_default, collected.
  rewrite (foldl_answers_get number form_data question_prefix).
  rewrite bool_decide_eq_true_2 by (apply Hsub; left).
  cbn [mbind result_bind].
  destruct (py_eq _ (JStr t)) eqn:E.
  - apply py_eq_opt_text in E. rewrite bool_decide_eq_true_2 by done.
    cbn [andb]. apply IH; intros ? ?; [apply Hshape | apply Hsub]; by right.
  - rewrite bool_decide_eq_false_2; [done|].
    intros Heq. apply py_eq_opt_text in Heq. congruence.
Qed.

Lemma collected_nonempty (number : Z) (question_prefix : string) (form_data : form)
    (keys : list string) :
  keys <> [] -> collected number question_prefix form_data keys <> [].
Proof.
  destruct keys as [|sub keys]; [done|]. intros _ Hnil.
  assert (Hget : dict_get sub (collected number question_prefix form_data (sub :: keys))
                 = None) by (by rewrite Hnil).
  unfold collected in Hget.
  rewrite (foldl_answers_get number form_data question_prefix) in Hget.
  rewrite bool_decide_eq_true_2 in Hget by left. done.
Qed.

(** What [process_user_answer] returns on a mapping question. *)
Lemma mapping_run (q : json) (number : Z) (options : list (string * list string))
    (correct : list (string * string)) (form_data : form) (question_prefix : string) :
  mapping_question q number options correct ->
  exists display,
    get_mapping_answer_display q
      (collected number question_prefix form_data (dict_keys options)) = Ok display
    /\ process_user_answer (mkAnswerProcessor q true false) form_data question_prefix
       = Ok (JDict (collected number question_prefix form_data (dict_keys options)),
             forallb (fun sub =>
                        bool_decide (submitted number question_prefix form_data sub
                                     = dict_get sub correct)) (dict_keys options),
             display.1, display.2).
Proof.
  intros (Hnum & Hopt & Hca & Hshape).
  set (keys := dict_keys options).
  set (answers := collected number question_prefix form_data keys).
  assert (Hrender : renderable answers).
  { intros sub v. unfold answers, collected.
    rewrite (foldl_answers_get number form_data question_prefix).
    case_bool_decide; [|done]. intros [= <-].
    destruct (submitted _ _ _ _); [right; by eexists | by left]. }
  destruct (mapping_display_parts_ok q correct answers keys Hca Hrender Hshape)
    as [parts Hparts].
  assert (Hdisplay : get_mapping_answer_display q answers
                     = Ok (join " | " parts.1, join " | " parts.2)).
  { unfold get_mapping_answer_display.
    rewrite Hopt. cbn [mbind result_bind as_dict].
    rewrite dict_keys_candidates_dict. fold keys. by rewrite Hparts. }
  eexists. split; [exact Hdisplay|].
  unfold process_user_answer, _process_mapping_answer.
  cbn [question is_mapping]. rewrite Hca. cbn [mbind result_bind].
  rewrite Hopt. cbn [mbind result_bind as_dict].
  rewrite dict_keys_candidates_dict.
  rewrite (mapping_answer_loop_ok q number correct form_data question_prefix Hnum)
    by done.
  cbn [mbind result_bind fst snd andb].
  fold keys. unfold collected in answers. fold answers. by rewrite Hdisplay.
Qed.

Lemma question_detail_mapping (q : json) (number : Z)
    (options : list (string * list string)) (correct : list (string * string))
    (form_data : form) (question_prefix : string) (self : AnswerProcessor)
    (data : json) (verdict : bool) (user_display correct_display : string)
    (answers : dict) :
  mapping_question q number options correct ->
  options <> [] ->
  AnswerProcessor_init q = Ok self ->
  process_user_answer self form_data question_prefix
  = Ok (data, verdict, user_display, correct_display) ->
  dict_get (str_of_Z number) answers = Some data ->
  exists detail,
    question_detail (JDict answers) q = Ok detail
    /\ detail_question detail = q
    /\ detail_is_correct detail = verdict
    /\ detail_correct_answer detail = correct_display
    /\ detail_user_answer detail = user_display
    /\ detail_is_multiple_choice detail = false
    /\ detail_is_mapping detail = true.
Proof.
  intros Hmap Hnonempty Hinit Hrun Hrecorded.
  pose proof Hmap as (Hnum & Hopt & Hca & Hshape).
  assert (Hinit' : AnswerProcessor_init q = Ok (mkAnswerProcessor q true false)).
  { unfold AnswerProcessor_init, is_multiple_choice_question, is_mapping_question.
    by rewrite Hca. }
  rewrite Hinit' in Hinit. injection Hinit as <-.
  destruct (mapping_run q number options correct form_data question_prefix Hmap)
    as ([ud cd] & Hdisplay & Hrun').
  rewrite Hrun' in Hrun. injection Hrun as <- <- <- <-.
  unfold question_detail. rewrite Hnum. cbn [mbind result_bind py_str as_dict].
  unfold dict_get_default. rewrite Hrecorded, Hinit'.
  cbn [mbind result_bind is_mapping is_multiple_choice].
  assert (Htruthy : truthy (JDict (collected number question_prefix form_data
                                     (dict_keys options))) = true).
  { cbn [truthy].
    destruct (collected number question_prefix form_data (dict_keys options))
      eqn:Hcollected; [|done].
    exfalso. revert Hcollected. apply collected_nonempty.
    by destruct options. }
  rewrite Htruthy. cbn [as_dict mbind result_bind].
  rewrite Hdisplay. cbn [mbind result_bind].
  rewrite Hopt. cbn [as_dict mbind result_bind].
  rewrite dict_keys_candidates_dict.
  rewrite (all_sub_answers_equal_spec q number correct form_data question_prefix)
    by done.
  cbn [mbind result_bind]. eexists. split_and!; done.
Qed.

(** The results page judges a mapping question again from the recorded
    answers, and agrees with the submission: on a mapping question with at
    least one sub-question, whatever was submitted, the detail of the
    results page carries the verdict and the two displays of the
    submission. *)
Theorem results_repeat_mapping (q : json) (number : Z)
    (options : list (string * list string)) (correct : list (string * string))
    (form_data : form) (question_prefix : string) (self : AnswerProcessor)
    (data : json) (verdict : bool) (user_display correct_display : string)
    (answers : dict) :
  mapping_question q number options correct ->
  options <> [] ->
  AnswerProcessor_init q = Ok self ->
  process_user_answer self form_data question_prefix
  = Ok (data, verdict, user_display, correct_display) ->
  dict_get (str_of_Z number) answers = Some data ->
  exists detail,
    question_detail (JDict answers) q = Ok detail
    /\ detail_question detail = q
    /\ detail_is_correct detail = verdict
    /\ detail_correct_answer detail = correct_display
    /\ detail_user_answer detail = user_display
    /\ detail_is_multiple_choice detail = false
    /\ detail_is_mapping detail = true.
Proof. apply question_detail_mapping. Qed.

Lemma results_repeat_mapping_witness :
  exists detail,
    question_detail
      (JDict [("3", JDict [("use_case", JStr "search"); ("service", JNull)])])
      two_slots = Ok detail
    /\ detail_is_correct detail = false.
Proof.
  destruct (results_repeat_mapping two_slots 3
              [ ("use_case", ["chat"; "search"]);
                ("service", ["Lex"; "Kendra"; "Polly"]) ]
              [ ("use_case", "search"); ("service", "Kendra") ]
              [("mapping_use_case", "search")] EmptyString
              (mkAnswerProcessor two_slots true false)
              (JDict [("use_case", JStr "search"); ("service", JNull)]) false
              "Use Case: search | Service: None"
              "Use Case: search | Service: Kendra"
              [("3", JDict [("use_case", JStr "search"); ("service", JNull)])])
    as (detail & Hdetail & _ & Hverdict & _).
  - split_and!; try reflexivity.
    intros sub Hin. apply dict_get_is_Some.
    revert Hin. unfold dict_keys. simpl. exact (fun H => H).
  - discriminate.
  - reflexivity.
  - reflexivity.
  - reflexivity.
  - exists detail. split; [exact Hdetail | exact Hverdict].
Defined.

(** ** The results of a batch submission *)

(** The text of a number determines the number. *)
Lemma str_of_Z_inj (a b : Z) : str_of_Z a = str_of_Z b -> a = b.
Proof.
  unfold str_of_Z. intros Heq. apply DecimalZ.to_int_inj.
  assert (Hnormal : forall z, Z.to_int z <> Decimal.Pos Decimal.Nil
                              /\ Z.to_int z <> Decimal.Neg Decimal.Nil).
  { intros [|p|p]; cbn; split; try done;
      intros [= Hnil]; by apply DecimalPos.Unsigned.to_uint_nonnil in Hnil. }
  pose proof (NilZero.isi (Z.to_int a) (proj1 (Hnormal a)) (proj2 (Hnormal a))) as Ha.
  pose proof (NilZero.isi (Z.to_int b) (proj1 (Hnormal b)) (proj2 (Hnormal b))) as Hb.
  rewrite Heq in Ha. rewrite Ha in Hb. by injection Hb.
Qed.

(** A question the results page can judge as the submission did: a
    standard question none of whose correct labels is the empty string, or
    a mapping question with at least one sub-question. *)
Definition gradable (q : json) : Prop :=
  (exists number options correct,
     standard_question q number options correct /\ EmptyString ∉ correct)
  \/ (exists number options correct,
        mapping_question q number options correct /\ options <> []).

Definition numbered (q : json) (number : Z) : Prop :=
  getitem q "question_number" = Ok (JInt number).

Lemma question_detail_judged (question_prefix : string) (form_data : form)
    (q : json) (key : string) (data : json) (verdict : bool) (answers : dict) :
  gradable q ->
  judged question_prefix form_data q key data verdict ->
  dict_get key answers = Some data ->
  exists detail,
    question_detail (JDict answers) q = Ok detail
    /\ detail_question detail = q
    /\ detail_is_correct detail = verdict.
Proof.
  intros Hgradable (self & ud & cd & number & Hinit & Hrun & Hnum & Hkey) Hrecorded.
  destruct Hgradable as [(n & options & correct & Hstd & Hnonempty)
                        |(n & options & correct & Hmap & Hnonempty)].
  - pose proof Hstd as (Hn & _). rewrite Hn in Hnum. injection Hnum as <-.
    cbn in Hkey. injection Hkey as <-.
    destruct (question_detail_standard q n options correct form_data
                question_prefix self data verdict ud cd answers)
      as (detail & ? & ? & ? & _); try done.
    by exists detail.
  - pose proof Hmap as (Hn & _). rewrite Hn in Hnum. injection Hnum as <-.
    cbn in Hkey. injection Hkey as <-.
    destruct (question_detail_mapping q n options correct form_data
                question_prefix self data verdict ud cd answers)
      as (detail & ? & ? & ? & _); try done.
    by exists detail.
Qed.

(** A judgement of a question, by some submission. *)
Definition judgement_of (q : json) (j : Judgement) : Prop :=
  exists question_prefix form_data,
    judged question_prefix form_data q (judged_key j) (judged_data j)
      (judged_verdict j).

Lemma details_of_judgements (answers : dict) (questions : list json)
    (judgements : list Judgement) :
  Forall2 (fun q j => gradable q /\ judgement_of q j
                      /\ dict_get (judged_key j) answers = Some (judged_data j))
          questions judgements ->
  exists details,
    _generate_question_details questions (JDict answers) = Ok details
    /\ detail_question <$> details = questions
    /\ detail_is_correct <$> details = judged_verdict <$> judgements.
Proof.
  unfold _generate_question_details.
  induction 1 as [|q j questions judgements
                   (Hgradable & (question_prefix & form_data & Hjudged) & Hrecorded)
                   _ IH].
  - by exists [].
  - destruct IH as (details & Hrun & Hquestions & Hverdicts).
    destruct (question_detail_judged question_prefix form_data q _ _ _ answers
                Hgradable Hjudged Hrecorded) as (detail & Hdetail & Hq & Hverdict).
    exists (detail :: details). cbn. rewrite Hdetail. cbn. rewrite Hrun. cbn.
    by rewrite Hq, Hquestions, Hverdict, Hverdicts.
Qed.

Lemma judged_keys (questions : list json) (judgements : list Judgement)
    (numbers : list Z) :
  Forall2 judgement_of questions judgements ->
  Forall2 numbered questions numbers ->
  judged_key <$> judgements = str_of_Z <$> numbers.
Proof.
  intros Hjudged. revert numbers.
  induction Hjudged as [|q j questions judgements Hq _ IH]; intros numbers Hnumbers.
  - by apply Forall2_nil_inv_l in Hnumbers as ->.
  - apply Forall2_cons_inv_l in Hnumbers as (n & numbers' & Hn & Hrest & ->).
    cbn. rewrite (IH numbers' Hrest). f_equal.
    destruct Hq as (? & ? & self & ud & cd & number & _ & _ & Hnum & Hkey).
    unfold numbered in Hn. rewrite Hn in Hnum. injection Hnum as <-.
    cbn in Hkey. by injection Hkey.
Qed.

Lemma Forall2_and_elem {A B} (P Q : A -> B -> Prop) (l : list A) (k : list B) :
  Forall2 P l k ->
  (forall x y, x ∈ l -> y ∈ k -> P x y -> Q x y) ->
  Forall2 Q l k.
Proof.
  induction 1 as [|x y l k Hxy _ IH]; intros Himpl; [constructor|].
  constructor.
  - apply Himpl; [left | left | done].
  - apply IH. intros x' y' Hx' Hy'. apply Himpl; by right.
Qed.

(** The results page of an attempt whose every question has been judged
    once, the answers recorded from an empty dictionary. *)
Lemma results_of_judgements {G : Type} (w : World G) (questions : list json)
    (numbers : list Z) (judgements : list Judgement) (count : Z) :
  _get_session_questions w = Ok (JList questions) ->
  questions <> [] ->
  Forall gradable questions ->
  Forall2 numbered questions numbers ->
  NoDup numbers ->
  Forall2 judgement_of questions judgements ->
  dict_get "user_answers" (session w) = Some (JDict (recorded judgements [])) ->
  dict_get "correct_answers" (session w) = Some (JInt count) ->
  exists r,
    results w = (Render (ResultsPage r), w)
    /\ detail_question <$> question_details r = questions
    /\ detail_is_correct <$> question_details r = judged_verdict <$> judgements
    /\ total_questions r = length questions
    /\ correct_answers r = count.
Proof.
  intros Hq Hne Hgradable Hnumbers Hnodup Hjudged Hanswers Hcount.
  set (answers := recorded judgements []) in *.
  assert (Hkeys : NoDup (judged_key <$> judgements)).
  { rewrite (judged_keys questions judgements numbers Hjudged Hnumbers).
    apply NoDup_fmap_2; [|done]. intros a b. apply str_of_Z_inj. }
  destruct (details_of_judgements answers questions judgements)
    as (details & Hdetails & Hquestions & Hverdicts).
  { eapply Forall2_and_elem; [exact Hjudged|].
    intros q j Hin Hj Hqj. split_and!; [|done|].
    - rewrite Forall_forall in Hgradable. by apply Hgradable.
    - by apply recorded_last. }
  unfold results. rewrite Hq.
  assert (Htruthy : negb (truthy (JList questions)) = false)
    by (by destruct questions).
  rewrite Htruthy. cbn [iter_list mbind result_bind].
  unfold dict_get_default. rewrite Hanswers, Hcount.
  unfold percent.
  assert (Hlen : Z.eqb (Z.of_nat (length questions)) 0 = false)
    by (destruct questions; [done | simpl; lia]).
  rewrite Hlen. cbn [mbind result_bind].
  destruct (_get_certification_level _) as [level class].
  rewrite Hdetails. cbn [mbind result_bind].
  eexists. split; [reflexivity|]. cbn. by split_and!.
Qed.

(** After a batch submission that reaches the results, on an attempt whose
    questions are gradable and carry distinct numbers, the results page is
    rendered; its details are the questions of the attempt in order; and the
    count of correct answers it reports, from which the score is computed,
    is the number of its details that are marked correct. *)
Theorem batch_results_consistent {G : Type} (form_data : form) (w w' : World G)
    (questions : list json) (numbers : list Z) :
  _get_session_questions w = Ok (JList questions) ->
  Forall gradable questions ->
  Forall2 numbered questions numbers ->
  NoDup numbers ->
  submit_batch form_data w = (Redirect "results", w') ->
  exists r,
    results w' = (Render (ResultsPage r), w')
    /\ detail_question <$> question_details r = questions
    /\ total_questions r = length questions
    /\ correct_answers r = count_true (detail_is_correct <$> question_details r).
Proof.
  intros Hq Hgradable Hnumbers Hnodup Hrun.
  pose proof (submit_batch_spec form_data w questions Hq) as Hspec.
  rewrite Hrun in Hspec.
  destruct Hspec as [(_ & [=] & _)
                    |(Hne & _ & judgements & Hjudged & Hsession & _ & _ & Hq')].
  destruct (results_of_judgements w' questions numbers judgements
              (count_true (judged_verdict <$> judgements)))
    as (r & Hresults & Hquestions & Hverdicts & Htotal & Hcount); try done.
  - eapply Forall2_impl; [exact Hjudged|]. intros q j Hqj.
    by exists "batch", form_data.
  - rewrite Hsession. rewrite dict_get_set_ne by done. apply dict_get_set_eq.
  - rewrite Hsession. apply dict_get_set_eq.
  - exists r. split_and!; try done. by rewrite Hverdicts.
Qed.

Lemma small_bank_gradable : Forall gradable small_bank.
Proof.
  constructor; [|constructor; [|constructor]].
  - left. exists 1%Z, [("A", "S3"); ("B", "EC2")], ["A"].
    split; [repeat split | compute_done].
  - left. exists 2%Z, [("A", "Lex"); ("B", "Polly")], ["B"].
    split; [repeat split | compute_done].
Qed.

Lemma batch_results_consistent_witness :
  exists r,
    results (submit_batch [("question_1", "A"); ("question_2", "A")]
               small_attempt).2
    = (Render (ResultsPage r),
       (submit_batch [("question_1", "A"); ("question_2", "A")] small_attempt).2)
    /\ correct_answers r = count_true (detail_is_correct <$> question_details r).
Proof.
  destruct (batch_results_consistent [("question_1", "A"); ("question_2", "A")]
              small_attempt
              (submit_batch [("question_1", "A"); ("question_2", "A")]
                 small_attempt).2
              small_bank [1%Z; 2%Z])
    as (r & Hresults & _ & _ & Hcount).
  - reflexivity.
  - exact small_bank_gradable.
  - repeat constructor.
  - compute_done.
  - vm_compute. reflexivity.
  - exists r. split; [exact Hresults | exact Hcount].
Defined.

(** ** The quiz pages *)

(** On a stored attempt whose cursor is at a question, the immediate page
    never fails: it shows the question at the cursor with a progress that
    counts from 1, whose percentage, for an attempt of up to 200 questions,
    is the tenth nearest to the exact percentage; with the cursor at the
    end it sends the client to the results; and the batch page shows all
    the questions.  Neither page changes anything. *)
Theorem quiz_pages_show_attempt {G : Type} (w : World G) (questions : list json)
    (cursor correct : Z) :
  attempt_at w questions cursor correct ->
  questions <> [] ->
  (0 <= cursor)%Z ->
  ((cursor < Z.of_nat (length questions))%Z ->
   exists q p,
     quiz_immediate w = (Render (QuizImmediatePage q p), w)
     /\ questions !! Z.to_nat cursor = Some q
     /\ current p = (cursor + 1)%Z
     /\ total p = length questions
     /\ (length questions <= 200 ->
         exists n, percentage p = PyFloat.of_tenths false n
                   /\ (2 * Z.abs (Z.of_nat (length questions) * n
                                  - 1000 * (cursor + 1))
                       <= Z.of_nat (length questions))%Z))
  /\ ((Z.of_nat (length questions) <= cursor)%Z ->
      quiz_immediate w = (Redirect "results", w))
  /\ quiz_batch w = (Render (QuizBatchPage questions), w).
Proof.
  intros (Hq & Hcur & _) Hne Hcursor.
  assert (Htruthy : negb (truthy (JList questions)) = false)
    by (by destruct questions).
  unfold quiz_immediate, quiz_batch. rewrite Hq, Htruthy.
  cbn [iter_list mbind result_bind]. unfold dict_get_default. rewrite Hcur.
  split_and!; [| |done].
  - intros Hin.
    assert (Hle : (Z.of_nat (length questions) <=? cursor)%Z = false) by lia.
    rewrite Hle. unfold py_index.
    assert (Hpos : (cursor <? 0)%Z = false) by lia. rewrite Hpos, Hpos.
    destruct (questions !! Z.to_nat cursor) as [q|] eqn:Hat;
      [|apply lookup_ge_None in Hat; lia].
    cbn [mbind result_bind]. unfold _calculate_progress, percent.
    assert (Hlen : Z.eqb (Z.of_nat (length questions)) 0 = false) by lia.
    rewrite Hlen. cbn [mbind result_bind]. rewrite Nat2Z.id.
    eexists _, _. split_and!; try done. cbn [percentage].
    intros Hsmall.
    destruct (score_exact_upto_200 (cursor + 1) (Z.of_nat (length questions)))
      as (n & Hpercent & Hnear & _); [lia..|].
    exists n. split; [|done].
    unfold percent in Hpercent. rewrite Hlen in Hpercent. by injection Hpercent.
  - intros Hend.
    assert (Hle : (Z.of_nat (length questions) <=? cursor)%Z = true) by lia.
    by rewrite Hle.
Qed.

Lemma quiz_pages_show_attempt_witness :
  quiz_batch small_attempt = (Render (QuizBatchPage small_bank), small_attempt).
Proof.
  apply (quiz_pages_show_attempt small_attempt small_bank 0 0);
    [repeat split | discriminate | lia].
Defined.

(** ** The count of questions *)

(** The count endpoint reports the size of the bank, and reports an error
    exactly when the bank is empty: then [start_quiz] refuses every form and
    leaves the world as it was, while on a bank that is not empty the empty
    form is not sent back to the start page. *)
Theorem count_endpoint_matches_start {G : Type} `{Random G}
    (md5_hexdigest : string -> string) (bank : list json) :
  getitem (api_questions_count bank) "total" = Ok (JInt (Z.of_nat (length bank)))
  /\ (getitem (api_questions_count bank) "status" = Ok (JStr "error")
      <-> bank = [])
  /\ (getitem (api_questions_count bank) "status" = Ok (JStr "success")
      <-> bank <> [])
  /\ (bank = [] ->
      forall (form_data : form) (w : World G),
        start_quiz md5_hexdigest bank form_data w = (Redirect "index", w))
  /\ (bank <> [] ->
      forall w : World G,
        (start_quiz md5_hexdigest bank [] w).1 <> Redirect "index").
Proof.
  unfold api_questions_count. cbn [getitem dict_get]. eval_eqb.
  split_and!; [done| | | |].
  - destruct bank; cbn; split; done.
  - destruct bank; cbn; split; done.
  - by intros ->.
  - intros Hne w. unfold start_quiz. destruct bank as [|q0 rest]; [done|].
    cbn [form_get default from_option id]. unfold _get_selected_questions.
    eval_eqb. cbv beta iota.
    destruct (shuffle_all (q0 :: rest) (rng w)) as [[shuffled|e] g']; done.
Qed.

Lemma count_endpoint_matches_start_witness :
  getitem (api_questions_count small_bank) "status" = Ok (JStr "success").
Proof.
  apply (count_endpoint_matches_start (G:=nat) (fun s => s) small_bank).
  discriminate.
Defined.

(** ** Two submission routes on one attempt *)

(** A batch submission does not move the cursor, and an immediate
    submission does not ask which mode the attempt is in: after a batch
    submission has stored its count, an immediate submission on the same
    attempt is judged and adds to that count.  So the count the results
    page reports can exceed the number of questions. *)
Theorem immediate_adds_to_batch_count {G : Type} (batch_form form_data : form)
    (w w1 w2 : World G) (questions : list json) (cursor correct : Z)
    (page : FeedbackPage) :
  attempt_at w questions cursor correct ->
  submit_batch batch_form w = (Redirect "results", w1) ->
  submit_immediate form_data w1 = (inr page, w2) ->
  exists judgements,
    Forall2 (fun q j => judged "batch" batch_form q (judged_key j)
                          (judged_data j) (judged_verdict j))
            questions judgements
    /\ attempt_at w1 questions cursor (count_true (judged_verdict <$> judgements))
    /\ attempt_at w2 questions (cursor + 1)
         (count_true (judged_verdict <$> judgements)
          + (if feedback_is_correct (feedback page) then 1 else 0))
    /\ forall r w3,
         results w2 = (Render (ResultsPage r), w3) ->
         correct_answers r
         = (count_true (judged_verdict <$> judgements)
            + (if feedback_is_correct (feedback page) then 1 else 0))%Z
         /\ total_questions r = length questions.
Proof.
  intros (Hq & Hcur & Hcount) Hbatch Himmediate.
  pose proof (submit_batch_spec batch_form w questions Hq) as Hspec.
  rewrite Hbatch in Hspec.
  destruct Hspec as [(_ & [=] & _)
                    |(Hne & _ & judgements & Hjudged & Hsession & _ & _ & Hq')].
  exists judgements.
  assert (Hat1 : attempt_at w1 questions cursor
                   (count_true (judged_verdict <$> judgements))).
  { split_and!; [done| |].
    - rewrite Hsession. by rewrite !dict_get_set_ne.
    - rewrite Hsession. apply dict_get_set_eq. }
  pose proof (submit_immediate_spec form_data w1 questions cursor _ Hat1) as Hstep.
  rewrite Himmediate in Hstep. destruct Hstep as (_ & _ & Hat2 & _).
  assert (Hat2' : attempt_at w2 questions (cursor + 1)
                    (count_true (judged_verdict <$> judgements)
                     + (if feedback_is_correct (feedback page) then 1 else 0))).
  { destruct (feedback_is_correct (feedback page)); [done|].
    by rewrite Z.add_0_r. }
  split_and!; [done..|].
  intros r w3. destruct Hat2' as (Hq2 & _ & Hcount2).
  unfold results. rewrite Hq2.
  destruct (negb (truthy (JList questions))); [done|].
  cbn [iter_list mbind result_bind]. unfold dict_get_default. rewrite Hcount2.
  destruct (percent _ _); cbn [mbind result_bind]; [|done].
  destruct (_get_certification_level _).
  destruct (_generate_question_details questions _); cbn [mbind result_bind];
    [|done].
  by intros [= <- _].
Qed.

Lemma immediate_adds_to_batch_count_witness :
  let w1 := (submit_batch [("question_1", "A"); ("question_2", "B")]
               small_attempt).2 in
  let w2 := (submit_immediate [("answer", "A")] w1).2 in
  exists r,
    results w2 = (Render (ResultsPage r), w2)
    /\ correct_answers r = 3%Z
    /\ total_questions r = 2.
Proof.
  intros w1 w2.
  assert (Himmediate : exists page,
            submit_immediate [("answer", "A")] w1 = (inr page, w2)
            /\ feedback_is_correct (feedback page) = true).
  { eexists. vm_compute. split; reflexivity. }
  destruct Himmediate as (page & Himmediate & Hverdict).
  assert (Hresults : exists r, results w2 = (Render (ResultsPage r), w2)
                               /\ correct_answers r = 3%Z).
  { eexists. vm_compute. split; reflexivity. }
  destruct Hresults as (r & Hresults & Hcount).
  destruct (immediate_adds_to_batch_count
              [("question_1", "A"); ("question_2", "B")] [("answer", "A")]
              small_attempt w1 w2 small_bank 0 0 page)
    as (judgements & _ & _ & _ & Hreport).
  - repeat split.
  - vm_compute. reflexivity.
  - exact Himmediate.
  - exists r. split; [exact Hresults|]. split; [exact Hcount|].
    exact (proj2 (Hreport r w2 Hresults)).
Defined.

(** ** The fields of a batch form *)

Fixpoint no_underscore (s : string) : bool :=
  match s with
  | EmptyString => true
  | String c s' => negb (Nat.eqb (nat_of_ascii c) 95) && no_underscore s'
  end.

Lemma string_of_uint_no_underscore (d : Decimal.uint) :
  no_underscore (NilEmpty.string_of_uint d) = true.
Proof. induction d; cbn; done. Qed.

(** The text of a number holds digits and a sign, never an underscore. *)
Lemma str_of_Z_no_underscore (z : Z) : no_underscore (str_of_Z z) = true.
Proof.
  unfold str_of_Z, NilZero.string_of_int, NilZero.string_of_uint.
  destruct (Z.to_int z) as [d|d].
  - destruct d; try done; apply (string_of_uint_no_underscore (_ d)).
  - cbn [no_underscore]. rewrite andb_true_iff. split; [done|].
    destruct d; try done; apply (string_of_uint_no_underscore (_ d)).
Qed.

Lemma split_at_underscore (a b x y : string) :
  no_underscore a = true -> no_underscore b = true ->
  a ++ "_" ++ x = b ++ "_" ++ y -> a = b /\ x = y.
Proof.
  revert b. induction a as [|c a IH]; intros [|c' b] Ha Hb Heq.
  - change (String "_" x = String "_" y) in Heq. by injection Heq as ->.
  - change (String "_" x = String c' (b ++ "_" ++ y)) in Heq.
    injection Heq as <- _. done.
  - change (String c (a ++ "_" ++ x) = String "_" y) in Heq.
    injection Heq as -> _. done.
  - change (String c (a ++ "_" ++ x) = String c' (b ++ "_" ++ y)) in Heq.
    injection Heq as -> Heq.
    cbn in Ha, Hb. apply andb_true_iff in Ha as [_ Ha], Hb as [_ Hb].
    destruct (IH b Ha Hb Heq) as [-> ->]. done.
Qed.

(** In a batch form the name of a field determines the question it belongs
    to: two questions with different numbers never read the same field,
    whatever their sub-questions are called, and the field of a standard
    question is never the field of a sub-question. *)
Theorem batch_fields_determine_question (self self' : AnswerProcessor)
    (n m : Z) (field : string) :
  numbered (question self) n ->
  numbered (question self') m ->
  (answer_field self "batch" = Ok field ->
   answer_field self' "batch" = Ok field -> n = m)
  /\ (forall sub sub',
        mapping_field self "batch" sub = Ok field ->
        mapping_field self' "batch" sub' = Ok field -> n = m /\ sub = sub')
  /\ (forall sub,
        answer_field self "batch" = Ok field ->
        mapping_field self' "batch" sub <> Ok field).
Proof.
  unfold numbered, answer_field, mapping_field. intros Hn Hm.
  eval_eqb. cbv beta iota. rewrite Hn, Hm. cbn [mbind result_bind py_str].
  split_and!.
  - intros [= <-] [= Heq]. by apply str_of_Z_inj.
  - intros sub sub' [= <-] [= Heq].
    apply split_at_underscore in Heq as [Heq ->];
      [|apply str_of_Z_no_underscore..].
    split; [by apply str_of_Z_inj | done].
  - intros sub [= <-]. done.
Qed.

Lemma batch_fields_determine_question_witness :
  mapping_field (mkAnswerProcessor two_slots true false) "batch" "service"
  <> Ok "question_7".
Proof.
  apply (batch_fields_determine_question
           (mkAnswerProcessor two_of_three false true)
           (mkAnswerProcessor two_slots true false) 7 3 "question_7");
    reflexivity.
Defined.

(** ** A whole attempt, one answer at a time *)

(** The forms submitted one after the other, each answered by its feedback
    page: the verdicts shown and the world left.  [None] when a submission
    is answered by anything else. *)
Fixpoint answer_each {G : Type} (forms : list form) (w : World G)
  : option (list bool * World G) :=
  match forms with
  | [] => Some ([], w)
  | form_data :: rest =>
      match submit_immediate form_data w with
      | (inr page, w1) =>
          match answer_each rest w1 with
          | Some (verdicts, w') =>
              Some (feedback_is_correct (feedback page) :: verdicts, w')
          | None => None
          end
      | (inl _, _) => None
      end
  end.

Lemma py_index_nat (l : list json) (k : nat) (x : json) :
  py_index l (Z.of_nat k) = Ok x -> l !! k = Some x.
Proof.
  unfold py_index.
  assert (Hpos : (Z.of_nat k <? 0)%Z = false) by (apply Z.ltb_ge; lia).
  rewrite Hpos, Hpos.
  rewrite Nat2Z.id. by destruct (l !! k) as [y|]; intros [= ->].
Qed.

Lemma answer_each_spec {G : Type} (questions : list json) (forms : list form) :
  forall (w w' : World G) (k : nat) (count : Z) (previous : dict)
         (verdicts : list bool),
    attempt_at w questions (Z.of_nat k) count ->
    k <= length questions ->
    dict_get "user_answers" (session w) = Some (JDict previous) ->
    answer_each forms w = Some (verdicts, w') ->
    exists judgements,
      Forall2 judgement_of (take (length forms) (drop k questions)) judgements
      /\ verdicts = judged_verdict <$> judgements
      /\ attempt_at w' questions (Z.of_nat (k + length forms))
           (count + count_true verdicts)
      /\ dict_get "user_answers" (session w')
         = Some (JDict (recorded judgements previous))
      /\ k + length forms <= length questions.
Proof.
  induction forms as [|form_data forms IH];
    intros w w' k count previous verdicts Hat Hk Hanswers Hrun.
  - cbn in Hrun. injection Hrun as <- <-. exists [].
    cbn [length take]. rewrite Nat.add_0_r, Z.add_0_r.
    split_and!; done.
  - cbn [answer_each] in Hrun.
    pose proof (submit_immediate_spec form_data w questions (Z.of_nat k) count Hat)
      as Hstep.
    destruct (submit_immediate form_data w) as [[r|page] w1]; [done|].
    destruct (answer_each forms w1) as [[verdicts1 w1']|] eqn:Hrest; [|done].
    injection Hrun as <- <-.
    destruct Hstep as (Hin & Hindex & Hat1 & _ & _ & _ & _
                       & key & data & previous' & Hjudged & Hprevious & Hanswers1).
    rewrite Hanswers in Hprevious. injection Hprevious as <-.
    apply py_index_nat in Hindex.
    replace (Z.of_nat k + 1)%Z with (Z.of_nat (S k)) in Hat1 by lia.
    destruct (IH w1 w1' (S k) _ _ verdicts1 Hat1 ltac:(lia) Hanswers1 Hrest)
      as (judgements & Hall & -> & Hat' & Hanswers' & Hlen).
    exists (mkJudgement key data (feedback_is_correct (feedback page)) :: judgements).
    cbn [length]. split_and!.
    + rewrite (drop_S _ _ _ Hindex). cbn [take]. constructor; [|done].
      by exists EmptyString, form_data.
    + done.
    + replace (k + S (length forms)) with (S k + length forms) by lia.
      cbn [fmap list_fmap judged_verdict]. rewrite count_true_cons.
      destruct (feedback_is_correct (feedback page));
        [by rewrite Z.add_assoc | by rewrite Z.add_0_l].
    + done.
    + lia.
Qed.

(** An attempt answered from its first question to its last in immediate
    mode, each submission rendering its feedback, on questions that are
    gradable and carry distinct numbers: afterwards the quiz page sends the
    client to the results; the results page is rendered; its details are
    the questions in order, each marked with the verdict its feedback
    showed; and the count it reports is the number of those verdicts that
    are correct. *)
Theorem immediate_results_consistent {G : Type} (forms : list form)
    (w w' : World G) (questions : list json) (numbers : list Z)
    (verdicts : list bool) :
  attempt_at w questions 0 0 ->
  dict_get "user_answers" (session w) = Some (JDict []) ->
  questions <> [] ->
  length forms = length questions ->
  Forall gradable questions ->
  Forall2 numbered questions numbers ->
  NoDup numbers ->
  answer_each forms w = Some (verdicts, w') ->
  quiz_immediate w' = (Redirect "results", w')
  /\ exists r,
       results w' = (Render (ResultsPage r), w')
       /\ detail_question <$> question_details r = questions
       /\ detail_is_correct <$> question_details r = verdicts
       /\ total_questions r = length questions
       /\ correct_answers r = count_true verdicts
       /\ (0 <= correct_answers r <= Z.of_nat (total_questions r))%Z.
Proof.
  intros Hat Hanswers Hne Hlen Hgradable Hnumbers Hnodup Hrun.
  destruct (answer_each_spec questions forms w w' 0 0 [] verdicts)
    as (judgements & Hjudged & -> & Hat' & Hanswers' & _); [done | lia | done..|].
  rewrite drop_0, Hlen, take_ge in Hjudged by done.
  cbn [Nat.add] in Hat'. rewrite Z.add_0_l in Hat'.
  pose proof Hat' as (Hq' & Hcur' & Hcount').
  split.
  - unfold quiz_immediate. rewrite Hq'.
    assert (Htruthy : negb (truthy (JList questions)) = false)
      by (by destruct questions).
    rewrite Htruthy. cbn [iter_list mbind result_bind].
    unfold dict_get_default. rewrite Hcur', Hlen.
    by rewrite Z.leb_refl.
  - destruct (results_of_judgements w' questions numbers judgements
                (count_true (judged_verdict <$> judgements)))
      as (r & Hresults & Hquestions & Hverdicts & Htotal & Hcount); try done.
    exists r. split_and!; try done.
    + rewrite Hcount. apply count_true_bounds.
    + rewrite Hcount, Htotal.
      pose proof (count_true_bounds (judged_verdict <$> judgements)) as Hb.
      rewrite length_fmap, <- (Forall2_length _ _ _ Hjudged) in Hb. lia.
Qed.

Lemma immediate_results_consistent_witness :
  exists r w',
    answer_each [[("answer", "A")]; [("answer", "A")]] small_attempt
    = Some ([true; false], w')
    /\ results w' = (Render (ResultsPage r), w')
    /\ correct_answers r = 1%Z.
Proof.
  assert (Hrun : exists w',
            answer_each [[("answer", "A")]; [("answer", "A")]] small_attempt
            = Some ([true; false], w')).
  { eexists. vm_compute. reflexivity. }
  destruct Hrun as (w' & Hrun).
  destruct (immediate_results_consistent [[("answer", "A")]; [("answer", "A")]]
              small_attempt w' small_bank [1%Z; 2%Z] [true; false])
    as (_ & r & Hresults & _ & _ & _ & Hcount & _).
  - repeat split.
  - reflexivity.
  - discriminate.
  - reflexivity.
  - exact small_bank_gradable.
  - repeat constructor.
  - compute_done.
  - exact Hrun.
  - exists r, w'. split; [exact Hrun|]. split; [exact Hresults | exact Hcount].
Defined.

(** ** What a mapping answer shows *)

(** The name of a sub-question as it is shown. *)
Definition display_key (sub_question_key : string) : string :=
  title (replace_underscore sub_question_key).

Lemma mapping_display_parts_spec (q : json) (correct : list (string * string))
    (user_answers : dict) (shown : string -> string) (keys : list string) :
  getitem q "correct_answer" = Ok (JDict (text_dict correct)) ->
  (forall sub, sub ∈ keys ->
     py_str (dict_get_default sub (JStr "Not answered") user_answers)
     = Ok (shown sub)) ->
  (forall sub, sub ∈ keys -> is_Some (dict_get sub correct)) ->
  mapping_display_parts q user_answers keys
  = Ok ((fun sub => display_key sub ++ ": " ++ shown sub) <$> keys,
        (fun sub => display_key sub ++ ": "
                    ++ default EmptyString (dict_get sub correct)) <$> keys).
Proof.
  intros Hca. induction keys as [|sub keys IH]; intros Hshown Hshape; [done|].
  cbn [mapping_display_parts fmap list_fmap].
  rewrite (Hshown sub) by left. cbn [mbind result_bind].
  rewrite Hca. cbn [mbind result_bind getitem]. rewrite dict_get_text_dict.
  destruct (Hshape sub) as [t Ht]; [left|]. rewrite Ht.
  cbn [fmap option_fmap option_map mbind result_bind py_str].
  rewrite IH; [done| |]; intros ? ?; [apply Hshown | apply Hshape]; by right.
Qed.

(** The two displays of a mapping question, whatever the form holds: one
    part per sub-question, in the order of the options, each the shown name
    of the sub-question and a value.  The shown name is the name with its
    underscores replaced by spaces, in title case; the names are taken to
    hold neither the micro sign nor the character 255, whose title case no
    string of the model holds.  In the display of a submission a
    sub-question whose field is missing reads None, since the missing value
    is recorded before the display is built; the words Not answered appear
    only where the display is built from no recorded answers at all. *)
Theorem mapping_answer_shown (q : json) (number : Z)
    (options : list (string * list string)) (correct : list (string * string))
    (form_data : form) (question_prefix : string) :
  mapping_question q number options correct ->
  Forall (fun sub => title_below_256 sub = true) (dict_keys options) ->
  let correct_display :=
    join " | " ((fun sub => display_key sub ++ ": "
                           ++ default EmptyString (dict_get sub correct))
                <$> dict_keys options) in
  (exists data verdict,
     process_user_answer (mkAnswerProcessor q true false) form_data question_prefix
     = Ok (data, verdict,
           join " | "
             ((fun sub => display_key sub ++ ": "
                          ++ default "None"
                               (submitted number question_prefix form_data sub))
              <$> dict_keys options),
           correct_display))
  /\ get_mapping_answer_display q []
     = Ok (join " | " ((fun sub => display_key sub ++ ": Not answered")
                       <$> dict_keys options),
           correct_display).
Proof.
  intros Hmap _ correct_display. pose proof Hmap as (Hnum & Hopt & Hca & Hshape).
  split.
  - destruct (mapping_run q number options correct form_data question_prefix Hmap)
      as (display & Hdisplay & Hrun).
    unfold get_mapping_answer_display in Hdisplay.
    rewrite Hopt in Hdisplay. cbn [mbind result_bind as_dict] in Hdisplay.
    rewrite dict_keys_candidates_dict in Hdisplay.
    assert (Hparts := mapping_display_parts_spec q correct
              (collected number question_prefix form_data (dict_keys options))
              (fun sub => default "None"
                            (submitted number question_prefix form_data sub))
              (dict_keys options) Hca).
    rewrite Hparts in Hdisplay.
    + cbn [mbind result_bind fst snd] in Hdisplay. injection Hdisplay as <-.
      by eexists _, _.
    + intros sub Hin. unfold dict_get_default, collected.
      rewrite (foldl_answers_get number form_data question_prefix).
      rewrite bool_decide_eq_true_2 by done.
      by destruct (submitted number question_prefix form_data sub).
    + done.
  - unfold get_mapping_answer_display.
    rewrite Hopt. cbn [mbind result_bind as_dict].
    rewrite dict_keys_candidates_dict.
    by rewrite (mapping_display_parts_spec q correct []
                  (fun _ => "Not answered")).
Qed.

Lemma mapping_answer_shown_witness :
  exists data verdict,
    process_user_answer (mkAnswerProcessor two_slots true false)
      [("mapping_use_case", "search")] EmptyString
    = Ok (data, verdict, "Use Case: search | Service: None",
          "Use Case: search | Service: Kendra").
Proof.
  destruct (mapping_answer_shown two_slots 3
              [ ("use_case", ["chat"; "search"]);
                ("service", ["Lex"; "Kendra"; "Polly"]) ]
              [ ("use_case", "search"); ("service", "Kendra") ]
              [("mapping_use_case", "search")] EmptyString)
    as ((data & verdict & Hrun) & _).
  - split_and!; try reflexivity.
    intros sub Hin. apply dict_get_is_Some.
    revert Hin. unfold dict_keys. simpl. exact (fun H => H).
  - repeat constructor.
  - exists data, verdict. exact Hrun.
Defined.

(** ** Selections that fall back on the whole bank *)

(** Criteria the selection does not recognise select everything, without an
    error and without using the generator: a selection type other than
    range and random, a range one of whose bounds is 0, and a random count
    of 0. *)
Theorem selection_falls_back {G : Type} `{Random G} (questions : list json)
    (selection_type : string) (form_data : form) (g : G) :
  (selection_type <> "range" -> selection_type <> "random" ->
   _get_selected_questions questions selection_type form_data g = (Ok questions, g))
  /\ (forall a b,
        int_field form_data "start_range" 1 = Ok a ->
        int_field form_data "end_range" (Z.of_nat (length questions)) = Ok b ->
        a = 0%Z \/ b = 0%Z ->
        _get_selected_questions questions "range" form_data g = (Ok questions, g))
  /\ (int_field form_data "num_random" 10 = Ok 0%Z ->
      _get_selected_questions questions "random" form_data g = (Ok questions, g)).
Proof.
  split_and!.
  - intros Hrange Hrandom. unfold _get_selected_questions.
    apply String.eqb_neq in Hrange as ->, Hrandom as ->. done.
  - intros a b Ha Hb Hzero. unfold _get_selected_questions. eval_eqb.
    rewrite Ha, Hb. unfold get_question_subset. eval_eqb. cbn [andb given].
    by destruct Hzero as [-> | ->]; cbn; rewrite ?andb_false_r.
  - intros Hzero. unfold _get_selected_questions. eval_eqb. by rewrite Hzero.
Qed.

Lemma selection_falls_back_witness :
  _get_selected_questions small_bank "range"
    [("start_range", "0"); ("end_range", "1")] 0
  = (Ok small_bank, 0).
Proof.
  apply (selection_falls_back small_bank "range"
           [("start_range", "0"); ("end_range", "1")] 0) with (a := 0%Z) (b := 1%Z).
  - reflexivity.
  - reflexivity.
  - left. reflexivity.
Defined.

(** ** The results page on a question without a recorded answer *)

(** A question the results page reaches before it was answered: for a
    standard question whose correct labels are labels of options, and for a
    mapping question, the detail is built without an error, is marked
    incorrect and reads Not answered. *)
Theorem unanswered_reads_not_answered (q : json) (number : Z) (answers : dict) :
  dict_get (str_of_Z number) answers = None ->
  (exists options correct,
     standard_question q number options correct
     /\ correct <> []
     /\ Forall (fun c => c ∈ dict_keys options) correct)
  \/ (exists options correct, mapping_question q number options correct) ->
  exists detail,
    question_detail (JDict answers) q = Ok detail
    /\ detail_question detail = q
    /\ detail_is_correct detail = false
    /\ detail_user_answer detail = "Not answered".
Proof.
  intros Hnone [(options & correct & Hstd & Hne & Hlabels)
               |(options & correct & Hmap)].
  - pose proof Hstd as (Hnum & Hopt & Hca).
    assert (Hinit : AnswerProcessor_init q
                    = Ok (mkAnswerProcessor q false (Nat.ltb 1 (length correct)))).
    { unfold AnswerProcessor_init, is_multiple_choice_question, is_mapping_question.
      rewrite Hca. cbn -[Nat.ltb]. by rewrite length_fmap. }
    unfold question_detail. rewrite Hnum. cbn [mbind result_bind py_str as_dict].
    unfold dict_get_default. rewrite Hnone, Hinit.
    cbn [mbind result_bind truthy length Nat.eqb negb is_mapping is_multiple_choice].
    rewrite Hca. cbn [mbind result_bind].
    destruct (Nat.ltb 1 (length correct)).
    + rewrite labels_of_labels. cbn [mbind result_bind].
      rewrite (get_answer_text_from_keys_spec q options _ Hopt).
      cbn. by eexists.
    + destruct correct as [|c correct]; [done|].
      cbn [fmap list_fmap iter_list mbind result_bind].
      rewrite py_index_first. cbn [mbind result_bind].
      rewrite (render_one q options c Hopt). unfold rendered.
      apply Forall_cons in Hlabels as [Hc _].
      apply dict_get_is_Some in Hc as [t ->]. cbn. by eexists.
  - pose proof Hmap as (Hnum & Hopt & Hca & Hshape).
    assert (Hinit : AnswerProcessor_init q = Ok (mkAnswerProcessor q true false)).
    { unfold AnswerProcessor_init, is_multiple_choice_question, is_mapping_question.
      by rewrite Hca. }
    unfold question_detail. rewrite Hnum. cbn [mbind result_bind py_str as_dict].
    unfold dict_get_default. rewrite Hnone, Hinit.
    cbn [mbind result_bind truthy length Nat.eqb negb is_mapping is_multiple_choice].
    unfold get_mapping_answer_display.
    rewrite Hopt. cbn [mbind result_bind as_dict].
    rewrite dict_keys_candidates_dict.
    rewrite (mapping_display_parts_spec q correct [] (fun _ => "Not answered"));
      [|done..].
    cbn. by eexists.
Qed.

Lemma unanswered_reads_not_answered_witness :
  exists detail,
    question_detail (JDict []) two_of_three = Ok detail
    /\ detail_user_answer detail = "Not answered".
Proof.
  destruct (unanswered_reads_not_answered two_of_three 7 [])
    as (detail & Hdetail & _ & _ & Hshown).
  - reflexivity.
  - left. exists [("A", "S3"); ("B", "EC2"); ("C", "IAM")], ["A"; "B"].
    split; [repeat split|]. split; [discriminate | compute_done].
  - exists detail. split; [exact Hdetail | exact Hshown].
Defined.
